(** * External tool orchestration pipeline of the BB-Astro PixInsight scripts

    Shallow embedding of the three scripts of the repository

      - BB-Astro_DeepCosmicRay/BB_DeepCosmicRay.js   (module [DeepCR])
      - the L.A.Cosmic script (BB-Astro LACosmic)     (module [LACosmic])
      - BB-Astro_CosmeticCorrection/BB_CosmeticCorrection.js
                                                      (module [CosmeticCorrection])

    and of the two shell scripts run_deepcr.sh and run_lacosmic.sh that the
    first two start (module [Wrapper]).

    Each script exports the active image to a temporary file, runs a tool on
    it, loads the result back and removes the temporary files.  The scripts
    are JavaScript run by the PixInsight host; the host objects they call
    ([File], [Console], [ExternalProcess], [ImageWindow], [Parameters], ...)
    are modelled in module [Host] as operations on an explicit state, with the
    answers of the outside world (does a save succeed, when does the child
    process end, what does it write) collected in a read-only record.
    Exceptions are values: a computation returns [Ok] or [Throw]. *)

From Stdlib Require Import ZArith List String Ascii Bool Lia.
From Stdlib Require DecimalString.
Import ListNotations.

Local Open Scope string_scope.
Local Open Scope list_scope.
Local Open Scope Z_scope.

(* ------------------------------------------------------------------------- *)
(** ** JavaScript values used by the scripts *)
(* ------------------------------------------------------------------------- *)

Module JS.

(** A JavaScript number as the scripts use them: a decimal value typed in a
    dialog or stored in a process icon, [mant * 10^-decs]. *)
Record number := mkNum { mant : Z; decs : nat }.

Definition ofZ (z : Z) : number := mkNum z 0.

Definition pow10 (n : nat) : Z := 10 ^ Z.of_nat n.

Definition num_ltb (a b : number) : bool :=
  mant a * pow10 (decs b) <? mant b * pow10 (decs a).

Definition num_leb (a b : number) : bool :=
  mant a * pow10 (decs b) <=? mant b * pow10 (decs a).

Definition num_gtb (a b : number) : bool := num_ltb b a.

(** Decimal text of an integer, as [Number.prototype.toString] prints it. *)
Definition string_of_Z (z : Z) : string :=
  DecimalString.NilZero.string_of_int (Z.to_int z).

(** Drop the trailing zeros of the fractional part: [0.10] prints as [0.1]. *)
Fixpoint normalize (m : Z) (d : nat) : number :=
  match d with
  | O => mkNum m O
  | S d' => if (m mod 10 =? 0) then normalize (m / 10) d' else mkNum m d
  end.

Fixpoint pad_zeros (n : nat) (s : string) : string :=
  match n with
  | O => s
  | S n' => pad_zeros n' (String "0"%char s)
  end.

(** [toString] for values printed in plain decimal notation (the range the
    scripts' parameters live in). *)
Definition toString (x : number) : string :=
  let n := normalize (mant x) (decs x) in
  match decs n with
  | O => string_of_Z (mant n)
  | S _ =>
      let a := Z.abs (mant n) in
      let ip := string_of_Z (a / pow10 (decs n)) in
      let fp := string_of_Z (a mod pow10 (decs n)) in
      let fp' := pad_zeros (decs n - String.length fp) fp in
      ((if Z.ltb (mant n) 0 then "-" else "") ++ ip ++ "." ++ fp')%string
  end.

(** [s.endsWith(suffix)] *)
Definition endsWith (s suffix : string) : bool :=
  let n := String.length s in
  let m := String.length suffix in
  (m <=? n)%nat && String.eqb (String.substring (n - m) m s) suffix.

Definition lower_char (c : ascii) : ascii :=
  let n := nat_of_ascii c in
  if ((65 <=? n) && (n <=? 90))%nat then ascii_of_nat (n + 32) else c.

(** [s.toLowerCase()] on the ASCII range. *)
Fixpoint toLowerCase (s : string) : string :=
  match s with
  | EmptyString => EmptyString
  | String c s' => String (lower_char c) (toLowerCase s')
  end.

(** [s.substring(a, b)]: negative bounds count as [0]. *)
Definition substring (a b : Z) (s : string) : string :=
  let a' := Z.to_nat (Z.max 0 a) in
  let b' := Z.to_nat (Z.max 0 b) in
  String.substring (Nat.min a' b') (Nat.max a' b' - Nat.min a' b') s.

Fixpoint lastIndexOf_from (pat s : string) (i : nat) : option nat :=
  match s with
  | EmptyString => if String.prefix pat EmptyString then Some i else None
  | String _ s' =>
      match lastIndexOf_from pat s' (S i) with
      | Some j => Some j
      | None => if String.prefix pat s then Some i else None
      end
  end.

(** [s.lastIndexOf(pat)], [-1] when [pat] does not occur. *)
Definition lastIndexOf (pat s : string) : Z :=
  match lastIndexOf_from pat s 0 with
  | Some j => Z.of_nat j
  | None => -1
  end.

(** [arr.join(" ")] *)
Fixpoint join (sep : string) (l : list string) : string :=
  match l with
  | [] => ""
  | [x] => x
  | x :: l' => (x ++ sep ++ join sep l')%string
  end.

(** [s.trim()] on the ASCII white space. *)
Definition is_space (c : ascii) : bool :=
  let n := nat_of_ascii c in
  ((9 <=? n) && (n <=? 13) || (n =? 32))%nat.

Fixpoint trimStart (s : string) : string :=
  match s with
  | EmptyString => EmptyString
  | String c s' => if is_space c then trimStart s' else s
  end.

Fixpoint trimEnd (s : string) : string :=
  match s with
  | EmptyString => EmptyString
  | String c s' =>
      match trimEnd s' with
      | EmptyString => if is_space c then EmptyString else String c EmptyString
      | t => String c t
      end
  end.

Definition trim (s : string) : string := trimEnd (trimStart s).

End JS.


(* ------------------------------------------------------------------------- *)
(** ** The PixInsight host as the scripts see it *)
(* ------------------------------------------------------------------------- *)

Module Host.

(** An image: the geometry the scripts read and the pixel samples. *)
Record image := mkImage {
  width : Z;
  height : Z;
  numberOfChannels : Z;
  bitsPerSample : Z;
  isReal : bool;
  isColor : bool;
  pixels : list Z
}.

(** The exceptions of the scripts, one constructor per [throw] site (the
    argument is what the message is built from), and the exceptions the host
    raises itself. *)
Inductive error : Type :=
| WrapperNotFound (name path : string)
| NoActiveWindow
| ExportFailed (text : string)
| TimedOut
| ProcessFailed (tool : string) (exitCode : Z)
| OutputNotFound (text path : string)
| UnsupportedFormat (path : string)
| CannotOpen (text path : string)
| CannotRead (text path : string)
| OpenFailed
| HostException (what : string)
| LoopBudget.

(** [error.message] *)
Definition message (e : error) : string :=
  match e with
  | WrapperNotFound name path =>
      (name ++ " wrapper script not found at: " ++ path)%string
  | NoActiveWindow => "No active image window"
  | ExportFailed text => text
  | TimedOut => "Processing timed out after 10 minutes"
  | ProcessFailed tool c =>
      (tool ++ " failed with exit code " ++ JS.string_of_Z c)%string
  | OutputNotFound text path => (text ++ path)%string
  | UnsupportedFormat path => ("Unsupported image format: " ++ path)%string
  | CannotOpen text path => (text ++ path)%string
  | CannotRead text path => (text ++ path)%string
  | OpenFailed => "Failed to open corrected image"
  | HostException what => what
  | LoopBudget => "loop budget exhausted"
  end.

(** The failure kinds of the pipeline. *)
Inductive failure_kind : Type :=
| ValidationError
| ExportError
| LaunchError
| TimeoutError
| ProcessFailure
| OutputMissingError
| FormatError
| HostFailure.

Definition kind_of (e : error) : failure_kind :=
  match e with
  | WrapperNotFound _ _ => LaunchError
  | NoActiveWindow => ExportError
  | ExportFailed _ => ExportError
  | TimedOut => TimeoutError
  | ProcessFailed _ _ => ProcessFailure
  | OutputNotFound _ _ => OutputMissingError
  | UnsupportedFormat _ => FormatError
  | CannotOpen _ _ => FormatError
  | CannotRead _ _ => FormatError
  | OpenFailed => FormatError
  | HostException _ => HostFailure
  | LoopBudget => HostFailure
  end.

(** How a job ends: the [try] block ran to its end, or the [catch] block
    handled an exception.  The JavaScript functions return nothing; the
    model returns which of the two happened. *)
Inductive outcome : Type :=
| Success
| Failure (e : error).

Inductive level : Type := Info | Critical | Warning.

(** The views a job touches are distinct host objects: the main view of the
    target window, and the main view of a window the job created or opened
    (named by the id or the path it was made from). *)
Inductive view : Type :=
| TargetView
| WindowView (id : string).

Inductive icon : Type := StdIcon_Error | StdIcon_Information | StdIcon_Warning.

(** What a run does to the outside, newest first in [log].  [EvCleanup] is a
    marker written when a cleanup routine is entered, with the paths the job
    has recorded in its variables at that point. *)
Inductive event : Type :=
| EvConsole (l : level) (text : string)
| EvMessageBox (i : icon) (text : string)
| EvSaveAs (path : string)
| EvSpawn (cmd : string) (at_ms : Z)
| EvKill (at_ms : Z)
| EvExecuteGlobal (frames : string)
| EvOpen (format path : string)
| EvRead (path : string)
| EvClose (path : string)
| EvOpenWindow (path : string)
| EvForceClose (path : string)
| EvBeginProcess (v : view)
| EvAssign (v : view)
| EvEndProcess (v : view)
| EvNewWindow (id : string)
| EvShow (id : string)
| EvRemove (path : string)
| EvCleanup (recorded : list (option string)).

(** The answers of the outside world during one job. *)
Record host := mkHost {
  systemTempDirectory : string;
  (** [ImageWindow.activeWindow]: the id of its main view, if there is one *)
  activeWindow : option string;
  (** does [window.saveAs(path, ...)] succeed *)
  saveAs_ok : string -> bool;
  (** milliseconds after launch at which the child process ends, if ever *)
  proc_duration : option Z;
  proc_exitCode : Z;
  proc_stdout : string;
  proc_stderr : string;
  (** the files the tool leaves on disk *)
  tool_writes : list string;
  (** milliseconds one [processEvents()] call takes *)
  events_cost : nat;
  (** does [FileFormatInstance.open(path, "r")] succeed *)
  can_open : string -> bool;
  (** what [readImage] decodes, if it can *)
  decode : string -> option image;
  (** does [image.assign] on this view complete *)
  assign_ok : view -> bool;
  (** [ProcessInstance.fromIcon(id)] finds a process icon *)
  icon_exists : string -> bool
}.

(** The mutable part: clock, random source, file system, the image of the
    target view, the windows created by the job, the log, and the three
    function-scope path variables of the job ([null] is [None]). *)
Record state := mkState {
  now : Z;
  random : list string;
  files : list string;
  target : image;
  windows : list (string * image);
  log : list event;
  v_input : option string;
  v_output : option string;
  v_mask : option string
}.

Definition set_now (t : Z) (s : state) : state :=
  mkState t (random s) (files s) (target s) (windows s) (log s)
          (v_input s) (v_output s) (v_mask s).

Definition set_random (r : list string) (s : state) : state :=
  mkState (now s) r (files s) (target s) (windows s) (log s)
          (v_input s) (v_output s) (v_mask s).

Definition set_files (f : list string) (s : state) : state :=
  mkState (now s) (random s) f (target s) (windows s) (log s)
          (v_input s) (v_output s) (v_mask s).

Definition set_target (i : image) (s : state) : state :=
  mkState (now s) (random s) (files s) i (windows s) (log s)
          (v_input s) (v_output s) (v_mask s).

Definition set_windows (w : list (string * image)) (s : state) : state :=
  mkState (now s) (random s) (files s) (target s) w (log s)
          (v_input s) (v_output s) (v_mask s).

Definition set_log (l : list event) (s : state) : state :=
  mkState (now s) (random s) (files s) (target s) (windows s) l
          (v_input s) (v_output s) (v_mask s).

Definition set_v_input (p : option string) (s : state) : state :=
  mkState (now s) (random s) (files s) (target s) (windows s) (log s)
          p (v_output s) (v_mask s).

Definition set_v_output (p : option string) (s : state) : state :=
  mkState (now s) (random s) (files s) (target s) (windows s) (log s)
          (v_input s) p (v_mask s).

Definition set_v_mask (p : option string) (s : state) : state :=
  mkState (now s) (random s) (files s) (target s) (windows s) (log s)
          (v_input s) (v_output s) p.

(** The events of a run in the order they happened. *)
Definition trace (s : state) : list event := List.rev (log s).

(** *** Computations that may throw *)

Inductive result (A : Type) : Type :=
| Ok (a : A)
| Throw (e : error).

Arguments Ok {A} a.
Arguments Throw {A} e.

Definition M (A : Type) : Type := state -> result A * state.

Definition ret {A} (a : A) : M A := fun s => (Ok a, s).

Definition throw {A} (e : error) : M A := fun s => (Throw e, s).

Definition bind {A B} (m : M A) (k : A -> M B) : M B :=
  fun s =>
    match m s with
    | (Ok a, s1) => k a s1
    | (Throw e, s1) => (Throw e, s1)
    end.

(** [try { body } catch (e) { handler e }] *)
Definition try_catch {A} (body : M A) (handler : error -> M A) : M A :=
  fun s =>
    match body s with
    | (Ok a, s1) => (Ok a, s1)
    | (Throw e, s1) => handler e s1
    end.

(** [try { body } finally { fin }]: [fin] runs whatever [body] did, and an
    exception of [fin] replaces the result of [body]. *)
Definition try_finally {A} (body : M A) (fin : M unit) : M A :=
  fun s =>
    match body s with
    | (r, s1) =>
        match fin s1 with
        | (Ok _, s2) => (r, s2)
        | (Throw e, s2) => (Throw e, s2)
        end
    end.

Definition get {A} (f : state -> A) : M A := fun s => (Ok (f s), s).

Definition modify (f : state -> state) : M unit := fun s => (Ok tt, f s).

Definition when (b : bool) (m : M unit) : M unit := if b then m else ret tt.

End Host.

Declare Scope js_scope.
Delimit Scope js_scope with js.
Notation "x <- m ;; k" := (Host.bind m (fun x => k))
  (at level 61, m at next level, right associativity) : js_scope.
Notation "m ;; k" := (Host.bind m (fun _ => k))
  (at level 61, right associativity) : js_scope.

(** *** The host objects *)

Module PJSR.
Import Host.
Local Open Scope js_scope.

Definition emit (e : event) : M unit :=
  modify (fun s => set_log (e :: log s) s).

(** [Console] *)
Definition Console_writeln (text : string) : M unit := emit (EvConsole Info text).
Definition Console_write (text : string) : M unit := emit (EvConsole Info text).
Definition Console_criticalln (text : string) : M unit :=
  emit (EvConsole Critical text).
Definition Console_warningln (text : string) : M unit :=
  emit (EvConsole Warning text).

(** [(new MessageBox(text, TITLE, icon, StdButton_Ok)).execute()] *)
Definition MessageBox_execute (i : icon) (text : string) : M unit :=
  emit (EvMessageBox i text).

(** [File]: the file system is the list of the paths that exist. *)
Definition mem (p : string) (l : list string) : bool :=
  existsb (String.eqb p) l.

Definition remove_path (p : string) (l : list string) : list string :=
  filter (fun q => negb (String.eqb p q)) l.

Definition File_exists (p : string) : M bool :=
  get (fun s => mem p (files s)).

(** [File.remove(p)] removes an existing file and raises an exception when
    there is none. *)
Definition File_remove (p : string) : M unit :=
  fun s =>
    if mem p (files s)
    then (Ok tt, set_log (EvRemove p :: log s)
                   (set_files (remove_path p (files s)) s))
    else (Throw (HostException ("File.remove: " ++ p)%string),
          set_log (EvRemove p :: log s) s).

(** [File.extractName(path)]: the name without directories and without the
    suffix that starts at its last dot. *)
Definition File_extractName (path : string) : string :=
  let slash := JS.lastIndexOf "/" path in
  let name := JS.substring (slash + 1) (Z.of_nat (String.length path)) path in
  let dot := JS.lastIndexOf "." name in
  if dot <? 0 then name else JS.substring 0 dot name.

(** [Date.now()] *)
Definition Date_now : M Z := get now.

(** [Math.random().toString(36)]: the next text of the random source. *)
Definition Math_random_toString36 : M string :=
  fun s =>
    match random s with
    | [] => (Ok "0", s)
    | x :: r => (Ok x, set_random r s)
    end.

(** [window.saveAs(path, false, false, false, false)] *)
Definition saveAs (h : host) (path : string) : M bool :=
  fun s =>
    if saveAs_ok h path
    then (Ok true, set_log (EvSaveAs path :: log s)
                     (set_files (path :: files s) s))
    else (Ok false, set_log (EvSaveAs path :: log s) s).

(** [ExternalProcess]: the child starts when the object is made; what it
    leaves on disk is there from then on. *)
Record process := mkProcess { launched : Z }.

Definition ExternalProcess (h : host) (cmd : string) : M process :=
  fun s =>
    (Ok (mkProcess (now s)),
     set_log (EvSpawn cmd (now s) :: log s)
       (set_files (tool_writes h ++ files s) s)).

(** [process.waitForFinished(ms)] blocks until the child has ended or [ms]
    milliseconds have passed, and tells which. *)
Definition waitForFinished (h : host) (p : process) (ms : Z) : M bool :=
  fun s =>
    match proc_duration h with
    | Some d =>
        if launched p + d <=? now s + ms
        then (Ok true, set_now (Z.max (now s) (launched p + d)) s)
        else (Ok false, set_now (now s + ms) s)
    | None => (Ok false, set_now (now s + ms) s)
    end.

(** [processEvents()] *)
Definition processEvents (h : host) : M unit :=
  modify (fun s => set_now (now s + Z.of_nat (events_cost h)) s).

(** [process.kill()] *)
Definition kill (p : process) : M unit :=
  t <- Date_now ;; emit (EvKill t).

(** [FileFormatInstance]: [open], [readImage], [close] *)
Definition file_open (h : host) (format path : string) : M bool :=
  emit (EvOpen format path) ;; ret (can_open h path).

Definition file_readImage (h : host) (path : string) : M (option image) :=
  emit (EvRead path) ;; ret (decode h path).

Definition file_close (path : string) : M unit := emit (EvClose path).

(** [view.beginProcess(...)], [view.endProcess()] *)
Definition beginProcess (v : view) : M unit := emit (EvBeginProcess v).
Definition endProcess (v : view) : M unit := emit (EvEndProcess v).

Fixpoint update_window (id : string) (img : image)
         (l : list (string * image)) : list (string * image) :=
  match l with
  | [] => []
  | (id', i) :: l' =>
      if String.eqb id id' then (id', img) :: l'
      else (id', i) :: update_window id img l'
  end.

(** [view.image.assign(img)]: the call is logged; when the host completes it
    the image of the view is [img], otherwise it raises an exception and the
    image is as before. *)
Definition assign (h : host) (v : view) (img : image) : M unit :=
  emit (EvAssign v) ;;
  if assign_ok h v
  then modify (fun s =>
         match v with
         | TargetView => set_target img s
         | WindowView id => set_windows (update_window id img (windows s)) s
         end)
  else throw (HostException "Image.assign").

(** [new ImageWindow(width, height, channels, bits, real, color, id)] *)
Definition ImageWindow_new (w hh ch bits : Z) (real color : bool)
           (id : string) : M view :=
  emit (EvNewWindow id) ;;
  modify (fun s =>
    set_windows ((id, mkImage w hh ch bits real color []) :: windows s) s) ;;
  ret (WindowView id).

(** [window.show()] *)
Definition show (v : view) : M unit :=
  match v with
  | TargetView => emit (EvShow "")
  | WindowView id => emit (EvShow id)
  end.

End PJSR.

(* ------------------------------------------------------------------------- *)
(** ** Process supervision *)
(* ------------------------------------------------------------------------- *)

(** The wait loop that [executeDeepCR] and [executeCosmicRayRemoval] both
    contain, word for word but for the second line of the warning:

<<
      while (!process.waitForFinished(100)) {
         processEvents();
         if ((Date.now() - startTime) > TIMEOUT_MS) {
            process.kill();
            Console.criticalln(...); Console.criticalln(hint);
            throw new Error("Processing timed out after 10 minutes");
         }
      }
>>
    The recursion is on a number of rounds; [loop_rounds] is enough for the
    loop to end by itself (lemma [waitLoop_ends]). *)
Module Supervision.
Import Host PJSR.
Local Open Scope js_scope.

Definition POLL_MS : Z := 100.

Definition timeout_warning : string :=
  "WARNING BB: le traitement a pris trop de temps (timeout apres 10 minutes)!".

Fixpoint waitLoop (h : host) (p : process) (startTime TIMEOUT_MS : Z)
         (hint : string) (rounds : nat) : M unit :=
  match rounds with
  | O => throw LoopBudget
  | S rounds' =>
      finished <- waitForFinished h p POLL_MS ;;
      if finished then ret tt
      else
        processEvents h ;;
        t <- Date_now ;;
        if t - startTime >? TIMEOUT_MS then
          kill p ;;
          Console_criticalln timeout_warning ;;
          Console_criticalln hint ;;
          throw TimedOut
        else waitLoop h p startTime TIMEOUT_MS hint rounds'
  end.

Definition loop_rounds (TIMEOUT_MS : Z) : nat :=
  S (Z.to_nat (TIMEOUT_MS / POLL_MS)).

End Supervision.

(* ------------------------------------------------------------------------- *)
(** ** The persisted parameter form *)
(* ------------------------------------------------------------------------- *)

(** Modelled from the spec: the host's [Parameters] object, whose code is not
    part of the repository.  The persisted form is an ordered set of
    (name, type, value) triples with type bool, integer, real or string;
    [set] writes a key with the type of the value it is given, [has] tells
    whether a key is present, and the typed getters read a value of their
    type and raise an exception on a value of another type.  The two flags
    tell how the script was started. *)
Module Parameters.
Import Host.

Inductive pvalue : Type :=
| PBool (b : bool)
| PInt (z : Z)
| PReal (x : JS.number)
| PString (s : string).

Record t := mk {
  entries : list (string * pvalue);
  isGlobalTarget : bool;
  isViewTarget : bool
}.

Fixpoint set_entry (k : string) (v : pvalue) (l : list (string * pvalue))
  : list (string * pvalue) :=
  match l with
  | [] => [(k, v)]
  | (k', v') :: l' =>
      if String.eqb k k' then (k, v) :: l' else (k', v') :: set_entry k v l'
  end.

Fixpoint lookup (k : string) (l : list (string * pvalue)) : option pvalue :=
  match l with
  | [] => None
  | (k', v) :: l' => if String.eqb k k' then Some v else lookup k l'
  end.

Definition set (k : string) (v : pvalue) (P : t) : t :=
  mk (set_entry k v (entries P)) (isGlobalTarget P) (isViewTarget P).

Definition has (P : t) (k : string) : bool :=
  match lookup k (entries P) with Some _ => true | None => false end.

Definition type_error {A} (k : string) : result A :=
  Throw (HostException ("Parameters: " ++ k)%string).

Definition getBoolean (P : t) (k : string) : result bool :=
  match lookup k (entries P) with
  | Some (PBool b) => Ok b
  | _ => type_error k
  end.

Definition getInteger (P : t) (k : string) : result Z :=
  match lookup k (entries P) with
  | Some (PInt z) => Ok z
  | _ => type_error k
  end.

Definition getReal (P : t) (k : string) : result JS.number :=
  match lookup k (entries P) with
  | Some (PReal x) => Ok x
  | Some (PInt z) => Ok (JS.ofZ z)
  | _ => type_error k
  end.

Definition getString (P : t) (k : string) : result string :=
  match lookup k (entries P) with
  | Some (PString s) => Ok s
  | _ => type_error k
  end.

(** One step of an [importParameters]:
    [if (Parameters.has(k)) field = Parameters.getX(k);] *)
Definition import_key {A S} (P : t) (k : string)
           (getter : t -> string -> result A) (store : A -> S -> S)
           (c : result S) : result S :=
  match c with
  | Throw e => Throw e
  | Ok c0 =>
      if has P k
      then match getter P k with
           | Ok v => Ok (store v c0)
           | Throw e => Throw e
           end
      else Ok c0
  end.

(** An exception of a script function that runs outside the state. *)
Definition lift {A} (r : result A) : M A := fun s => (r, s).

End Parameters.

(* ------------------------------------------------------------------------- *)
(** ** BB_DeepCosmicRay.js *)
(* ------------------------------------------------------------------------- *)

(** Console banners, progress lines and the echo of the parameters are left
    out; the lines that report the process output, the outcome and the
    cleanup are kept. *)
Module DeepCR.
Import Host PJSR Supervision.
Local Open Scope js_scope.

(** The global settings object [BBDeepCR]. *)
Record settings := mkSettings {
  model : string;
  threshold : JS.number;
  inpaint : bool;
  preset : string;
  saveMask : bool;
  replaceActive : bool;
  wrapperScript : string;
  outputDir : string
}.

Definition BBDeepCR (scriptDir : string) (h : host) : settings :=
  mkSettings "WFC3-UVIS" (JS.mkNum 1 1) true "optimal" false false
             (scriptDir ++ "/run_deepcr.sh")%string (systemTempDirectory h).

Definition PRESETS (name : string) : option (string * JS.number) :=
  if String.eqb name "optimal" then Some ("WFC3-UVIS", JS.mkNum 1 1)
  else if String.eqb name "aggressive" then Some ("WFC3-UVIS", JS.mkNum 5 2)
  else if String.eqb name "conservative" then Some ("WFC3-UVIS", JS.mkNum 2 1)
  else if String.eqb name "acs_default" then Some ("ACS-WFC", JS.mkNum 5 1)
  else None.

Definition set_model (v : string) (c : settings) : settings :=
  mkSettings v (threshold c) (inpaint c) (preset c) (saveMask c)
             (replaceActive c) (wrapperScript c) (outputDir c).

Definition set_threshold (v : JS.number) (c : settings) : settings :=
  mkSettings (model c) v (inpaint c) (preset c) (saveMask c)
             (replaceActive c) (wrapperScript c) (outputDir c).

Definition set_preset (v : string) (c : settings) : settings :=
  mkSettings (model c) (threshold c) (inpaint c) v (saveMask c)
             (replaceActive c) (wrapperScript c) (outputDir c).

Definition set_saveMask (v : bool) (c : settings) : settings :=
  mkSettings (model c) (threshold c) (inpaint c) (preset c) v
             (replaceActive c) (wrapperScript c) (outputDir c).

Definition set_replaceActive (v : bool) (c : settings) : settings :=
  mkSettings (model c) (threshold c) (inpaint c) (preset c) (saveMask c)
             v (wrapperScript c) (outputDir c).

Definition exportParameters (c : settings) (P : Parameters.t) : Parameters.t :=
  let P := Parameters.set "model" (Parameters.PString (model c)) P in
  let P := Parameters.set "threshold" (Parameters.PReal (threshold c)) P in
  let P := Parameters.set "preset" (Parameters.PString (preset c)) P in
  let P := Parameters.set "saveMask" (Parameters.PBool (saveMask c)) P in
  Parameters.set "replaceActive" (Parameters.PBool (replaceActive c)) P.

Definition importParameters (P : Parameters.t) (c : settings) : result settings :=
  let c := Parameters.import_key P "model" Parameters.getString set_model (Ok c) in
  let c := Parameters.import_key P "threshold" Parameters.getReal set_threshold c in
  let c := Parameters.import_key P "preset" Parameters.getString set_preset c in
  let c := Parameters.import_key P "saveMask" Parameters.getBoolean set_saveMask c in
  Parameters.import_key P "replaceActive" Parameters.getBoolean set_replaceActive c.

Definition generateSecureTempFilename (h : host) : M string :=
  r1 <- Math_random_toString36 ;;
  r2 <- Math_random_toString36 ;;
  let random := (JS.substring 2 15 r1 ++ JS.substring 2 15 r2)%string in
  t <- Date_now ;;
  ret (systemTempDirectory h ++ "/bbdcr_" ++
       JS.string_of_Z t ++ "_" ++ random ++ ".xisf")%string.

Definition buildCommandArray (c : settings) (inputPath : string) : list string :=
  let cmd := [ "/bin/bash"; wrapperScript c; inputPath; outputDir c;
               JS.toString (threshold c) ] in
  let cmd :=
    if negb (String.eqb (preset c) "") && negb (String.eqb (preset c) "custom")
    then cmd ++ ["--preset"; preset c] else cmd in
  let cmd := if saveMask c then cmd ++ ["--save-mask"] else cmd in
  cmd ++ ["--format"; "XISF"].

Definition loadImage (h : host) (path : string) : M image :=
  let extension := JS.toLowerCase path in
  formatExt <-
    (if JS.endsWith extension ".xisf" then ret ".xisf"
     else if JS.endsWith extension ".fits" || JS.endsWith extension ".fit"
          then ret ".fits"
          else throw (UnsupportedFormat path)) ;;
  opened <- file_open h formatExt path ;;
  if negb opened then throw (CannotOpen "Cannot open image file: " path)
  else
    r <- file_readImage h path ;;
    match r with
    | None => file_close path ;; throw (CannotRead "Cannot read image: " path)
    | Some image => file_close path ;; ret image
    end.

Definition TIMEOUT_MS : Z := 600000.

Definition timeout_hint : string :=
  "Essaie avec une image plus petite ou verifie que DeepCR est bien installe.".

(** The name of the temporary file without its suffix, as the script
    computes it after the process has ended. *)
Definition tempBaseName_of (tempFile : string) : string :=
  let tempBaseName := File_extractName tempFile in
  if JS.endsWith tempBaseName ".xisf" || JS.endsWith tempBaseName ".fits"
     || JS.endsWith tempBaseName ".fit"
  then JS.substring 0 (JS.lastIndexOf "." tempBaseName) tempBaseName
  else tempBaseName.

Definition cleanedPath_of (c : settings) (tempFile : string) : string :=
  (outputDir c ++ "/" ++ tempBaseName_of tempFile ++ "_deepcr_th" ++
   JS.toString (threshold c) ++ "_cleaned.xisf")%string.

Definition maskPath_of (c : settings) (tempFile : string) : string :=
  (outputDir c ++ "/" ++ tempBaseName_of tempFile ++ "_deepcr_th" ++
   JS.toString (threshold c) ++ "_mask.xisf")%string.

(** [if (BBDeepCR.replaceActive) { ... } else { ... }]: the result goes into
    the active window or into a new one. *)
Definition presentResult (c : settings) (h : host) (originalImageName : string)
           (cleanedImage : image) : M unit :=
  if replaceActive c then
    beginProcess TargetView ;;
    assign h TargetView cleanedImage ;;
    endProcess TargetView ;;
    Console_writeln "Active window updated with cleaned image"
  else
    newWindow <- ImageWindow_new (width cleanedImage) (height cleanedImage)
                   (numberOfChannels cleanedImage) (bitsPerSample cleanedImage)
                   (isReal cleanedImage) (isColor cleanedImage)
                   (originalImageName ++ "_DeepCR")%string ;;
    beginProcess newWindow ;;
    assign h newWindow cleanedImage ;;
    endProcess newWindow ;;
    show newWindow ;;
    Console_writeln ("New window created: " ++ originalImageName ++ "_DeepCR")%string.

(** [if (BBDeepCR.saveMask) { ... }] *)
Definition presentMask (c : settings) (h : host) (originalImageName tempFile : string)
  : M unit :=
  if saveMask c then
    let maskPath := maskPath_of c tempFile in
    modify (set_v_mask (Some maskPath)) ;;
    present <- File_exists maskPath ;;
    if present then
      Console_writeln "<b>Loading cosmic ray mask...</b>" ;;
      maskImage <- loadImage h maskPath ;;
      maskWindow <- ImageWindow_new (width maskImage) (height maskImage)
                      (numberOfChannels maskImage) 8 false false
                      (originalImageName ++ "_CR_Mask")%string ;;
      beginProcess maskWindow ;;
      assign h maskWindow maskImage ;;
      endProcess maskWindow ;;
      show maskWindow ;;
      Console_writeln ("Mask window created: " ++ originalImageName ++ "_CR_Mask")%string
    else ret tt
  else ret tt.

(** The [try] block of [executeDeepCR]. *)
Definition tryBlock (c : settings) (h : host) : M unit :=
  wrapper <- File_exists (wrapperScript c) ;;
  if negb wrapper
  then throw (WrapperNotFound "run_deepcr.sh" (wrapperScript c))
  else
    match activeWindow h with
    | None => throw NoActiveWindow
    | Some originalImageName =>
        tempFile <- generateSecureTempFilename h ;;
        modify (set_v_input (Some tempFile)) ;;
        saved <- saveAs h tempFile ;;
        if negb saved then throw (ExportFailed "Failed to export to FITS")
        else
          let cmd := buildCommandArray c tempFile in
          let cmdString := JS.join " " cmd in
          process <- ExternalProcess h cmdString ;;
          startTime <- Date_now ;;
          waitLoop h process startTime TIMEOUT_MS timeout_hint
                   (loop_rounds TIMEOUT_MS) ;;
          let stdout := proc_stdout h in
          let stderr := proc_stderr h in
          let exitCode := proc_exitCode h in
          when (0 <? String.length stderr)%nat (Console_write stderr) ;;
          when (0 <? String.length stdout)%nat (Console_write stdout) ;;
          Console_writeln ("Exit code: " ++ JS.string_of_Z exitCode)%string ;;
          if negb (exitCode =? 0) then throw (ProcessFailed "DeepCR" exitCode)
          else
            let cleanedPath := cleanedPath_of c tempFile in
            modify (set_v_output (Some cleanedPath)) ;;
            present <- File_exists cleanedPath ;;
            if negb present
            then throw (OutputNotFound "Cleaned image not found at: " cleanedPath)
            else
              cleanedImage <- loadImage h cleanedPath ;;
              presentResult c h originalImageName cleanedImage ;;
              presentMask c h originalImageName tempFile ;;
              Console_writeln "<b>Success!</b> Cosmic rays removed using DeepCR"
    end.

(** The [catch] block. *)
Definition catchBlock (e : error) : M unit :=
  Console_criticalln ("<b>Error:</b> " ++ message e)%string ;;
  MessageBox_execute StdIcon_Error (message e).

(** [if (path && File.exists(path)) { File.remove(path); Console.writeln(...) }];
    a path variable is falsy when it is [null] or the empty string. *)
Definition removeIfPresent (path : option string) (note : string) : M unit :=
  match path with
  | None => ret tt
  | Some p =>
      if String.eqb p "" then ret tt
      else
        present <- File_exists p ;;
        if present
        then File_remove p ;; Console_writeln (note ++ p)%string
        else ret tt
  end.

(** The [finally] block. *)
Definition finallyBlock : M unit :=
  tempFile <- get v_input ;;
  cleanedPath <- get v_output ;;
  maskPath <- get v_mask ;;
  emit (EvCleanup [tempFile; cleanedPath; maskPath]) ;;
  Console_writeln "<b>Cleaning up temporary files...</b>" ;;
  removeIfPresent tempFile "Removed temp input: " ;;
  removeIfPresent cleanedPath "Removed temp cleaned: " ;;
  removeIfPresent maskPath "Removed temp mask: ".

Definition executeDeepCR (c : settings) (h : host) : M outcome :=
  modify (set_v_input None) ;;
  modify (set_v_output None) ;;
  modify (set_v_mask None) ;;
  try_finally
    (try_catch (tryBlock c h ;; ret Success)
               (fun e => catchBlock e ;; ret (Failure e)))
    finallyBlock.

(** *** The dialog: what its controls do to the settings *)

Record dialog := mkDialog { validationState_threshold : bool }.

Inductive ui_action : Type :=
| SelectPreset (index : nat)
| SelectModel (index : nat)
| TypeThreshold (parsed : option JS.number)
| CheckSaveMask (checked : bool)
| CheckReplaceActive (checked : bool)
| ClickExecute
| ClickCancel.

Definition presetNames : list string :=
  ["optimal"; "aggressive"; "conservative"; "acs_default"; "custom"].

Definition presetCombo_onItemSelected (index : nat) (c : settings) : settings :=
  let c := set_preset (nth index presetNames "") c in
  if negb (String.eqb (preset c) "custom") then
    match PRESETS (preset c) with
    | Some (m, th) => set_threshold th (set_model m c)
    | None => c
    end
  else c.

Definition modelCombo_onItemSelected (index : nat) (c : settings) : settings :=
  set_preset "custom"
    (set_model (if Nat.eqb index 0 then "WFC3-UVIS" else "ACS-WFC") c).

(** [thresholdEdit.onTextUpdated]; [parsed] is [parseFloat(text)], [None]
    for [NaN]. *)
Definition thresholdEdit_onTextUpdated (parsed : option JS.number)
           (c : settings) (d : dialog) : settings * dialog :=
  match parsed with
  | None => (c, mkDialog false)
  | Some value =>
      if JS.num_leb value (JS.ofZ 0) || JS.num_gtb value (JS.ofZ 1)
      then (c, mkDialog false)
      else (set_preset "custom" (set_threshold value c), mkDialog true)
  end.

Definition invalid_parameter_text : string :=
  "Invalid parameter value detected: Threshold must be between 0.01 and 1.0".

(** [dialog.execute()] with the user doing [actions]: the dialog ends with a
    click on Execute that passes the check, with Cancel, or when it is
    closed. *)
Fixpoint dialog_execute (actions : list ui_action) (c : settings) (d : dialog)
         (h : host) : M (option outcome) :=
  match actions with
  | [] => ret None
  | a :: rest =>
      match a with
      | SelectPreset i => dialog_execute rest (presetCombo_onItemSelected i c) d h
      | SelectModel i => dialog_execute rest (modelCombo_onItemSelected i c) d h
      | TypeThreshold parsed =>
          let (c', d') := thresholdEdit_onTextUpdated parsed c d in
          dialog_execute rest c' d' h
      | CheckSaveMask b => dialog_execute rest (set_saveMask b c) d h
      | CheckReplaceActive b => dialog_execute rest (set_replaceActive b c) d h
      | ClickExecute =>
          if negb (validationState_threshold d) then
            MessageBox_execute StdIcon_Warning invalid_parameter_text ;;
            dialog_execute rest c d h
          else
            o <- executeDeepCR c h ;; ret (Some o)
      | ClickCancel => ret None
      end
  end.

(** [main()]: started from a process icon on a view the job runs at once
    with the imported settings; otherwise the dialog is shown. *)
Definition main (P : Parameters.t) (c : settings) (actions : list ui_action)
           (h : host) : M (option outcome) :=
  c <- (if Parameters.isGlobalTarget P || Parameters.isViewTarget P
        then Parameters.lift (importParameters P c) else ret c) ;;
  if Parameters.isViewTarget P then
    Console_writeln "<b>Executing from saved process icon...</b>" ;;
    o <- executeDeepCR c h ;; ret (Some o)
  else
    match activeWindow h with
    | None =>
        MessageBox_execute StdIcon_Error "There is no active image window." ;;
        ret None
    | Some _ => dialog_execute actions c (mkDialog true) h
    end.

End DeepCR.

(* ------------------------------------------------------------------------- *)
(** ** The L.A.Cosmic script (BB-Astro LACosmic) *)
(* ------------------------------------------------------------------------- *)

Module LACosmic.
Import Host PJSR Supervision.
Local Open Scope js_scope.

(** The global settings object [BBLACosmic]. *)
Record settings := mkSettings {
  sigclip : JS.number;
  objlim : JS.number;
  readnoise : JS.number;
  gain : JS.number;
  niter : Z;
  cleantype : string;
  sigfrac : JS.number;
  sepmed : bool;
  fsmode : string;
  psfmodel : string;
  psffwhm : JS.number;
  psfsize : Z;
  psfbeta : JS.number;
  satlevel : Z;
  saveMask : bool;
  replaceActive : bool;
  wrapperScript : string;
  outputDir : string
}.

Definition BBLACosmic (scriptDir : string) (h : host) : settings :=
  mkSettings (JS.mkNum 15 1) (JS.mkNum 15 1) (JS.mkNum 90 1) (JS.mkNum 10 1)
             6 "meanmask" (JS.mkNum 3 1) true "median" "gauss"
             (JS.mkNum 25 1) 7 (JS.mkNum 4765 3) 65535 false false
             (scriptDir ++ "/run_lacosmic.sh")%string (systemTempDirectory h).

Definition set_sigclip (v : JS.number) (c : settings) : settings :=
  mkSettings v (objlim c) (readnoise c) (gain c) (niter c) (cleantype c)
    (sigfrac c) (sepmed c) (fsmode c) (psfmodel c) (psffwhm c) (psfsize c)
    (psfbeta c) (satlevel c) (saveMask c) (replaceActive c) (wrapperScript c)
    (outputDir c).

Definition set_objlim (v : JS.number) (c : settings) : settings :=
  mkSettings (sigclip c) v (readnoise c) (gain c) (niter c) (cleantype c)
    (sigfrac c) (sepmed c) (fsmode c) (psfmodel c) (psffwhm c) (psfsize c)
    (psfbeta c) (satlevel c) (saveMask c) (replaceActive c) (wrapperScript c)
    (outputDir c).

Definition set_readnoise (v : JS.number) (c : settings) : settings :=
  mkSettings (sigclip c) (objlim c) v (gain c) (niter c) (cleantype c)
    (sigfrac c) (sepmed c) (fsmode c) (psfmodel c) (psffwhm c) (psfsize c)
    (psfbeta c) (satlevel c) (saveMask c) (replaceActive c) (wrapperScript c)
    (outputDir c).

Definition set_gain (v : JS.number) (c : settings) : settings :=
  mkSettings (sigclip c) (objlim c) (readnoise c) v (niter c) (cleantype c)
    (sigfrac c) (sepmed c) (fsmode c) (psfmodel c) (psffwhm c) (psfsize c)
    (psfbeta c) (satlevel c) (saveMask c) (replaceActive c) (wrapperScript c)
    (outputDir c).

Definition set_niter (v : Z) (c : settings) : settings :=
  mkSettings (sigclip c) (objlim c) (readnoise c) (gain c) v (cleantype c)
    (sigfrac c) (sepmed c) (fsmode c) (psfmodel c) (psffwhm c) (psfsize c)
    (psfbeta c) (satlevel c) (saveMask c) (replaceActive c) (wrapperScript c)
    (outputDir c).

Definition set_cleantype (v : string) (c : settings) : settings :=
  mkSettings (sigclip c) (objlim c) (readnoise c) (gain c) (niter c) v
    (sigfrac c) (sepmed c) (fsmode c) (psfmodel c) (psffwhm c) (psfsize c)
    (psfbeta c) (satlevel c) (saveMask c) (replaceActive c) (wrapperScript c)
    (outputDir c).

Definition set_saveMask (v : bool) (c : settings) : settings :=
  mkSettings (sigclip c) (objlim c) (readnoise c) (gain c) (niter c)
    (cleantype c) (sigfrac c) (sepmed c) (fsmode c) (psfmodel c) (psffwhm c)
    (psfsize c) (psfbeta c) (satlevel c) v (replaceActive c) (wrapperScript c)
    (outputDir c).

Definition set_replaceActive (v : bool) (c : settings) : settings :=
  mkSettings (sigclip c) (objlim c) (readnoise c) (gain c) (niter c)
    (cleantype c) (sigfrac c) (sepmed c) (fsmode c) (psfmodel c) (psffwhm c)
    (psfsize c) (psfbeta c) (satlevel c) (saveMask c) v (wrapperScript c)
    (outputDir c).

Definition exportParameters (c : settings) (P : Parameters.t) : Parameters.t :=
  let P := Parameters.set "sigclip" (Parameters.PReal (sigclip c)) P in
  let P := Parameters.set "objlim" (Parameters.PReal (objlim c)) P in
  let P := Parameters.set "readnoise" (Parameters.PReal (readnoise c)) P in
  let P := Parameters.set "gain" (Parameters.PReal (gain c)) P in
  let P := Parameters.set "niter" (Parameters.PInt (niter c)) P in
  let P := Parameters.set "cleantype" (Parameters.PString (cleantype c)) P in
  let P := Parameters.set "saveMask" (Parameters.PBool (saveMask c)) P in
  Parameters.set "replaceActive" (Parameters.PBool (replaceActive c)) P.

Definition importParameters (P : Parameters.t) (c : settings) : result settings :=
  let c := Parameters.import_key P "sigclip" Parameters.getReal set_sigclip (Ok c) in
  let c := Parameters.import_key P "objlim" Parameters.getReal set_objlim c in
  let c := Parameters.import_key P "readnoise" Parameters.getReal set_readnoise c in
  let c := Parameters.import_key P "gain" Parameters.getReal set_gain c in
  let c := Parameters.import_key P "niter" Parameters.getInteger set_niter c in
  let c := Parameters.import_key P "cleantype" Parameters.getString set_cleantype c in
  let c := Parameters.import_key P "saveMask" Parameters.getBoolean set_saveMask c in
  Parameters.import_key P "replaceActive" Parameters.getBoolean set_replaceActive c.

Definition generateSecureTempFilename (h : host) : M string :=
  r1 <- Math_random_toString36 ;;
  r2 <- Math_random_toString36 ;;
  let random := (JS.substring 2 15 r1 ++ JS.substring 2 15 r2)%string in
  t <- Date_now ;;
  ret (systemTempDirectory h ++ "/bblac_" ++
       JS.string_of_Z t ++ "_" ++ random ++ ".fits")%string.

Definition buildCommandArray (c : settings) (inputPath : string) : list string :=
  let cmd :=
    [ "/bin/bash"; wrapperScript c; inputPath;
      "--outdir"; outputDir c;
      "--suffix"; "_crr";
      "--sigclip"; JS.toString (sigclip c);
      "--sigfrac"; JS.toString (sigfrac c);
      "--objlim"; JS.toString (objlim c);
      "--gain"; JS.toString (gain c);
      "--readnoise"; JS.toString (readnoise c);
      "--satlevel"; JS.string_of_Z (satlevel c);
      "--niter"; JS.string_of_Z (niter c);
      "--cleantype"; cleantype c;
      "--sepmed"; (if sepmed c then "True" else "False");
      "--fsmode"; fsmode c;
      "--psfmodel"; psfmodel c;
      "--psffwhm"; JS.toString (psffwhm c);
      "--psfsize"; JS.string_of_Z (psfsize c);
      "--psfbeta"; JS.toString (psfbeta c) ] in
  let cmd := if saveMask c then cmd ++ ["--save-mask"] else cmd in
  cmd ++ ["--verbose"].

Definition loadFITSImage (h : host) (path : string) : M image :=
  opened <- file_open h ".fits" path ;;
  if negb opened then throw (CannotOpen "Cannot open FITS file: " path)
  else
    r <- file_readImage h path ;;
    match r with
    | None => file_close path ;; throw (CannotRead "Cannot read FITS image: " path)
    | Some image => file_close path ;; ret image
    end.

(** The body of the loop of [cleanupTempFiles] for one path. *)
Definition cleanupOne (path : option string) : M unit :=
  match path with
  | None => ret tt
  | Some p =>
      if String.eqb p "" then ret tt
      else
        present <- File_exists p ;;
        if present
        then try_catch (File_remove p)
               (fun _ => Console_warningln
                  ("Warning: Could not remove temporary file: " ++ p)%string)
        else ret tt
  end.

Fixpoint cleanupLoop (filePaths : list (option string)) : M unit :=
  match filePaths with
  | [] => ret tt
  | path :: rest => cleanupOne path ;; cleanupLoop rest
  end.

Definition cleanupTempFiles (filePaths : list (option string)) : M unit :=
  emit (EvCleanup filePaths) ;;
  cleanupLoop filePaths.

Definition TIMEOUT_MS : Z := 600000.

Definition timeout_hint : string :=
  "Essaie avec une image plus petite ou reduis le nombre d'iterations.".

Definition tempBaseName_of (tempFile : string) : string :=
  let tempBaseName := File_extractName tempFile in
  if JS.endsWith tempBaseName ".fits" || JS.endsWith tempBaseName ".fit"
  then JS.substring 0 (JS.lastIndexOf "." tempBaseName) tempBaseName
  else tempBaseName.

Definition outputPath_of (c : settings) (tempFile : string) : string :=
  (outputDir c ++ "/" ++ tempBaseName_of tempFile ++ "_crr.fits")%string.

Definition maskPath_of (c : settings) (tempFile : string) : string :=
  (outputDir c ++ "/" ++ tempBaseName_of tempFile ++ "_crm.fits")%string.

(** [if (BBLACosmic.replaceActive) { ... } else { ... }] *)
Definition presentResult (c : settings) (h : host) (originalImageName : string)
           (cleanImage : image) : M unit :=
  if replaceActive c then
    beginProcess TargetView ;;
    assign h TargetView cleanImage ;;
    endProcess TargetView ;;
    Console_writeln "Active image replaced with cleaned version"
  else
    cleanWindow <- ImageWindow_new (width cleanImage) (height cleanImage)
                     (numberOfChannels cleanImage) (bitsPerSample cleanImage)
                     (isReal cleanImage) (isColor cleanImage)
                     (originalImageName ++ "_LACosmic")%string ;;
    beginProcess cleanWindow ;;
    assign h cleanWindow cleanImage ;;
    endProcess cleanWindow ;;
    show cleanWindow ;;
    Console_writeln ("Created new window: " ++ originalImageName ++ "_LACosmic")%string.

(** [if (BBLACosmic.saveMask && File.exists(maskPath)) { ... }] *)
Definition presentMask (c : settings) (h : host) (originalImageName maskPath : string)
  : M unit :=
  present <- (if saveMask c then File_exists maskPath else ret false) ;;
  if present then
    Console_writeln "<b>Loading cosmic ray mask...</b>" ;;
    maskImage <- loadFITSImage h maskPath ;;
    maskWindow <- ImageWindow_new (width maskImage) (height maskImage)
                    (numberOfChannels maskImage) (bitsPerSample maskImage)
                    (isReal maskImage) (isColor maskImage)
                    (originalImageName ++ "_LACosmic_mask")%string ;;
    beginProcess maskWindow ;;
    assign h maskWindow maskImage ;;
    endProcess maskWindow ;;
    show maskWindow ;;
    Console_writeln "Created mask window (1=CR, 0=clean)"
  else ret tt.

(** The three path variables, as the array [[tempFile, outputPath, maskPath]]. *)
Definition recordedPaths : M (list (option string)) :=
  tempFile <- get v_input ;;
  outputPath <- get v_output ;;
  maskPath <- get v_mask ;;
  ret [tempFile; outputPath; maskPath].

(** The [try] block of [executeCosmicRayRemoval]. *)
Definition tryBlock (c : settings) (h : host) : M unit :=
  wrapper <- File_exists (wrapperScript c) ;;
  if negb wrapper
  then throw (WrapperNotFound "run_lacosmic.sh" (wrapperScript c))
  else
    match activeWindow h with
    | None => throw NoActiveWindow
    | Some originalImageName =>
        tempFile <- generateSecureTempFilename h ;;
        modify (set_v_input (Some tempFile)) ;;
        saved <- saveAs h tempFile ;;
        if negb saved then throw (ExportFailed "Failed to export to FITS")
        else
          let cmd := buildCommandArray c tempFile in
          let cmdString := JS.join " " cmd in
          process <- ExternalProcess h cmdString ;;
          startTime <- Date_now ;;
          waitLoop h process startTime TIMEOUT_MS timeout_hint
                   (loop_rounds TIMEOUT_MS) ;;
          let stdout := proc_stdout h in
          let stderr := proc_stderr h in
          let exitCode := proc_exitCode h in
          when (0 <? String.length stderr)%nat (Console_write stderr) ;;
          when (0 <? String.length stdout)%nat (Console_write stdout) ;;
          if negb (exitCode =? 0) then throw (ProcessFailed "L.A.Cosmic" exitCode)
          else
            let outputPath := outputPath_of c tempFile in
            let maskPath := maskPath_of c tempFile in
            modify (set_v_output (Some outputPath)) ;;
            modify (set_v_mask (Some maskPath)) ;;
            present <- File_exists outputPath ;;
            if negb present
            then throw (OutputNotFound "Output file not found: " outputPath)
            else
              cleanImage <- loadFITSImage h outputPath ;;
              presentResult c h originalImageName cleanImage ;;
              presentMask c h originalImageName maskPath ;;
              paths <- recordedPaths ;;
              cleanupTempFiles paths ;;
              Console_writeln "<b>Cosmic ray removal completed successfully!</b>"
    end.

(** The [catch] block. *)
Definition catchBlock (e : error) : M unit :=
  Console_criticalln ("*** Error: " ++ message e)%string ;;
  paths <- recordedPaths ;;
  cleanupTempFiles paths ;;
  MessageBox_execute StdIcon_Error
    ("BB-Astro LACosmic failed: " ++ message e)%string.

Definition executeCosmicRayRemoval (c : settings) (h : host) : M outcome :=
  modify (set_v_input None) ;;
  modify (set_v_output None) ;;
  modify (set_v_mask None) ;;
  try_catch (tryBlock c h ;; ret Success)
            (fun e => catchBlock e ;; ret (Failure e)).

(** *** The dialog *)

Record dialog := mkDialog {
  valid_sigclip : bool;
  valid_objlim : bool;
  valid_readnoise : bool;
  valid_gain : bool
}.

Inductive ui_action : Type :=
| TypeSigclip (parsed : option JS.number)
| TypeObjlim (parsed : option JS.number)
| TypeReadnoise (parsed : option JS.number)
| TypeGain (parsed : option JS.number)
| SpinNiter (value : Z)
| CheckSaveMask (checked : bool)
| CheckReplaceActive (checked : bool)
| ClickClean
| ClickClose.

(** The test of the four [onTextUpdated] handlers:
    [isNaN(val) || val < lo || val > hi]. *)
Definition out_of_range (parsed : option JS.number) (lo hi : JS.number) : bool :=
  match parsed with
  | None => true
  | Some val => JS.num_ltb val lo || JS.num_gtb val hi
  end.

Definition onTextUpdated (parsed : option JS.number) (lo hi : JS.number)
           (store : JS.number -> settings -> settings)
           (flag : bool -> dialog -> dialog) (c : settings) (d : dialog)
  : settings * dialog :=
  match parsed with
  | None => (c, flag false d)
  | Some val =>
      if out_of_range parsed lo hi then (c, flag false d)
      else (store val c, flag true d)
  end.

Definition flag_sigclip (b : bool) (d : dialog) : dialog :=
  mkDialog b (valid_objlim d) (valid_readnoise d) (valid_gain d).
Definition flag_objlim (b : bool) (d : dialog) : dialog :=
  mkDialog (valid_sigclip d) b (valid_readnoise d) (valid_gain d).
Definition flag_readnoise (b : bool) (d : dialog) : dialog :=
  mkDialog (valid_sigclip d) (valid_objlim d) b (valid_gain d).
Definition flag_gain (b : bool) (d : dialog) : dialog :=
  mkDialog (valid_sigclip d) (valid_objlim d) (valid_readnoise d) b.

Definition all_valid (d : dialog) : bool :=
  valid_sigclip d && valid_objlim d && valid_readnoise d && valid_gain d.

Fixpoint dialog_execute (actions : list ui_action) (c : settings) (d : dialog)
         (h : host) : M (option outcome) :=
  match actions with
  | [] => ret None
  | a :: rest =>
      match a with
      | TypeSigclip v =>
          let (c', d') := onTextUpdated v (JS.mkNum 1 1) (JS.ofZ 10)
                            set_sigclip flag_sigclip c d in
          dialog_execute rest c' d' h
      | TypeObjlim v =>
          let (c', d') := onTextUpdated v (JS.mkNum 1 1) (JS.ofZ 10)
                            set_objlim flag_objlim c d in
          dialog_execute rest c' d' h
      | TypeReadnoise v =>
          let (c', d') := onTextUpdated v (JS.mkNum 1 1) (JS.ofZ 100)
                            set_readnoise flag_readnoise c d in
          dialog_execute rest c' d' h
      | TypeGain v =>
          let (c', d') := onTextUpdated v (JS.mkNum 1 1) (JS.ofZ 10)
                            set_gain flag_gain c d in
          dialog_execute rest c' d' h
      | SpinNiter v => dialog_execute rest (set_niter v c) d h
      | CheckSaveMask b => dialog_execute rest (set_saveMask b c) d h
      | CheckReplaceActive b => dialog_execute rest (set_replaceActive b c) d h
      | ClickClean =>
          if negb (all_valid d) then
            MessageBox_execute StdIcon_Warning "Invalid parameter values detected" ;;
            dialog_execute rest c d h
          else
            o <- executeCosmicRayRemoval c h ;; ret (Some o)
      | ClickClose => ret None
      end
  end.

Definition main (P : Parameters.t) (c : settings) (actions : list ui_action)
           (h : host) : M (option outcome) :=
  c <- (if Parameters.isGlobalTarget P || Parameters.isViewTarget P
        then Parameters.lift (importParameters P c) else ret c) ;;
  if Parameters.isViewTarget P then
    o <- executeCosmicRayRemoval c h ;; ret (Some o)
  else
    match activeWindow h with
    | None =>
        MessageBox_execute StdIcon_Warning "No active image." ;;
        ret None
    | Some _ => dialog_execute actions c (mkDialog true true true true) h
    end.

End LACosmic.

(* ------------------------------------------------------------------------- *)
(** ** BB_CosmeticCorrection.js *)
(* ------------------------------------------------------------------------- *)

Module CosmeticCorrection.
Import Host PJSR.
Local Open Scope js_scope.

(** The script data [data] (its [targetView] is the target view of the
    host). *)
Record settings := mkSettings {
  processIconId : string;
  useProcessIcon : bool;
  useAutoDetect : bool;
  hotSigma : JS.number;
  coldSigma : JS.number;
  amount : JS.number;
  cfa : bool
}.

Definition CosmeticCorrectionData : settings :=
  mkSettings "" false true (JS.mkNum 18 1) (JS.mkNum 14 1) (JS.mkNum 100 2) false.

Definition set_processIconId (v : string) (c : settings) : settings :=
  mkSettings v (useProcessIcon c) (useAutoDetect c) (hotSigma c) (coldSigma c)
             (amount c) (cfa c).

Definition set_useProcessIcon (v : bool) (c : settings) : settings :=
  mkSettings (processIconId c) v (useAutoDetect c) (hotSigma c) (coldSigma c)
             (amount c) (cfa c).

Definition set_useAutoDetect (v : bool) (c : settings) : settings :=
  mkSettings (processIconId c) (useProcessIcon c) v (hotSigma c) (coldSigma c)
             (amount c) (cfa c).

Definition set_hotSigma (v : JS.number) (c : settings) : settings :=
  mkSettings (processIconId c) (useProcessIcon c) (useAutoDetect c) v
             (coldSigma c) (amount c) (cfa c).

Definition set_coldSigma (v : JS.number) (c : settings) : settings :=
  mkSettings (processIconId c) (useProcessIcon c) (useAutoDetect c) (hotSigma c)
             v (amount c) (cfa c).

Definition set_amount (v : JS.number) (c : settings) : settings :=
  mkSettings (processIconId c) (useProcessIcon c) (useAutoDetect c) (hotSigma c)
             (coldSigma c) v (cfa c).

Definition set_cfa (v : bool) (c : settings) : settings :=
  mkSettings (processIconId c) (useProcessIcon c) (useAutoDetect c) (hotSigma c)
             (coldSigma c) (amount c) v.

Definition exportParameters (c : settings) (P : Parameters.t) : Parameters.t :=
  let P := Parameters.set "useProcessIcon" (Parameters.PBool (useProcessIcon c)) P in
  let P := Parameters.set "processIconId" (Parameters.PString (processIconId c)) P in
  let P := Parameters.set "useAutoDetect" (Parameters.PBool (useAutoDetect c)) P in
  let P := Parameters.set "hotSigma" (Parameters.PReal (hotSigma c)) P in
  let P := Parameters.set "coldSigma" (Parameters.PReal (coldSigma c)) P in
  let P := Parameters.set "amount" (Parameters.PReal (amount c)) P in
  Parameters.set "cfa" (Parameters.PBool (cfa c)) P.

Definition importParameters (P : Parameters.t) (c : settings) : result settings :=
  let c := Parameters.import_key P "useProcessIcon" Parameters.getBoolean
             set_useProcessIcon (Ok c) in
  let c := Parameters.import_key P "processIconId" Parameters.getString
             set_processIconId c in
  let c := Parameters.import_key P "useAutoDetect" Parameters.getBoolean
             set_useAutoDetect c in
  let c := Parameters.import_key P "hotSigma" Parameters.getReal set_hotSigma c in
  let c := Parameters.import_key P "coldSigma" Parameters.getReal set_coldSigma c in
  let c := Parameters.import_key P "amount" Parameters.getReal set_amount c in
  Parameters.import_key P "cfa" Parameters.getBoolean set_cfa c.

(** The two paths [applyCosmeticCorrection] computes before its [try]. *)
Definition tempInputFile_of (tempDir : string) (timestamp : Z) : string :=
  (tempDir ++ "/bb_cc_input_" ++ JS.string_of_Z timestamp ++ ".xisf")%string.

Definition tempOutputFile_of (tempDir : string) (timestamp : Z) : string :=
  (tempDir ++ "/bb_cc_input_" ++ JS.string_of_Z timestamp ++ "_cc.xisf")%string.

(** [CC.executeGlobal()]: the process runs on [targetFrames] and leaves its
    output on disk. *)
Definition executeGlobal (h : host) (frames : string) : M unit :=
  emit (EvExecuteGlobal frames) ;;
  modify (fun s => set_files (tool_writes h ++ files s) s).

(** [ImageWindow.open(path)]: the windows opened from the file, none when
    it cannot be decoded. *)
Definition ImageWindow_open (h : host) (path : string) : M (list (view * image)) :=
  emit (EvOpenWindow path) ;;
  match decode h path with
  | None => ret []
  | Some img =>
      modify (fun s => set_windows ((path, img) :: windows s) s) ;;
      ret [(WindowView path, img)]
  end.

(** [resultWindow.forceClose()] *)
Definition forceClose (path : string) : M unit :=
  emit (EvForceClose path) ;;
  modify (fun s =>
    set_windows (filter (fun w => negb (String.eqb path (fst w))) (windows s)) s).

(** The [try] block of [applyCosmeticCorrection]. *)
Definition tryBlock (c : settings) (h : host) (tempInputFile tempOutputFile : string)
  : M unit :=
  match activeWindow h with
  | None => throw (HostException "TypeError: data.targetView.window")
  | Some fullId =>
      saved <- saveAs h tempInputFile ;;
      if negb saved then throw (ExportFailed "Failed to save temporary input file")
      else
        (if useProcessIcon c && negb (String.eqb (processIconId c) "")
         then
           if icon_exists h (processIconId c) then ret tt
           else throw (HostException "TypeError: CC is null")
         else ret tt) ;;
        executeGlobal h tempInputFile ;;
        Console_writeln "  Processing complete" ;;
        present <- File_exists tempOutputFile ;;
        if negb present
        then throw (OutputNotFound "Output file not found: " tempOutputFile)
        else
          resultWindows <- ImageWindow_open h tempOutputFile ;;
          match resultWindows with
          | [] => throw OpenFailed
          | (_, resultImage) :: _ =>
              beginProcess TargetView ;;
              assign h TargetView resultImage ;;
              endProcess TargetView ;;
              forceClose tempOutputFile ;;
              Console_writeln "<b>Cosmetic correction applied successfully!</b>" ;;
              MessageBox_execute StdIcon_Information
                ("Cosmetic correction applied successfully on " ++ fullId ++ "!")%string
          end
  end.

(** The [catch] block. *)
Definition catchBlock (e : error) : M unit :=
  Console_criticalln "<b>Error during application:</b>" ;;
  Console_criticalln (message e) ;;
  MessageBox_execute StdIcon_Error ("Error applying correction: " ++ message e)%string.

(** The [finally] block, with its own [try]/[catch]. *)
Definition finallyBlock (tempInputFile tempOutputFile : string) : M unit :=
  emit (EvCleanup [Some tempInputFile; Some tempOutputFile]) ;;
  Console_writeln "Cleaning up temporary files..." ;;
  try_catch
    (p1 <- File_exists tempInputFile ;;
     when p1 (File_remove tempInputFile) ;;
     p2 <- File_exists tempOutputFile ;;
     when p2 (File_remove tempOutputFile) ;;
     Console_writeln "  Cleanup complete")
    (fun e => Console_warningln
       ("  Warning: Could not remove temp files: " ++ message e)%string).

Definition applyCosmeticCorrection (c : settings) (h : host) : M outcome :=
  let tempDir := systemTempDirectory h in
  timestamp <- Date_now ;;
  let tempInputFile := tempInputFile_of tempDir timestamp in
  let tempOutputFile := tempOutputFile_of tempDir timestamp in
  try_finally
    (try_catch (tryBlock c h tempInputFile tempOutputFile ;; ret Success)
               (fun e => catchBlock e ;; ret (Failure e)))
    (finallyBlock tempInputFile tempOutputFile).

(** *** The dialog *)

(** [updateValidationStatus]: the warnings about the two sigmas, and the
    text it puts into the status label. *)
Definition warnings (c : settings) : list string :=
  (if JS.num_ltb (hotSigma c) (JS.ofZ 1) then ["Hot Sigma very low (<1.0)"]
   else if JS.num_gtb (hotSigma c) (JS.ofZ 3) then ["Hot Sigma high (>3.0)"]
   else []) ++
  (if JS.num_ltb (coldSigma c) (JS.ofZ 1) then ["Cold Sigma very low (<1.0)"]
   else if JS.num_gtb (coldSigma c) (JS.ofZ 3) then ["Cold Sigma high (>3.0)"]
   else []).

Definition typical_range_text : string :=
  "<font color='#66FF66'>Values in typical range</font>".

Record dialog := mkDialog { validationStatus_Label : string }.

Definition updateValidationStatus (c : settings) (d : dialog) : dialog :=
  let w := warnings c in
  if (0 <? List.length w)%nat
  then mkDialog ("<font color='#FF6666'>" ++ JS.join ", " w ++ "</font>")%string
  else mkDialog typical_range_text.

(** The dialog as its constructor leaves it. *)
Definition CosmeticCorrectionDialog (c : settings) : dialog :=
  updateValidationStatus c (mkDialog "").

(** What the user does in the dialog; picking another view in the view list
    is left out (the model has one target view). *)
Inductive ui_action : Type :=
| CheckUseIcon (checked : bool)
| TypeProcessIcon (value : string)
| CheckAutoDetect (checked : bool)
| SetHotSigma (value : JS.number)
| SetColdSigma (value : JS.number)
| SetAmount (value : JS.number)
| CheckCfa (checked : bool)
| ClickOK
| ClickCancel.

(** [ok_Button.onClick]: [true] when it gets as far as [dialog.ok()].
    [instanceof_CC id] tells whether the process icon [id] holds a
    CosmeticCorrection instance. *)
Definition ok_Button_onClick (c : settings) (h : host)
           (instanceof_CC : string -> bool) : M bool :=
  match activeWindow h with
  | None =>
      MessageBox_execute StdIcon_Error "No active view! Open an image first." ;;
      ret false
  | Some _ =>
      if useProcessIcon c then
        if String.eqb (processIconId c) "" then
          MessageBox_execute StdIcon_Error "Enter the process icon ID!" ;;
          ret false
        else if negb (icon_exists h (processIconId c)) then
          MessageBox_execute StdIcon_Error
            ("Process icon '" ++ processIconId c ++ "' does not exist!")%string ;;
          ret false
        else if negb (instanceof_CC (processIconId c)) then
          MessageBox_execute StdIcon_Error
            ("Icon '" ++ processIconId c ++
             "' is not a CosmeticCorrection instance!")%string ;;
          ret false
        else ret true
      else ret true
  end.

(** [dialog.execute()] with the user doing [actions]: the settings and the
    dialog at the end, and whether the dialog was accepted. *)
Fixpoint dialog_execute (actions : list ui_action) (c : settings) (d : dialog)
         (h : host) (instanceof_CC : string -> bool)
  : M (settings * dialog * bool) :=
  match actions with
  | [] => ret (c, d, false)
  | a :: rest =>
      match a with
      | CheckUseIcon b =>
          dialog_execute rest (set_useProcessIcon b c) d h instanceof_CC
      | TypeProcessIcon value =>
          dialog_execute rest (set_processIconId (JS.trim value) c) d h instanceof_CC
      | CheckAutoDetect b =>
          dialog_execute rest (set_useAutoDetect b c) d h instanceof_CC
      | SetHotSigma value =>
          let c' := set_hotSigma value c in
          dialog_execute rest c' (updateValidationStatus c' d) h instanceof_CC
      | SetColdSigma value =>
          let c' := set_coldSigma value c in
          dialog_execute rest c' (updateValidationStatus c' d) h instanceof_CC
      | SetAmount value => dialog_execute rest (set_amount value c) d h instanceof_CC
      | CheckCfa b => dialog_execute rest (set_cfa b c) d h instanceof_CC
      | ClickOK =>
          accepted <- ok_Button_onClick c h instanceof_CC ;;
          if accepted then ret (c, d, true)
          else dialog_execute rest c d h instanceof_CC
      | ClickCancel => ret (c, d, false)
      end
  end.

(** [main()]: the parameters are imported whenever the script starts, and
    the job runs only out of the accepted dialog. *)
Definition main (P : Parameters.t) (c : settings) (actions : list ui_action)
           (h : host) (instanceof_CC : string -> bool) : M (option outcome) :=
  c <- Parameters.lift (importParameters P c) ;;
  match activeWindow h with
  | None =>
      MessageBox_execute StdIcon_Error "No active image! Open an image first." ;;
      ret None
  | Some _ =>
      r <- dialog_execute actions c (CosmeticCorrectionDialog c) h instanceof_CC ;;
      match r with
      | (c', _, true) => o <- applyCosmeticCorrection c' h ;; ret (Some o)
      | (_, _, false) => ret None
      end
  end.

End CosmeticCorrection.

(* ------------------------------------------------------------------------- *)
(** ** The wrapper scripts run_deepcr.sh and run_lacosmic.sh *)
(* ------------------------------------------------------------------------- *)

(** The two shell scripts the jobs start with [/bin/bash]: they look for a
    Python interpreter, check that the command-line tool lies beside them and
    replace themselves by it.  What they see of the machine is in [env]. *)
Module Wrapper.

Record env := mkEnv {
  (** the variable [PYTHON_EXECUTABLE], if it is set *)
  PYTHON_EXECUTABLE : option string;
  (** [[ -x path ]] *)
  executable : string -> bool;
  (** [command -v python3] *)
  python3_on_PATH : bool;
  (** [[ -f path ]] *)
  is_file : string -> bool
}.

(** How a script ends: [exit code] after the lines it has printed, or
    [exec program script args]. *)
Inductive ending : Type :=
| Exit (code : Z) (lines : list string)
| Exec (program script : string) (args : list string).

(** ["${PYTHON_EXECUTABLE:-}"] *)
Definition override (e : env) : string :=
  match PYTHON_EXECUTABLE e with
  | Some v => v
  | None => ""
  end.

(** The chain of tests that sets [PYTHON] in run_deepcr.sh; the empty
    string when none of them holds. *)
Definition deepcr_python (SCRIPT_DIR : string) (e : env) : string :=
  let VENV_PYTHON := (SCRIPT_DIR ++ "/deepcr_venv/bin/python3")%string in
  if negb (String.eqb (override e) "") then override e
  else if executable e VENV_PYTHON then VENV_PYTHON
  else if executable e "/opt/homebrew/bin/python3" then "/opt/homebrew/bin/python3"
  else if executable e "/usr/local/bin/python3" then "/usr/local/bin/python3"
  else if executable e "/usr/bin/python3" then "/usr/bin/python3"
  else if python3_on_PATH e then "python3"
  else "".

Definition run_deepcr (SCRIPT_DIR : string) (e : env) (args : list string) : ending :=
  let PYTHON := deepcr_python SCRIPT_DIR e in
  if String.eqb PYTHON "" then
    Exit 1 [ "ERROR: Python 3 not found";
             "Searched: venv, /opt/homebrew/bin, /usr/local/bin, /usr/bin, PATH";
             "Please install Python 3 or set PYTHON_EXECUTABLE environment variable" ]
  else
    let CLI_SCRIPT := (SCRIPT_DIR ++ "/deepcr_cli.py")%string in
    if negb (is_file e CLI_SCRIPT) then
      Exit 1 [ ("ERROR: deepcr_cli.py not found at " ++ CLI_SCRIPT)%string ]
    else Exec PYTHON CLI_SCRIPT args.

(** run_lacosmic.sh: the same chain without the virtual environment; the
    script exits in the last branch of the chain. *)
Definition lacosmic_python (e : env) : option string :=
  if negb (String.eqb (override e) "") then Some (override e)
  else if executable e "/opt/homebrew/bin/python3" then Some "/opt/homebrew/bin/python3"
  else if executable e "/usr/local/bin/python3" then Some "/usr/local/bin/python3"
  else if executable e "/usr/bin/python3" then Some "/usr/bin/python3"
  else if python3_on_PATH e then Some "python3"
  else None.

Definition run_lacosmic (SCRIPT_DIR : string) (e : env) (args : list string) : ending :=
  match lacosmic_python e with
  | None =>
      Exit 1 [ "Error: Python 3 not found";
               "Searched: /opt/homebrew/bin/python3, /usr/local/bin/python3, /usr/bin/python3" ]
  | Some PYTHON =>
      let CLI_SCRIPT := (SCRIPT_DIR ++ "/lacosmic_cli.py")%string in
      if negb (is_file e CLI_SCRIPT) then
        Exit 1 [ ("Error: lacosmic_cli.py not found at " ++ CLI_SCRIPT)%string ]
      else Exec PYTHON CLI_SCRIPT args
  end.

End Wrapper.

(* ------------------------------------------------------------------------- *)
(** ** Vocabulary of the properties *)
(* ------------------------------------------------------------------------- *)

Module Props.
Import Host PJSR Supervision.

(** What the wait loop logs when the time is up, newest first. *)
Definition kill_events (hint : string) (t : Z) : list event :=
  [EvConsole Critical hint; EvConsole Critical timeout_warning; EvKill t].

(** The container formats of [DeepCR.loadImage]. *)
Definition supported (path : string) : bool :=
  let x := JS.toLowerCase path in
  JS.endsWith x ".xisf" || JS.endsWith x ".fits" || JS.endsWith x ".fit".

Definition format_of (path : string) : string :=
  if JS.endsWith (JS.toLowerCase path) ".xisf" then ".xisf" else ".fits".

(** The events of reading an image file, newest first. *)
Definition read_events (format path : string) : list event :=
  [EvClose path; EvRead path; EvOpen format path].

(** The text the two random draws of a temp-path allocation give. *)
Definition random_suffix (r : list string) : string :=
  (JS.substring 2 15 (hd "0" r) ++ JS.substring 2 15 (hd "0" (tl r)))%string.

(** What is left of the files once the cleanup has gone through the
    recorded paths. *)
Definition remove_opt (path : option string) (l : list string) : list string :=
  match path with
  | None => l
  | Some p => if String.eqb p "" then l else remove_path p l
  end.

Definition removed_all (paths : list (option string)) (l : list string)
  : list string :=
  fold_left (fun acc path => remove_opt path acc) paths l.

(** Classes of events. *)
Definition is_cleanup (e : event) : bool :=
  match e with EvCleanup _ => true | _ => false end.

Definition is_dialog (e : event) : bool :=
  match e with EvMessageBox _ _ => true | _ => false end.

Definition is_removal (e : event) : bool :=
  match e with
  | EvRemove _ => true
  | EvConsole _ _ => true
  | _ => false
  end.

(** Opening or reading a file as an image. *)
Definition is_load (e : event) : bool :=
  match e with
  | EvOpen _ _ | EvRead _ | EvClose _ | EvOpenWindow _ => true
  | _ => false
  end.

(** Putting pixel data into a view, or making a window for it. *)
Definition is_apply (e : event) : bool :=
  match e with
  | EvBeginProcess _ | EvAssign _ | EvEndProcess _
  | EvNewWindow _ | EvShow _ => true
  | _ => false
  end.

Definition is_target_event (e : event) : bool :=
  match e with
  | EvBeginProcess TargetView | EvAssign TargetView
  | EvEndProcess TargetView => true
  | _ => false
  end.

Definition is_spawn (e : event) : bool :=
  match e with EvSpawn _ _ => true | _ => false end.

(** A line written to the console when [b] holds, on top of the log. *)
Definition with_output (b : bool) (text : string) (l : list event) : list event :=
  if b then EvConsole Info text :: l else l.

(** The process output the job shows once the child has ended. *)
Definition output_events (h : host) (l : list event) : list event :=
  with_output (0 <? String.length (proc_stdout h))%nat (proc_stdout h)
    (with_output (0 <? String.length (proc_stderr h))%nat (proc_stderr h) l).

(** The path a job of each script exports the image to, from the clock and
    the random source when it starts. *)
Definition deepcr_tempFile (h : host) (t : Z) (r : list string) : string :=
  (systemTempDirectory h ++ "/bbdcr_" ++ JS.string_of_Z t ++ "_" ++
   random_suffix r ++ ".xisf")%string.

Definition lacosmic_tempFile (h : host) (t : Z) (r : list string) : string :=
  (systemTempDirectory h ++ "/bblac_" ++ JS.string_of_Z t ++ "_" ++
   random_suffix r ++ ".fits")%string.

(** The files on disk once the image is exported to [tempFile] and the tool
    has run. *)
Definition files_after_tool (h : host) (tempFile : string) (l : list string)
  : list string :=
  tool_writes h ++ tempFile :: l.

(** The child ends early enough for the wait loop to see it. *)
Definition ends_in_time (h : host) (timeout : Z) : Prop :=
  exists d, proc_duration h = Some d /\
            d + Z.of_nat (events_cost h) <= timeout.

(** The child is still running at every check of the wait loop up to the one
    that finds the time used up. *)
Definition still_running (h : host) (timeout : Z) : Prop :=
  forall d, proc_duration h = Some d ->
            timeout + POLL_MS + Z.of_nat (events_cost h) < d.

(** The file at [path] can be read as the image [img]. *)
Definition loads (h : host) (path : string) (img : image) : Prop :=
  supported path = true /\ can_open h path = true /\ decode h path = Some img.

(** An exception of the loader about the file at [path]. *)
Definition concerns (path : string) (e : error) : Prop :=
  e = UnsupportedFormat path \/
  (exists text, e = CannotOpen text path) \/
  (exists text, e = CannotRead text path).

(** The failures of a job that are raised before the result is applied: the
    listed kinds, and a format error on the primary output. *)
Definition before_apply (primary : string) (e : error) : Prop :=
  kind_of e = ExportError \/ kind_of e = LaunchError \/
  kind_of e = TimeoutError \/ kind_of e = ProcessFailure \/
  kind_of e = OutputMissingError \/ concerns primary e.


Definition count (f : event -> bool) (l : list event) : nat :=
  List.length (filter f l).

Definition is_begin_target (e : event) : bool :=
  match e with EvBeginProcess TargetView => true | _ => false end.

Definition is_end_target (e : event) : bool :=
  match e with EvEndProcess TargetView => true | _ => false end.

(** What a job needs to get as far as starting the tool. *)
Definition deepcr_launches (c : DeepCR.settings) (h : host) (s : state) : Prop :=
  mem (DeepCR.wrapperScript c) (files s) = true /\
  activeWindow h <> None /\
  saveAs_ok h (deepcr_tempFile h (now s) (random s)) = true.

Definition lacosmic_launches (c : LACosmic.settings) (h : host) (s : state) : Prop :=
  mem (LACosmic.wrapperScript c) (files s) = true /\
  activeWindow h <> None /\
  saveAs_ok h (lacosmic_tempFile h (now s) (random s)) = true.


(** The domain of the DeepCR threshold, as the dialog checks it. *)
Definition threshold_in_domain (value : JS.number) : bool :=
  negb (JS.num_leb value (JS.ofZ 0) || JS.num_gtb value (JS.ofZ 1)).

(** *** The claims that do not hold as they are worded *)



(** A job that ends in a failure leaves the target image as it was. *)
Definition failure_keeps_target (run : result outcome * state) (s : state) : Prop :=
  forall e, fst run = Ok (Failure e) -> target (snd run) = target s.

(** A loader refuses a path of another suffix without touching the file. *)
Definition rejects_unsupported (loader : host -> string -> M image) : Prop :=
  forall h path s,
    supported path = false ->
    exists e, loader h path s = (Throw e, s) /\ kind_of e = FormatError.

(** Every [beginProcess] on the target view is matched by an [endProcess]. *)
Definition bracket_released (s s' : state) : Prop :=
  exists evs, log s' = evs ++ log s /\
              count is_begin_target evs = count is_end_target evs.

(** *** Further vocabulary *)

(** Every file of [s] that is not one of [artifacts] is still there in
    [s']. *)
Definition files_kept (artifacts : list string) (s s' : state) : Prop :=
  forall q, In q (files s) -> ~ In q artifacts -> In q (files s').

(** [s'] is [s] with dialogs shown on top. *)
Definition only_dialogs (s s' : state) : Prop :=
  exists boxes,
    s' = set_log (boxes ++ log s) s /\
    Forall (fun e => is_dialog e = true) boxes.

(** The ranges the L.A.Cosmic dialog checks its four text fields
    against. *)
Definition within (lo hi value : JS.number) : bool :=
  negb (JS.num_ltb value lo || JS.num_gtb value hi).

Definition lacosmic_in_range (c : LACosmic.settings) : bool :=
  within (JS.mkNum 1 1) (JS.ofZ 10) (LACosmic.sigclip c) &&
  within (JS.mkNum 1 1) (JS.ofZ 10) (LACosmic.objlim c) &&
  within (JS.mkNum 1 1) (JS.ofZ 100) (LACosmic.readnoise c) &&
  within (JS.mkNum 1 1) (JS.ofZ 10) (LACosmic.gain c).

(** Both sigmas of CosmeticCorrection lie in the range its dialog calls
    typical. *)
Definition typical_sigmas (c : CosmeticCorrection.settings) : bool :=
  within (JS.ofZ 1) (JS.ofZ 3) (CosmeticCorrection.hotSigma c) &&
  within (JS.ofZ 1) (JS.ofZ 3) (CosmeticCorrection.coldSigma c).

(** The accepted dialog of CosmeticCorrection has checked the process icon
    it is told to use. *)
Definition icon_checked (c : CosmeticCorrection.settings) (h : host)
           (instanceof_CC : string -> bool) : Prop :=
  CosmeticCorrection.useProcessIcon c = true ->
  CosmeticCorrection.processIconId c <> "" /\
  icon_exists h (CosmeticCorrection.processIconId c) = true /\
  instanceof_CC (CosmeticCorrection.processIconId c) = true.

(** The characters of a text. *)
Definition has_char (x : ascii) (text : string) : Prop :=
  In x (list_ascii_of_string text).

Definition is_kill (e : event) : bool :=
  match e with EvKill _ => true | _ => false end.

(** The interpreters the wrapper scripts look for at fixed places. *)
Definition system_pythons : list string :=
  ["/opt/homebrew/bin/python3"; "/usr/local/bin/python3"; "/usr/bin/python3"].

(** The dialog of DeepCR has ended without a job, having shown dialogs only,
    or it has run one job, on settings whose threshold lies in the domain
    and whose paths are those of [c]. *)
Definition deepcr_runs_checked (c : DeepCR.settings) (h : host) (s : state)
           (run : result (option outcome) * state) : Prop :=
  (fst run = Ok None /\ only_dialogs s (snd run)) \/
  (exists c' s1 o,
     only_dialogs s s1 /\
     threshold_in_domain (DeepCR.threshold c') = true /\
     DeepCR.wrapperScript c' = DeepCR.wrapperScript c /\
     DeepCR.outputDir c' = DeepCR.outputDir c /\
     DeepCR.executeDeepCR c' h s1 = (Ok o, snd run) /\
     fst run = Ok (Some o)).

(** The same for the dialog of L.A.Cosmic and the ranges of its four text
    fields. *)
Definition lacosmic_runs_checked (c : LACosmic.settings) (h : host) (s : state)
           (run : result (option outcome) * state) : Prop :=
  (fst run = Ok None /\ only_dialogs s (snd run)) \/
  (exists c' s1 o,
     only_dialogs s s1 /\
     lacosmic_in_range c' = true /\
     LACosmic.wrapperScript c' = LACosmic.wrapperScript c /\
     LACosmic.outputDir c' = LACosmic.outputDir c /\
     LACosmic.executeCosmicRayRemoval c' h s1 = (Ok o, snd run) /\
     fst run = Ok (Some o)).

End Props.

(* ------------------------------------------------------------------------- *)
(** ** Concrete jobs *)
(* ------------------------------------------------------------------------- *)

Module Samples.
Import Host PJSR Props.

Definition raw : image := mkImage 2 2 1 32 true false [10; 900; 30; 40].
Definition cleaned : image := mkImage 2 2 1 32 true false [10; 20; 30; 40].
Definition mask : image := mkImage 2 2 1 8 false false [0; 1; 0; 0].

(** The state a job starts in: the clock at 1000 ms, two random draws, the
    wrapper scripts on disk, the raw image in the active window. *)
Definition start : state :=
  mkState 1000 ["0.abcdef"; "0.xyz"]
          ["/scripts/run_deepcr.sh"; "/scripts/run_lacosmic.sh"]
          raw [] [] None None None.

(** The same millisecond with other random draws. *)
Definition start' : state :=
  mkState 1000 ["0.qrs"; "0.tuv"]
          ["/scripts/run_deepcr.sh"; "/scripts/run_lacosmic.sh"]
          raw [] [] None None None.

Definition pictures (l : list (string * image)) (path : string) : option image :=
  match find (fun e => String.eqb path (fst e)) l with
  | Some e => Some (snd e)
  | None => None
  end.

(** A host with the window "M31" active whose saves succeed. *)
Definition host_of (duration : option Z) (exitCode : Z) (writes : list string)
           (openable : string -> bool) (content : list (string * image))
           (assignable : view -> bool) : host :=
  mkHost "/tmp" (Some "M31") (fun _ => true) duration exitCode "" "" writes 0
         openable (pictures content) assignable (fun _ => false).

Definition deepcr_input : string := "/tmp/bbdcr_1000_abcdefxyz.xisf".
Definition deepcr_cleaned : string :=
  "/tmp/bbdcr_1000_abcdefxyz_deepcr_th0.1_cleaned.xisf".
Definition deepcr_mask : string :=
  "/tmp/bbdcr_1000_abcdefxyz_deepcr_th0.1_mask.xisf".

Definition deepcr_settings (saveMask replaceActive : bool) : DeepCR.settings :=
  DeepCR.mkSettings "WFC3-UVIS" (JS.mkNum 1 1) true "optimal" saveMask replaceActive
                    "/scripts/run_deepcr.sh" "/tmp".

Definition deepcr_content : list (string * image) :=
  [(deepcr_cleaned, cleaned); (deepcr_mask, mask)].

(** The tool ends after 8 s with exit code 1 and has written its result. *)
Definition deepcr_exit1 : host :=
  host_of (Some 8000) 1 [deepcr_cleaned] (fun _ => true) deepcr_content
          (fun _ => true).

(** The tool never ends. *)
Definition deepcr_hangs : host :=
  host_of None 0 [] (fun _ => true) deepcr_content (fun _ => true).

(** The tool succeeds and writes result and mask; the mask cannot be
    opened. *)
Definition deepcr_bad_mask : host :=
  host_of (Some 8000) 0 [deepcr_cleaned; deepcr_mask]
          (fun p => negb (String.eqb p deepcr_mask)) deepcr_content (fun _ => true).

(** The tool succeeds; the result cannot be decoded. *)
Definition deepcr_bad_result : host :=
  host_of (Some 8000) 0 [deepcr_cleaned] (fun _ => true) [] (fun _ => true).

(** The tool succeeds; the host fails to assign to the target view. *)
Definition deepcr_assign_fails : host :=
  host_of (Some 8000) 0 [deepcr_cleaned] (fun _ => true) deepcr_content
          (fun v => match v with TargetView => false | _ => true end).

(** The tool succeeds and writes its result but no mask. *)
Definition deepcr_no_mask : host :=
  host_of (Some 8000) 0 [deepcr_cleaned] (fun _ => true) deepcr_content
          (fun _ => true).

Definition lacosmic_input : string := "/tmp/bblac_1000_abcdefxyz.fits".
Definition lacosmic_output : string := "/tmp/bblac_1000_abcdefxyz_crr.fits".
Definition lacosmic_mask : string := "/tmp/bblac_1000_abcdefxyz_crm.fits".

Definition lacosmic_settings (saveMask replaceActive : bool) : LACosmic.settings :=
  LACosmic.mkSettings (JS.mkNum 15 1) (JS.mkNum 15 1) (JS.mkNum 90 1) (JS.mkNum 10 1)
    6 "meanmask" (JS.mkNum 3 1) true "median" "gauss" (JS.mkNum 25 1) 7
    (JS.mkNum 4765 3) 65535 saveMask replaceActive "/scripts/run_lacosmic.sh" "/tmp".

Definition lacosmic_content : list (string * image) :=
  [(lacosmic_output, cleaned); (lacosmic_mask, mask)].

Definition lacosmic_exit1 : host :=
  host_of (Some 8000) 1 [lacosmic_output] (fun _ => true) lacosmic_content
          (fun _ => true).

Definition lacosmic_hangs : host :=
  host_of None 0 [] (fun _ => true) lacosmic_content (fun _ => true).

Definition lacosmic_bad_result : host :=
  host_of (Some 8000) 0 [lacosmic_output] (fun _ => true) [] (fun _ => true).

Definition lacosmic_no_mask : host :=
  host_of (Some 8000) 0 [lacosmic_output] (fun _ => true) lacosmic_content
          (fun _ => true).

(** The tool run with a threshold of 5: it succeeds and writes its result
    under the name that goes with that threshold. *)
Definition deepcr_th5_cleaned : string :=
  "/tmp/bbdcr_1000_abcdefxyz_deepcr_th5_cleaned.xisf".

Definition deepcr_th5 : host :=
  host_of (Some 8000) 0 [deepcr_th5_cleaned] (fun _ => true)
          [(deepcr_th5_cleaned, cleaned)] (fun _ => true).

(** A host on which CosmeticCorrection writes its output. *)
Definition cc_output : string := "/tmp/bb_cc_input_1000_cc.xisf".

Definition cc_host : host :=
  host_of None 0 [cc_output] (fun _ => true) [(cc_output, cleaned)] (fun _ => true).

Definition cc_assign_fails : host :=
  host_of None 0 [cc_output] (fun _ => true) [(cc_output, cleaned)]
          (fun v => match v with TargetView => false | _ => true end).

(** A process icon that carries a threshold of 5, dropped on a view. *)
Definition icon_threshold_5 : Parameters.t :=
  Parameters.mk [("threshold", Parameters.PReal (JS.mkNum 5 0))] false true.

(** The tool ends after 8 s with exit code 0 and has written nothing. *)
Definition deepcr_silent : host :=
  host_of (Some 8000) 0 [] (fun _ => true) deepcr_content (fun _ => true).

Definition lacosmic_silent : host :=
  host_of (Some 8000) 0 [] (fun _ => true) lacosmic_content (fun _ => true).

(** A host with a window and the process icon [CC_Icon_01]. *)
Definition cc_icon_host : host :=
  mkHost "/tmp" (Some "M31") (fun _ => true) None 0 "" "" [cc_output] 0
         (fun _ => true) (pictures [(cc_output, cleaned)]) (fun _ => true)
         (fun id => String.eqb id "CC_Icon_01").

(** A machine on which [PYTHON_EXECUTABLE] names a file that cannot be run;
    the interpreter of the system can, and the tools are in place. *)
Definition broken_override : Wrapper.env :=
  Wrapper.mkEnv (Some "/nowhere/python")
                (fun p => String.eqb p "/usr/bin/python3") true (fun _ => true).

End Samples.

(* ------------------------------------------------------------------------- *)
(** * Properties *)
(* ------------------------------------------------------------------------- *)

(** ** Strings, files and the log *)

Section Basics.
Import Host PJSR.

Lemma append_cons_not_empty (a : string) (c : ascii) (r : string) :
  String.eqb (a ++ String c r)%string "" = false.
Proof. destruct a; reflexivity. Qed.

Lemma mem_false_not_In (p : string) (l : list string) :
  mem p l = false <-> ~ In p l.
Proof.
  unfold mem. split.
  - intros H Hin.
    assert (existsb (String.eqb p) l = true) as E.
    { apply existsb_exists. exists p. split; [assumption | apply String.eqb_refl]. }
    congruence.
  - intros H. destruct (existsb (String.eqb p) l) eqn:E; [| reflexivity].
    apply existsb_exists in E. destruct E as (q & Hq & Heq).
    apply String.eqb_eq in Heq. subst q. contradiction.
Qed.

Lemma In_remove_path (p q : string) (l : list string) :
  In q (remove_path p l) <-> In q l /\ p <> q.
Proof.
  unfold remove_path. rewrite filter_In. split.
  - intros [Hin Hneq]. split; [assumption |].
    intros ->. rewrite String.eqb_refl in Hneq. discriminate.
  - intros [Hin Hneq]. split; [assumption |].
    destruct (String.eqb p q) eqn:E; [| reflexivity].
    apply String.eqb_eq in E. contradiction.
Qed.

Lemma filter_none {A} (f : A -> bool) (l : list A) :
  (forall x, In x l -> f x = false) -> filter f l = [].
Proof.
  induction l as [| a l IH]; intros H; [reflexivity |].
  simpl. rewrite (H a (or_introl eq_refl)). apply IH.
  intros x Hx. apply H. right. assumption.
Qed.

Lemma set_log_same (s : state) : set_log (log s) s = s.
Proof. destruct s; reflexivity. Qed.

End Basics.

(** ** The wait loop *)

Section WaitLoop.
Import Host PJSR Supervision Props.

Variable h : host.
Variable p : process.
Variables startTime TIMEOUT_MS : Z.
Variable hint : string.

(** One round of the loop, spelled out. *)
Lemma waitLoop_round (n : nat) (s : state) :
  waitLoop h p startTime TIMEOUT_MS hint (S n) s =
  let go :=
    let t := now s + POLL_MS + Z.of_nat (events_cost h) in
    if t - startTime >? TIMEOUT_MS
    then (Throw TimedOut, set_log (kill_events hint t ++ log s) (set_now t s))
    else waitLoop h p startTime TIMEOUT_MS hint n (set_now t s) in
  match proc_duration h with
  | Some d =>
      if launched p + d <=? now s + POLL_MS
      then (Ok tt, set_now (Z.max (now s) (launched p + d)) s)
      else go
  | None => go
  end.
Proof.
  simpl. unfold bind at 1, waitForFinished.
  destruct (proc_duration h) as [d |].
  - destruct (launched p + d <=? now s + POLL_MS); [reflexivity |].
    unfold bind at 1 2, processEvents, modify, Date_now, get. simpl.
    destruct (_ >? _); reflexivity.
  - unfold bind at 1 2, processEvents, modify, Date_now, get. simpl.
    destruct (_ >? _); reflexivity.
Qed.

(** What the loop does when it is entered in time with enough rounds: it
    returns once the child has ended, or kills it at the first check that
    finds the time used up. *)
Lemma waitLoop_cases : forall rounds s r s',
  rounds <> O ->
  TIMEOUT_MS - (now s - startTime) < POLL_MS * Z.of_nat rounds ->
  now s - startTime <= TIMEOUT_MS ->
  waitLoop h p startTime TIMEOUT_MS hint rounds s = (r, s') ->
  exists t,
    now s <= t /\
    ((r = Ok tt /\ s' = set_now t s /\
      t <= startTime + TIMEOUT_MS + POLL_MS /\
      exists d, proc_duration h = Some d /\ launched p + d <= t) \/
     (r = Throw TimedOut /\
      s' = set_log (kill_events hint t ++ log s) (set_now t s) /\
      TIMEOUT_MS < t - startTime <= TIMEOUT_MS + POLL_MS + Z.of_nat (events_cost h) /\
      forall d, proc_duration h = Some d ->
                t - Z.of_nat (events_cost h) < launched p + d)).
Proof.
  induction rounds as [| n IH]; intros s r s' Hn Hb He H; [contradiction |].
  rewrite waitLoop_round in H. cbv zeta in H. unfold POLL_MS in *.
  rewrite Nat2Z.inj_succ in Hb.
  assert (Hgo : forall (Hrun : forall d, proc_duration h = Some d ->
                                       now s + 100 < launched p + d),
    (if now s + 100 + Z.of_nat (events_cost h) - startTime >? TIMEOUT_MS
     then (Throw TimedOut,
           set_log (kill_events hint (now s + 100 + Z.of_nat (events_cost h)) ++ log s)
                   (set_now (now s + 100 + Z.of_nat (events_cost h)) s))
     else waitLoop h p startTime TIMEOUT_MS hint n
            (set_now (now s + 100 + Z.of_nat (events_cost h)) s)) = (r, s') ->
    exists t,
      now s <= t /\
      ((r = Ok tt /\ s' = set_now t s /\
        t <= startTime + TIMEOUT_MS + 100 /\
        exists d, proc_duration h = Some d /\ launched p + d <= t) \/
       (r = Throw TimedOut /\
        s' = set_log (kill_events hint t ++ log s) (set_now t s) /\
        TIMEOUT_MS < t - startTime <= TIMEOUT_MS + 100 + Z.of_nat (events_cost h) /\
        forall d, proc_duration h = Some d ->
                  t - Z.of_nat (events_cost h) < launched p + d))).
  { clear H. intros Hrun H.
    destruct (Z.gtb_spec (now s + 100 + Z.of_nat (events_cost h) - startTime) TIMEOUT_MS)
      as [Hgt | Hle].
    - inversion H; subst; clear H.
      exists (now s + 100 + Z.of_nat (events_cost h)).
      split; [lia |]. right. split; [reflexivity |]. split; [reflexivity |].
      split; [lia |]. intros d Hd. specialize (Hrun d Hd). lia.
    - apply IH in H.
      + destruct H as (t & Hle' & Hc). simpl in Hle'. exists t. split; [lia |].
        destruct Hc as [(-> & -> & Ht & Hd) | (-> & -> & Ht & Hd)].
        * left. repeat split; assumption.
        * right. repeat split; try assumption; lia.
      + intros ->. simpl in Hb. lia.
      + simpl now. lia.
      + simpl now. lia. }
  destruct (proc_duration h) as [d |] eqn:Ed.
  - destruct (Z.leb_spec (launched p + d) (now s + 100)) as [Hf | Hf].
    + inversion H; subst; clear H.
      exists (Z.max (now s) (launched p + d)). split; [lia |].
      left. split; [reflexivity |]. split; [reflexivity |]. split; [lia |].
      exists d. split; [reflexivity | lia].
    + apply Hgo; [| exact H]. intros d' Hd'. inversion Hd'; subst. exact Hf.
  - apply Hgo; [| exact H]. intros d' Hd'. discriminate.
Qed.

(** The rounds [loop_rounds] gives are enough when the loop is entered at
    its start time. *)
Lemma waitLoop_run : forall s r s',
  0 <= TIMEOUT_MS ->
  startTime = now s ->
  waitLoop h p startTime TIMEOUT_MS hint (loop_rounds TIMEOUT_MS) s = (r, s') ->
  exists t,
    now s <= t /\
    ((r = Ok tt /\ s' = set_now t s /\
      t <= startTime + TIMEOUT_MS + POLL_MS /\
      exists d, proc_duration h = Some d /\ launched p + d <= t) \/
     (r = Throw TimedOut /\
      s' = set_log (kill_events hint t ++ log s) (set_now t s) /\
      TIMEOUT_MS < t - startTime <= TIMEOUT_MS + POLL_MS + Z.of_nat (events_cost h) /\
      forall d, proc_duration h = Some d ->
                t - Z.of_nat (events_cost h) < launched p + d)).
Proof.
  intros s r s' HT Hs H. apply waitLoop_cases in H; [exact H | | |].
  - unfold loop_rounds. discriminate.
  - unfold loop_rounds, POLL_MS. rewrite Hs.
    rewrite Nat2Z.inj_succ, Z2Nat.id by (apply Z.div_pos; lia).
    pose proof (Z.mul_succ_div_gt TIMEOUT_MS 100 ltac:(lia)). lia.
  - lia.
Qed.

End WaitLoop.

(** ** Removing the temporary files *)

Section Cleanup.
Import Host PJSR Props.

Lemma remove_path_absent (p : string) (l : list string) :
  mem p l = false -> remove_path p l = l.
Proof.
  intros H. apply mem_false_not_In in H.
  induction l as [| q l IH]; [reflexivity |].
  simpl. destruct (String.eqb p q) eqn:E.
  - apply String.eqb_eq in E. subst q. exfalso. apply H. left. reflexivity.
  - simpl. f_equal. apply IH. intros Hin. apply H. right. assumption.
Qed.

Lemma remove_opt_subset (o : option string) (l : list string) (q : string) :
  In q (remove_opt o l) -> In q l.
Proof.
  destruct o as [p |]; simpl; [| tauto].
  destruct (String.eqb p ""); [tauto |].
  intros H. apply In_remove_path in H. tauto.
Qed.

Lemma removed_all_subset : forall paths l q,
  In q (removed_all paths l) -> In q l.
Proof.
  induction paths as [| o paths IH]; intros l q H; [exact H |].
  simpl in H. apply IH in H. eapply remove_opt_subset. exact H.
Qed.

(** Every recorded path is gone after the cleanup. *)
Lemma removed_all_gone : forall paths l p,
  p <> "" -> In (Some p) paths -> ~ In p (removed_all paths l).
Proof.
  induction paths as [| o paths IH]; intros l p Hp Hin; [contradiction |].
  simpl. destruct Hin as [-> | Hin].
  - intros H. apply removed_all_subset in H. simpl in H.
    destruct (String.eqb p "") eqn:E.
    + apply String.eqb_eq in E. contradiction.
    + apply In_remove_path in H. destruct H as [_ H]. apply H. reflexivity.
  - apply IH; assumption.
Qed.

(** A file whose path is not recorded stays. *)
Lemma removed_all_keeps : forall paths l q,
  In q l -> ~ In (Some q) paths -> In q (removed_all paths l).
Proof.
  induction paths as [| o paths IH]; intros l q Hq Hn; [exact Hq |].
  simpl. apply IH.
  - destruct o as [p |]; simpl; [| exact Hq].
    destruct (String.eqb p ""); [exact Hq |].
    apply In_remove_path. split; [exact Hq |].
    intros ->. apply Hn. left. reflexivity.
  - intros H. apply Hn. right. exact H.
Qed.

Lemma filter_removal_none (f : event -> bool) (evs : list event) :
  (forall e, is_removal e = true -> f e = false) ->
  Forall (fun e => is_removal e = true) evs ->
  filter f evs = [].
Proof.
  intros Hf Hall. apply filter_none. intros e He.
  apply Hf. rewrite Forall_forall in Hall. apply Hall. exact He.
Qed.

End Cleanup.

(** ** Following a job path by path *)

Import Host PJSR Supervision Props.

Section StepLemmas.

Lemma when_write (b : bool) (text : string) (s : state) :
  when b (Console_write text) s =
    (Ok tt, set_log (with_output b text (log s)) s).
Proof. destruct b; simpl; [reflexivity |]. unfold ret. destruct s; reflexivity. Qed.

Lemma filter_with_output (f : event -> bool) (b : bool) (text : string)
      (l : list event) :
  f (EvConsole Info text) = false ->
  filter f (with_output b text l) = filter f l.
Proof. intros Hf. destruct b; simpl; [rewrite Hf |]; reflexivity. Qed.


Lemma append_inj_l (a b c : string) : (a ++ b = a ++ c)%string -> b = c.
Proof.
  induction a as [| x a IH]; simpl; intros H; [exact H |].
  inversion H. apply IH. assumption.
Qed.

End StepLemmas.

(** Projections of a state that is written out. *)
Ltac red_state H :=
  cbv beta iota zeta delta
    [set_now set_random set_files set_target set_windows set_log
     set_v_input set_v_output set_v_mask
     now random files target windows log v_input v_output v_mask
     negb andb orb fst snd launched] in H.

Ltac red_goal :=
  cbv beta iota zeta delta
    [set_now set_random set_files set_target set_windows set_log
     set_v_input set_v_output set_v_mask
     now random files target windows log v_input v_output v_mask
     negb andb orb fst snd launched].

Ltac red_all :=
  cbv beta iota zeta delta
    [set_now set_random set_files set_target set_windows set_log
     set_v_input set_v_output set_v_mask
     now random files target windows log v_input v_output v_mask
     negb andb orb fst snd launched] in *.

(** The subterm whose value decides how the computation goes on. *)
Ltac head_scrut t :=
  lazymatch t with
  | match ?x with _ => _ end => head_scrut x
  | ?f ?a =>
      lazymatch f with
      | match ?x with _ => _ end => head_scrut x
      | _ => t
      end
  | _ => t
  end.

(** One step of a job: the call that decides how it goes on is replaced by
    what its lemma says ([special]), or its value is split into cases. *)
Ltac exec1 special H :=
  lazymatch type of H with
  | ?lhs = _ =>
      let x := head_scrut lhs in
      lazymatch x with
      | lhs => fail "done"
      | when ?b (Console_write ?t) ?st => rewrite (when_write b t st) in H
      | waitLoop ?hh ?p ?st ?T ?hint ?n ?s0 =>
          let E := fresh "EL" in
          destruct (waitLoop hh p st T hint n s0) as [? ?] eqn:E;
          apply waitLoop_run in E;
          [ destruct E as (? & ? & [(-> & -> & ? & ?) | (-> & -> & ? & ?)])
          | unfold DeepCR.TIMEOUT_MS, LACosmic.TIMEOUT_MS; lia | reflexivity ]
      | _ => first [ special x H | destruct x eqn:? ]
      end
  end; red_state H.

(** Reads the result and the final state off the finished computation. *)
Ltac solve_eq Hr :=
  first
    [ match type of Hr with _ = ?v => is_var v; subst v end
    | discriminate Hr
    | injection Hr as Hr; solve_eq Hr
    | idtac ].

Ltac finish_run H :=
  apply pair_equal_spec in H;
  let Hr := fresh "Hr" in
  let Hs := fresh "Hs" in
  destruct H as [Hr Hs];
  match type of Hs with _ = ?v => subst v end;
  solve_eq Hr.

Ltac removal_class :=
  let e := fresh "e" in
  intros e; destruct e; simpl; intros; try discriminate; reflexivity.

(** Brings [filter f] down a log made of conses, process output and the
    removals [rem] of the cleanup. *)
Ltac filter_norm :=
  unfold kill_events, read_events, output_events;
  repeat first
    [ rewrite filter_app
    | match goal with
      | Hr : Forall (fun e => is_removal e = true) ?rem |- context [filter ?f ?rem] =>
          rewrite (filter_removal_none f rem ltac:(removal_class) Hr)
      end
    | rewrite filter_with_output by reflexivity
    | progress cbn [filter app is_load is_apply is_cleanup is_dialog is_target_event
                    is_spawn is_begin_target is_end_target] ].

Ltac exit_zero :=
  match goal with
  | Hq : (proc_exitCode _ =? 0) = true, Hx : proc_exitCode _ <> 0 |- _ =>
      apply Z.eqb_eq in Hq; contradiction
  end.

(** Leaves that contradict what is assumed about the host. *)
Ltac absurd_leaf :=
  try exit_zero;
  try congruence;
  try (match goal with
       | Hx : proc_exitCode _ = 0, Hq : (proc_exitCode _ =? 0) = false |- _ =>
           rewrite Hx in Hq; discriminate
       end);
  try (match goal with
       | Hin : ends_in_time _ _ |- _ =>
           let d := fresh "d" in let Hd := fresh "Hd" in let Hle := fresh "Hle" in
           destruct Hin as (d & Hd & Hle);
           match goal with
           | Hk : forall d', proc_duration _ = Some d' -> _ |- _ =>
               specialize (Hk d Hd); unfold DeepCR.TIMEOUT_MS, LACosmic.TIMEOUT_MS, POLL_MS in *; lia
           end
       end);
  try (match goal with
       | Hst : still_running _ _, Hex : exists d, proc_duration _ = Some d /\ _ |- _ =>
           let d := fresh "d" in let Hd := fresh "Hd" in let Hle := fresh "Hle" in
           destruct Hex as (d & Hd & Hle); specialize (Hst d Hd);
           unfold DeepCR.TIMEOUT_MS, LACosmic.TIMEOUT_MS, POLL_MS in *; lia
       end).

(** The events of [l] that come on top of [base]. *)
Ltac prefix_of l base :=
  lazymatch l with
  | base => constr:(@nil event)
  | ?e :: ?l' => let p := prefix_of l' base in constr:(e :: p)
  | with_output ?b ?t ?l' =>
      let p := prefix_of l' base in constr:(with_output b t p)
  | ?k ++ ?l' => let p := prefix_of l' base in constr:(k ++ p)
  end.


(** ** Suffixes of paths *)

Section Suffixes.

Lemma append_length (a b : string) :
  String.length (a ++ b) = (String.length a + String.length b)%nat.
Proof. induction a as [| x a IH]; simpl; [reflexivity | rewrite IH; reflexivity]. Qed.

Lemma append_assoc (a b c : string) : ((a ++ b) ++ c = a ++ (b ++ c))%string.
Proof. induction a as [| x a IH]; simpl; [reflexivity | rewrite IH; reflexivity]. Qed.

Lemma toLowerCase_append (a b : string) :
  JS.toLowerCase (a ++ b) = (JS.toLowerCase a ++ JS.toLowerCase b)%string.
Proof. induction a as [| x a IH]; simpl; [reflexivity | rewrite IH; reflexivity]. Qed.

Lemma toLowerCase_length (a : string) :
  String.length (JS.toLowerCase a) = String.length a.
Proof. induction a as [| x a IH]; simpl; [reflexivity | rewrite IH; reflexivity]. Qed.

Lemma substring_all (b : string) : String.substring 0 (String.length b) b = b.
Proof. induction b as [| x b IH]; simpl; [reflexivity | rewrite IH; reflexivity]. Qed.

Lemma substring_skip (a b : string) (m : nat) :
  String.substring (String.length a) m (a ++ b) = String.substring 0 m b.
Proof. induction a as [| x a IH]; simpl; [reflexivity | exact IH]. Qed.

Lemma substring_split : forall (s : string) (k : nat),
  (k <= String.length s)%nat ->
  s = (String.substring 0 k s ++ String.substring k (String.length s - k) s)%string.
Proof.
  induction s as [| x s IH]; intros k Hk.
  - destruct k; reflexivity.
  - destruct k as [| k].
    + simpl. rewrite substring_all. reflexivity.
    + simpl. f_equal. apply IH. simpl in Hk. lia.
Qed.

(** [s.endsWith(suffix)] holds exactly when [s] is some text followed by
    [suffix]. *)
Lemma endsWith_iff (s suffix : string) :
  JS.endsWith s suffix = true <-> exists a, s = (a ++ suffix)%string.
Proof.
  unfold JS.endsWith. split.
  - intros H. apply andb_true_iff in H. destruct H as [Hle He].
    apply Nat.leb_le in Hle. apply String.eqb_eq in He.
    exists (String.substring 0 (String.length s - String.length suffix) s).
    remember (String.length suffix) as m eqn:Em.
    rewrite <- He.
    pose proof (substring_split s (String.length s - m) ltac:(lia)) as Hs.
    replace (String.length s - (String.length s - m))%nat with m in Hs by lia.
    exact Hs.
  - intros (a & ->). rewrite append_length.
    apply andb_true_iff. split; [apply Nat.leb_le; lia |].
    replace (String.length a + String.length suffix - String.length suffix)%nat
      with (String.length a) by lia.
    rewrite substring_skip, substring_all. apply String.eqb_refl.
Qed.

Lemma endsWith_append (a s suffix : string) :
  JS.endsWith s suffix = true -> JS.endsWith (a ++ s) suffix = true.
Proof.
  intros H. apply endsWith_iff in H. destruct H as (b & ->).
  apply endsWith_iff. exists (a ++ b)%string. symmetry. apply append_assoc.
Qed.

Lemma supported_append (a s : string) : supported s = true -> supported (a ++ s) = true.
Proof.
  unfold supported. rewrite toLowerCase_append. intros H.
  apply orb_true_iff in H. destruct H as [H | H].
  - apply orb_true_iff in H. destruct H as [H | H].
    + rewrite (endsWith_append _ _ _ H). reflexivity.
    + rewrite (endsWith_append _ _ _ H). rewrite orb_true_r. reflexivity.
  - rewrite (endsWith_append _ _ _ H). rewrite !orb_true_r. reflexivity.
Qed.

Lemma cleanedPath_supported c f : supported (DeepCR.cleanedPath_of c f) = true.
Proof.
  unfold DeepCR.cleanedPath_of. repeat apply supported_append. reflexivity.
Qed.

Lemma maskPath_supported c f : supported (DeepCR.maskPath_of c f) = true.
Proof.
  unfold DeepCR.maskPath_of. repeat apply supported_append. reflexivity.
Qed.

End Suffixes.

(** ** The steps of a DeepCR job *)

Section DeepCRSteps.
Import DeepCR.

Lemma removeIfPresent_spec (path : option string) (note : string) (s : state) :
  exists evs,
    removeIfPresent path note s =
      (Ok tt, set_log (evs ++ log s) (set_files (remove_opt path (files s)) s)) /\
    Forall (fun e => is_removal e = true) evs.
Proof.
  destruct path as [p |]; simpl.
  - destruct (String.eqb p "") eqn:E.
    + exists []. split; [| constructor]. unfold ret. destruct s; reflexivity.
    + unfold bind, File_exists, get, File_remove.
      destruct (mem p (files s)) eqn:Em; rewrite ?Em.
      * exists [EvConsole Info (note ++ p)%string; EvRemove p].
        split; [reflexivity | repeat constructor].
      * exists []. split; [| constructor].
        rewrite (remove_path_absent _ _ Em). unfold ret. destruct s; reflexivity.
  - exists []. split; [| constructor]. unfold ret. destruct s; reflexivity.
Qed.

Lemma finallyBlock_spec (s : state) :
  exists evs,
    finallyBlock s =
      (Ok tt,
       set_log (evs ++ EvConsole Info "<b>Cleaning up temporary files...</b>"
                  :: EvCleanup [v_input s; v_output s; v_mask s] :: log s)
               (set_files (removed_all [v_input s; v_output s; v_mask s] (files s)) s)) /\
    Forall (fun e => is_removal e = true) evs.
Proof.
  unfold finallyBlock, bind, get, emit, Console_writeln, emit, modify. 
  destruct (removeIfPresent_spec (v_input s) "Removed temp input: " 
     (set_log
          (EvConsole Info "<b>Cleaning up temporary files...</b>"
           :: log (set_log (EvCleanup [v_input s; v_output s; v_mask s] :: log s) s))
          (set_log (EvCleanup [v_input s; v_output s; v_mask s] :: log s) s))) as (e1 & E1 & H1).
  rewrite E1. 
  match goal with |- context [removeIfPresent (v_output s) ?n ?st] =>
    destruct (removeIfPresent_spec (v_output s) n st) as (e2 & E2 & H2) end.
  rewrite E2.
  match goal with |- context [removeIfPresent (v_mask s) ?n ?st] =>
    destruct (removeIfPresent_spec (v_mask s) n st) as (e3 & E3 & H3) end.
  rewrite E3. 
  exists (e3 ++ e2 ++ e1). split.
  - simpl. rewrite <- !app_assoc. reflexivity.
  - repeat (apply Forall_app; split); assumption.
Qed.

Lemma generateSecureTempFilename_eq (h : host) (s : state) :
  generateSecureTempFilename h s =
    (Ok (deepcr_tempFile h (now s) (random s)),
     set_random (tl (tl (random s))) s).
Proof.
  unfold generateSecureTempFilename, bind, Math_random_toString36, Date_now, get, ret,
    deepcr_tempFile, random_suffix.
  destruct (random s) as [| r1 [| r2 r]] eqn:E; simpl; rewrite ?E; simpl;
    try reflexivity.
  - destruct s; simpl in *; subst; reflexivity.
Qed.

Lemma loadImage_spec (h : host) (path : string) (s : state) :
  (supported path = false /\
   loadImage h path s = (Throw (UnsupportedFormat path), s)) \/
  (supported path = true /\ can_open h path = false /\
   loadImage h path s =
     (Throw (CannotOpen "Cannot open image file: " path),
      set_log (EvOpen (format_of path) path :: log s) s)) \/
  (supported path = true /\ can_open h path = true /\ decode h path = None /\
   loadImage h path s =
     (Throw (CannotRead "Cannot read image: " path),
      set_log (read_events (format_of path) path ++ log s) s)) \/
  (supported path = true /\ can_open h path = true /\
   exists img, decode h path = Some img /\
   loadImage h path s =
     (Ok img, set_log (read_events (format_of path) path ++ log s) s)).
Proof.
  unfold loadImage, supported, format_of.
  destruct (JS.endsWith (JS.toLowerCase path) ".xisf") eqn:E1;
  [| destruct (JS.endsWith (JS.toLowerCase path) ".fits") eqn:E2;
     [| destruct (JS.endsWith (JS.toLowerCase path) ".fit") eqn:E3]];
  simpl;
  try (left; split; reflexivity);
  right;
  unfold bind, ret, file_open, file_readImage, file_close, emit, modify; simpl;
  (destruct (can_open h path) eqn:Eo; simpl;
   [ right; destruct (decode h path) as [img |] eqn:Ed;
     [ right; split; [reflexivity |]; split; [reflexivity |];
       exists img; split; reflexivity
     | left; repeat split; reflexivity ]
   | left; repeat split; reflexivity ]).
Qed.



Ltac deepcr_special x H :=
  lazymatch x with
  | generateSecureTempFilename ?hh ?st =>
      rewrite (generateSecureTempFilename_eq hh st) in H
  | finallyBlock ?st =>
      let evs := fresh "rem" in
      let E := fresh "E" in
      let Hr := fresh "Hrem" in
      destruct (finallyBlock_spec st) as (evs & E & Hr); rewrite E in H; clear E
  | loadImage ?hh ?p ?st =>
      let E := fresh "E" in
      destruct (loadImage_spec hh p st)
        as [(? & E) | [(? & ? & E) | [(? & ? & ? & E) | (? & ? & ? & ? & E)]]];
      rewrite E in H; clear E
  end.

Ltac deepcr_run H :=
  unfold executeDeepCR, try_finally, try_catch, tryBlock, catchBlock,
    presentResult, presentMask in H;
  unfold File_exists, saveAs, ExternalProcess, Date_now, Console_writeln,
    Console_criticalln, MessageBox_execute, beginProcess, endProcess, assign,
    ImageWindow_new, show in H;
  unfold emit in H; unfold bind, ret, throw, get, modify in H;
  red_state H; repeat exec1 deepcr_special H; finish_run H.

(** A job never lets an exception escape. *)
Lemma deepcr_returns c h s r s' :
  executeDeepCR c h s = (r, s') -> exists o, r = Ok o.
Proof.
  intros H. destruct s as [now0 random0 files0 target0 windows0 log0 vi vo vm].
  deepcr_run H; eexists; reflexivity.
Qed.

Lemma deepcr_exit_code c h s r s' :
  proc_exitCode h <> 0 ->
  executeDeepCR c h s = (r, s') ->
  (exists e, r = Ok (Failure e)) /\
  filter is_load (log s') = filter is_load (log s) /\
  filter is_apply (log s') = filter is_apply (log s) /\
  target s' = target s /\ windows s' = windows s.
Proof.
  intros Hx H. destruct s as [now0 random0 files0 target0 windows0 log0 vi vo vm].
  deepcr_run H; red_goal; try exit_zero.
  all: (split; [eexists; reflexivity |]).
  all: repeat split; filter_norm; try reflexivity.
Qed.

Lemma deepcr_process_failure c h s r s' :
  mem (wrapperScript c) (files s) = true ->
  activeWindow h <> None ->
  saveAs_ok h (deepcr_tempFile h (now s) (random s)) = true ->
  ends_in_time h TIMEOUT_MS ->
  proc_exitCode h <> 0 ->
  executeDeepCR c h s = (r, s') ->
  r = Ok (Failure (ProcessFailed "DeepCR" (proc_exitCode h))).
Proof.
  intros Hw Ha Hs Ht Hx H.
  destruct s as [now0 random0 files0 target0 windows0 log0 vi vo vm].
  deepcr_run H; red_all; absurd_leaf.
Qed.


Lemma deepcr_missing_mask c h s r s' name img :
  saveMask c = true ->
  mem (wrapperScript c) (files s) = true ->
  activeWindow h = Some name ->
  let tempFile := deepcr_tempFile h (now s) (random s) in
  let disk := files_after_tool h tempFile (files s) in
  saveAs_ok h tempFile = true ->
  ends_in_time h TIMEOUT_MS ->
  proc_exitCode h = 0 ->
  mem (cleanedPath_of c tempFile) disk = true ->
  loads h (cleanedPath_of c tempFile) img ->
  assign_ok h (if replaceActive c then TargetView
               else WindowView (name ++ "_DeepCR")%string) = true ->
  mem (maskPath_of c tempFile) disk = false ->
  executeDeepCR c h s = (r, s') ->
  r = Ok Success /\
  windows s' = (if replaceActive c then windows s
                else (name ++ "_DeepCR", img)%string :: windows s) /\
  count is_dialog (log s') = count is_dialog (log s) /\
  filter is_load (log s') =
    read_events (format_of (cleanedPath_of c tempFile)) (cleanedPath_of c tempFile)
    ++ filter is_load (log s).
Proof.
  intros Hm Hw Ha tempFile disk Hs Ht Hx Hc (Hl1 & Hl2 & Hl3) Has Hmask H.
  subst tempFile disk. unfold files_after_tool in *.
  destruct s as [now0 random0 files0 target0 windows0 log0 vi vo vm].
  deepcr_run H; red_all; absurd_leaf.
  all: match goal with
       | Hd : decode _ ?p = Some ?a, Hd' : decode _ ?p = Some ?b |- _ =>
           rewrite Hd in Hd'; inversion Hd'; subst; clear Hd'
       end.
  all: inversion Ha; subst; cbn [update_window]; rewrite ?String.eqb_refl.
  all: unfold count; repeat split; filter_norm; try reflexivity; try congruence.
Qed.
Lemma deepcr_bracket c h s r s' :
  executeDeepCR c h s = (r, s') ->
  (filter is_target_event (log s') = filter is_target_event (log s) /\
   target s' = target s) \/
  (replaceActive c = true /\ assign_ok h TargetView = true /\
   filter is_target_event (log s') =
     EvEndProcess TargetView :: EvAssign TargetView :: EvBeginProcess TargetView
     :: filter is_target_event (log s)) \/
  (replaceActive c = true /\ assign_ok h TargetView = false /\
   r = Ok (Failure (HostException "Image.assign")) /\
   filter is_target_event (log s') =
     EvAssign TargetView :: EvBeginProcess TargetView
     :: filter is_target_event (log s) /\
   target s' = target s).
Proof.
  intros H. destruct s as [now0 random0 files0 target0 windows0 log0 vi vo vm].
  deepcr_run H; red_all.
  all: first
    [ left; split; [filter_norm; reflexivity | reflexivity]
    | right; left; repeat split; try assumption; filter_norm; reflexivity
    | right; right; repeat split; try assumption; filter_norm; reflexivity ].
Qed.

Lemma cleaned_not_mask c tempFile : cleanedPath_of c tempFile <> maskPath_of c tempFile.
Proof.
  unfold cleanedPath_of, maskPath_of. intros H.
  repeat (apply append_inj_l in H). discriminate.
Qed.

Ltac not_before_apply :=
  match goal with
  | Hb : before_apply _ _ |- _ =>
      unfold before_apply, concerns, kind_of in Hb;
      repeat (destruct Hb as [Hb | Hb]); try discriminate;
      try (destruct Hb as (? & Hb)); try discriminate;
      inversion Hb;
      match goal with
      | Hp : _ = _ |- _ => symmetry in Hp; apply cleaned_not_mask in Hp; contradiction
      | Hp : _ = _ |- _ => apply cleaned_not_mask in Hp; contradiction
      end
  end.

Lemma deepcr_no_partial c h s s' e :
  executeDeepCR c h s = (Ok (Failure e), s') ->
  before_apply (cleanedPath_of c (deepcr_tempFile h (now s) (random s))) e ->
  target s' = target s /\
  filter is_target_event (log s') = filter is_target_event (log s).
Proof.
  intros H Hb. destruct s as [now0 random0 files0 target0 windows0 log0 vi vo vm].
  deepcr_run H; red_all.
  all: try (split; [reflexivity | filter_norm; reflexivity]).
  all: try not_before_apply.
Qed.






(** What a job leaves behind, whatever path it takes: the files it did not
    make are still there; a success has put the decoded result into the
    target view or into the new window; without a mask a failure leaves the
    target image alone; the loader never meets a path it does not know. *)
Lemma deepcr_effects c h s r s' :
  executeDeepCR c h s = (r, s') ->
  (forall q, In q (files s) ->
     q <> deepcr_tempFile h (now s) (random s) ->
     q <> cleanedPath_of c (deepcr_tempFile h (now s) (random s)) ->
     q <> maskPath_of c (deepcr_tempFile h (now s) (random s)) ->
     In q (files s')) /\
  (r = Ok Success ->
   exists name img,
     activeWindow h = Some name /\
     decode h (cleanedPath_of c (deepcr_tempFile h (now s) (random s))) = Some img /\
     if replaceActive c then target s' = img
     else target s' = target s /\ In ((name ++ "_DeepCR")%string, img) (windows s')) /\
  (saveMask c = false -> forall e, r = Ok (Failure e) -> target s' = target s) /\
  (forall p, r <> Ok (Failure (UnsupportedFormat p))) /\
  now s <= now s' <= now s + TIMEOUT_MS + POLL_MS + Z.of_nat (events_cost h).
Proof.
  intros H. destruct s as [now0 random0 files0 target0 windows0 log0 vi vo vm].
  deepcr_run H; red_all.
  all: try match goal with
       | Hs : supported (cleanedPath_of _ _) = false |- _ =>
           rewrite cleanedPath_supported in Hs; discriminate Hs
       | Hs : supported (maskPath_of _ _) = false |- _ =>
           rewrite maskPath_supported in Hs; discriminate Hs
       end.
  all: split;
    [ intros q Hq N1 N2 N3; apply removed_all_keeps;
      [ repeat first [ assumption | apply in_or_app; right | right ]
      | intros Hin; cbn [In] in Hin;
        repeat (destruct Hin as [Hin | Hin]); try contradiction; try discriminate;
        inversion Hin; congruence ]
    | split; [| split; [| split; [| unfold TIMEOUT_MS, POLL_MS in *; lia]]] ].
  all: try (intros Hsuc; discriminate Hsuc).
  all: try (intros p Hp; discriminate Hp).
  all: try (intros Hm e He; first [reflexivity | congruence]).
  all: intros _; eexists _, _; split; [reflexivity |]; split; [eassumption |].
  all: try reflexivity.
  all: split; [reflexivity |].
  all: cbn [update_window]; rewrite ?String.eqb_refl; cbn [In]; auto.
Qed.

(** The tool is started exactly when the wrapper is there, a window is
    active and the export succeeds, and then once. *)
Lemma deepcr_spawn c h s r s' :
  executeDeepCR c h s = (r, s') ->
  (deepcr_launches c h s /\
   filter is_spawn (log s') =
     EvSpawn (JS.join " " (buildCommandArray c (deepcr_tempFile h (now s) (random s))))
             (now s) :: filter is_spawn (log s)) \/
  (~ deepcr_launches c h s /\
   filter is_spawn (log s') = filter is_spawn (log s) /\
   exists e, r = Ok (Failure e) /\
             (kind_of e = LaunchError \/ kind_of e = ExportError)).
Proof.
  intros H. destruct s as [now0 random0 files0 target0 windows0 log0 vi vo vm].
  unfold deepcr_launches.
  deepcr_run H; red_all.
  all: first
    [ left; split;
      [ repeat split; [assumption | congruence | assumption]
      | filter_norm; reflexivity ]
    | right; split;
      [ intros (Hw & Ha & Hs); congruence
      | split; [filter_norm; reflexivity |];
        eexists; split; [reflexivity |]; cbn [kind_of]; auto ] ].
Qed.

(** The tool ends with exit code 0 and has not written its result. *)
Lemma deepcr_missing_output c h s r s' :
  mem (wrapperScript c) (files s) = true ->
  activeWindow h <> None ->
  saveAs_ok h (deepcr_tempFile h (now s) (random s)) = true ->
  ends_in_time h TIMEOUT_MS ->
  proc_exitCode h = 0 ->
  mem (cleanedPath_of c (deepcr_tempFile h (now s) (random s)))
      (files_after_tool h (deepcr_tempFile h (now s) (random s)) (files s)) = false ->
  executeDeepCR c h s = (r, s') ->
  r = Ok (Failure (OutputNotFound "Cleaned image not found at: "
                     (cleanedPath_of c (deepcr_tempFile h (now s) (random s))))) /\
  filter is_load (log s') = filter is_load (log s) /\
  filter is_apply (log s') = filter is_apply (log s) /\
  target s' = target s /\ windows s' = windows s.
Proof.
  intros Hw Ha Hs Ht Hx Hc H. unfold files_after_tool in Hc.
  destruct s as [now0 random0 files0 target0 windows0 log0 vi vo vm].
  deepcr_run H; red_all; absurd_leaf.
  repeat split; filter_norm; reflexivity.
Qed.

End DeepCRSteps.

(** ** The steps and the jobs of the L.A.Cosmic script *)

Section LACosmicSteps.
Import LACosmic.

Lemma lacosmic_tempFilename_eq (h : host) (s : state) :
  generateSecureTempFilename h s =
    (Ok (lacosmic_tempFile h (now s) (random s)),
     set_random (tl (tl (random s))) s).
Proof.
  unfold generateSecureTempFilename, bind, Math_random_toString36, Date_now, get, ret,
    lacosmic_tempFile, random_suffix.
  destruct (random s) as [| r1 [| r2 r]] eqn:E; simpl; rewrite ?E; simpl;
    try reflexivity.
  - destruct s; simpl in *; subst; reflexivity.
Qed.

Lemma loadFITSImage_spec (h : host) (path : string) (s : state) :
  (can_open h path = false /\
   loadFITSImage h path s =
     (Throw (CannotOpen "Cannot open FITS file: " path),
      set_log (EvOpen ".fits" path :: log s) s)) \/
  (can_open h path = true /\ decode h path = None /\
   loadFITSImage h path s =
     (Throw (CannotRead "Cannot read FITS image: " path),
      set_log (read_events ".fits" path ++ log s) s)) \/
  (can_open h path = true /\
   exists img, decode h path = Some img /\
   loadFITSImage h path s =
     (Ok img, set_log (read_events ".fits" path ++ log s) s)).
Proof.
  unfold loadFITSImage, bind, ret, file_open, file_readImage, file_close, emit, modify.
  simpl. destruct (can_open h path) eqn:Eo; simpl.
  - right. destruct (decode h path) as [img |] eqn:Ed.
    + right. split; [reflexivity |]. exists img. split; reflexivity.
    + left. repeat split; reflexivity.
  - left. split; reflexivity.
Qed.

Lemma cleanupOne_spec (path : option string) (s : state) :
  exists evs,
    cleanupOne path s =
      (Ok tt, set_log (evs ++ log s) (set_files (remove_opt path (files s)) s)) /\
    Forall (fun e => is_removal e = true) evs.
Proof.
  destruct path as [p |]; simpl.
  - destruct (String.eqb p "") eqn:E.
    + exists []. split; [| constructor]. unfold ret. destruct s; reflexivity.
    + unfold bind, File_exists, get, try_catch, File_remove.
      destruct (mem p (files s)) eqn:Em; rewrite ?Em.
      * exists [EvRemove p]. split; [reflexivity | repeat constructor].
      * exists []. split; [| constructor].
        rewrite (remove_path_absent _ _ Em). unfold ret. destruct s; reflexivity.
  - exists []. split; [| constructor]. unfold ret. destruct s; reflexivity.
Qed.

Lemma cleanupLoop_spec : forall (paths : list (option string)) (s : state),
  exists evs,
    cleanupLoop paths s =
      (Ok tt, set_log (evs ++ log s) (set_files (removed_all paths (files s)) s)) /\
    Forall (fun e => is_removal e = true) evs.
Proof.
  induction paths as [| path paths IH]; intros s.
  - exists []. split; [| constructor]. simpl. unfold ret. destruct s; reflexivity.
  - simpl. unfold bind.
    destruct (cleanupOne_spec path s) as (e1 & E1 & H1). rewrite E1.
    destruct (IH (set_log (e1 ++ log s) (set_files (remove_opt path (files s)) s)))
      as (e2 & E2 & H2).
    rewrite E2. exists (e2 ++ e1). split.
    + simpl. rewrite <- app_assoc. reflexivity.
    + apply Forall_app. split; assumption.
Qed.

Lemma cleanupTempFiles_spec (paths : list (option string)) (s : state) :
  exists evs,
    cleanupTempFiles paths s =
      (Ok tt, set_log (evs ++ EvCleanup paths :: log s)
                      (set_files (removed_all paths (files s)) s)) /\
    Forall (fun e => is_removal e = true) evs.
Proof.
  unfold cleanupTempFiles, bind, emit, modify.
  destruct (cleanupLoop_spec paths (set_log (EvCleanup paths :: log s) s))
    as (evs & E & H).
  rewrite E. exists evs. split; [reflexivity | assumption].
Qed.

Ltac lacosmic_special x H :=
  lazymatch x with
  | generateSecureTempFilename ?hh ?st =>
      rewrite (lacosmic_tempFilename_eq hh st) in H
  | cleanupTempFiles ?paths ?st =>
      let evs := fresh "rem" in
      let E := fresh "E" in
      let Hr := fresh "Hrem" in
      destruct (cleanupTempFiles_spec paths st) as (evs & E & Hr);
      rewrite E in H; clear E
  | loadFITSImage ?hh ?p ?st =>
      let E := fresh "E" in
      destruct (loadFITSImage_spec hh p st)
        as [(? & E) | [(? & ? & E) | (? & ? & ? & E)]];
      rewrite E in H; clear E
  end.

Ltac lacosmic_run H :=
  unfold executeCosmicRayRemoval, try_catch, tryBlock, catchBlock,
    presentResult, presentMask, recordedPaths in H;
  unfold File_exists, saveAs, ExternalProcess, Date_now, Console_writeln,
    Console_criticalln, MessageBox_execute, beginProcess, endProcess, assign,
    ImageWindow_new, show in H;
  unfold emit in H; unfold bind, ret, throw, get, modify in H;
  red_state H; repeat exec1 lacosmic_special H; finish_run H.

Lemma lacosmic_returns c h s r s' :
  executeCosmicRayRemoval c h s = (r, s') -> exists o, r = Ok o.
Proof.
  intros H. destruct s as [now0 random0 files0 target0 windows0 log0 vi vo vm].
  lacosmic_run H; eexists; reflexivity.
Qed.

Lemma lacosmic_exit_code c h s r s' :
  proc_exitCode h <> 0 ->
  executeCosmicRayRemoval c h s = (r, s') ->
  (exists e, r = Ok (Failure e)) /\
  filter is_load (log s') = filter is_load (log s) /\
  filter is_apply (log s') = filter is_apply (log s) /\
  target s' = target s /\ windows s' = windows s.
Proof.
  intros Hx H. destruct s as [now0 random0 files0 target0 windows0 log0 vi vo vm].
  lacosmic_run H; red_goal; try exit_zero.
  all: (split; [eexists; reflexivity |]).
  all: repeat split; filter_norm; try reflexivity.
Qed.

Lemma lacosmic_process_failure c h s r s' :
  mem (wrapperScript c) (files s) = true ->
  activeWindow h <> None ->
  saveAs_ok h (lacosmic_tempFile h (now s) (random s)) = true ->
  ends_in_time h TIMEOUT_MS ->
  proc_exitCode h <> 0 ->
  executeCosmicRayRemoval c h s = (r, s') ->
  r = Ok (Failure (ProcessFailed "L.A.Cosmic" (proc_exitCode h))).
Proof.
  intros Hw Ha Hs Ht Hx H.
  destruct s as [now0 random0 files0 target0 windows0 log0 vi vo vm].
  lacosmic_run H; red_all; absurd_leaf.
Qed.


Lemma lacosmic_missing_mask c h s r s' name img :
  saveMask c = true ->
  mem (wrapperScript c) (files s) = true ->
  activeWindow h = Some name ->
  let tempFile := lacosmic_tempFile h (now s) (random s) in
  let disk := files_after_tool h tempFile (files s) in
  saveAs_ok h tempFile = true ->
  ends_in_time h TIMEOUT_MS ->
  proc_exitCode h = 0 ->
  mem (outputPath_of c tempFile) disk = true ->
  can_open h (outputPath_of c tempFile) = true ->
  decode h (outputPath_of c tempFile) = Some img ->
  assign_ok h (if replaceActive c then TargetView
               else WindowView (name ++ "_LACosmic")%string) = true ->
  mem (maskPath_of c tempFile) disk = false ->
  executeCosmicRayRemoval c h s = (r, s') ->
  r = Ok Success /\
  windows s' = (if replaceActive c then windows s
                else (name ++ "_LACosmic", img)%string :: windows s) /\
  count is_dialog (log s') = count is_dialog (log s) /\
  filter is_load (log s') =
    read_events ".fits" (outputPath_of c tempFile) ++ filter is_load (log s).
Proof.
  intros Hm Hw Ha tempFile disk Hs Ht Hx Hc Hl2 Hl3 Has Hmask H.
  subst tempFile disk. unfold files_after_tool in *.
  destruct s as [now0 random0 files0 target0 windows0 log0 vi vo vm].
  lacosmic_run H; red_all; absurd_leaf.
  all: match goal with
       | Hd : decode _ ?p = Some ?a, Hd' : decode _ ?p = Some ?b |- _ =>
           rewrite Hd in Hd'; inversion Hd'; subst; clear Hd'
       end.
  all: inversion Ha; subst; cbn [update_window]; rewrite ?String.eqb_refl.
  all: unfold count; repeat split; filter_norm; try reflexivity; try congruence.
Qed.

Lemma lacosmic_bracket c h s r s' :
  executeCosmicRayRemoval c h s = (r, s') ->
  (filter is_target_event (log s') = filter is_target_event (log s) /\
   target s' = target s) \/
  (replaceActive c = true /\ assign_ok h TargetView = true /\
   filter is_target_event (log s') =
     EvEndProcess TargetView :: EvAssign TargetView :: EvBeginProcess TargetView
     :: filter is_target_event (log s)) \/
  (replaceActive c = true /\ assign_ok h TargetView = false /\
   r = Ok (Failure (HostException "Image.assign")) /\
   filter is_target_event (log s') =
     EvAssign TargetView :: EvBeginProcess TargetView
     :: filter is_target_event (log s) /\
   target s' = target s).
Proof.
  intros H. destruct s as [now0 random0 files0 target0 windows0 log0 vi vo vm].
  lacosmic_run H; red_all.
  all: first
    [ left; split; [filter_norm; reflexivity | reflexivity]
    | right; left; repeat split; try assumption; filter_norm; reflexivity
    | right; right; repeat split; try assumption; filter_norm; reflexivity ].
Qed.

Lemma output_not_mask c tempFile : outputPath_of c tempFile <> maskPath_of c tempFile.
Proof.
  unfold outputPath_of, maskPath_of. intros H.
  repeat (apply append_inj_l in H). discriminate.
Qed.

Ltac lacosmic_not_before_apply :=
  match goal with
  | Hb : before_apply _ _ |- _ =>
      unfold before_apply, concerns, kind_of in Hb;
      repeat (destruct Hb as [Hb | Hb]); try discriminate;
      try (destruct Hb as (? & Hb)); try discriminate;
      inversion Hb;
      match goal with
      | Hp : _ = _ |- _ => symmetry in Hp; apply output_not_mask in Hp; contradiction
      | Hp : _ = _ |- _ => apply output_not_mask in Hp; contradiction
      end
  end.

Lemma lacosmic_no_partial c h s s' e :
  executeCosmicRayRemoval c h s = (Ok (Failure e), s') ->
  before_apply (outputPath_of c (lacosmic_tempFile h (now s) (random s))) e ->
  target s' = target s /\
  filter is_target_event (log s') = filter is_target_event (log s).
Proof.
  intros H Hb. destruct s as [now0 random0 files0 target0 windows0 log0 vi vo vm].
  lacosmic_run H; red_all.
  all: try (split; [reflexivity | filter_norm; reflexivity]).
  all: try lacosmic_not_before_apply.
Qed.







(** What a job leaves behind, whatever path it takes. *)
Lemma lacosmic_effects c h s r s' :
  executeCosmicRayRemoval c h s = (r, s') ->
  (forall q, In q (files s) ->
     q <> lacosmic_tempFile h (now s) (random s) ->
     q <> outputPath_of c (lacosmic_tempFile h (now s) (random s)) ->
     q <> maskPath_of c (lacosmic_tempFile h (now s) (random s)) ->
     In q (files s')) /\
  (r = Ok Success ->
   exists name img,
     activeWindow h = Some name /\
     decode h (outputPath_of c (lacosmic_tempFile h (now s) (random s))) = Some img /\
     if replaceActive c then target s' = img
     else target s' = target s /\ In ((name ++ "_LACosmic")%string, img) (windows s')) /\
  (saveMask c = false -> forall e, r = Ok (Failure e) -> target s' = target s) /\
  now s <= now s' <= now s + TIMEOUT_MS + POLL_MS + Z.of_nat (events_cost h).
Proof.
  intros H. destruct s as [now0 random0 files0 target0 windows0 log0 vi vo vm].
  lacosmic_run H; red_all.
  all: split;
    [ intros q Hq N1 N2 N3; apply removed_all_keeps;
      [ repeat first [ assumption | apply in_or_app; right | right ]
      | intros Hin; cbn [In] in Hin;
        repeat (destruct Hin as [Hin | Hin]); try contradiction; try discriminate;
        inversion Hin; congruence ]
    | split; [| split; [| unfold TIMEOUT_MS, POLL_MS in *; lia]] ].
  all: try (intros Hsuc; discriminate Hsuc).
  all: try (intros Hm e He; first [reflexivity | congruence]).
  all: intros _; eexists _, _; split; [reflexivity |]; split; [eassumption |].
  all: try reflexivity.
  all: split; [reflexivity |].
  all: cbn [update_window]; rewrite ?String.eqb_refl; cbn [In]; auto.
Qed.

(** The tool is started exactly when the wrapper is there, a window is
    active and the export succeeds, and then once. *)
Lemma lacosmic_spawn c h s r s' :
  executeCosmicRayRemoval c h s = (r, s') ->
  (lacosmic_launches c h s /\
   filter is_spawn (log s') =
     EvSpawn (JS.join " " (buildCommandArray c (lacosmic_tempFile h (now s) (random s))))
             (now s) :: filter is_spawn (log s)) \/
  (~ lacosmic_launches c h s /\
   filter is_spawn (log s') = filter is_spawn (log s) /\
   exists e, r = Ok (Failure e) /\
             (kind_of e = LaunchError \/ kind_of e = ExportError)).
Proof.
  intros H. destruct s as [now0 random0 files0 target0 windows0 log0 vi vo vm].
  unfold lacosmic_launches.
  lacosmic_run H; red_all.
  all: first
    [ left; split;
      [ repeat split; [assumption | congruence | assumption]
      | filter_norm; reflexivity ]
    | right; split;
      [ intros (Hw & Ha & Hs); congruence
      | split; [filter_norm; reflexivity |];
        eexists; split; [reflexivity |]; cbn [kind_of]; auto ] ].
Qed.

(** The tool ends with exit code 0 and has not written its result. *)
Lemma lacosmic_missing_output c h s r s' :
  mem (wrapperScript c) (files s) = true ->
  activeWindow h <> None ->
  saveAs_ok h (lacosmic_tempFile h (now s) (random s)) = true ->
  ends_in_time h TIMEOUT_MS ->
  proc_exitCode h = 0 ->
  mem (outputPath_of c (lacosmic_tempFile h (now s) (random s)))
      (files_after_tool h (lacosmic_tempFile h (now s) (random s)) (files s)) = false ->
  executeCosmicRayRemoval c h s = (r, s') ->
  r = Ok (Failure (OutputNotFound "Output file not found: "
                     (outputPath_of c (lacosmic_tempFile h (now s) (random s))))) /\
  filter is_load (log s') = filter is_load (log s) /\
  filter is_apply (log s') = filter is_apply (log s) /\
  target s' = target s /\ windows s' = windows s.
Proof.
  intros Hw Ha Hs Ht Hx Hc H. unfold files_after_tool in Hc.
  destruct s as [now0 random0 files0 target0 windows0 log0 vi vo vm].
  lacosmic_run H; red_all; absurd_leaf.
  repeat split; filter_norm; reflexivity.
Qed.

End LACosmicSteps.

(** ** The steps and the jobs of the CosmeticCorrection script *)

Section CosmeticCorrectionSteps.
Import CosmeticCorrection.

Lemma cc_finallyBlock_spec (input output : string) (s : state) :
  exists evs,
    finallyBlock input output s =
      (Ok tt,
       set_log (evs ++ EvConsole Info "Cleaning up temporary files..."
                  :: EvCleanup [Some input; Some output] :: log s)
               (set_files (remove_path output (remove_path input (files s))) s)) /\
    Forall (fun e => is_removal e = true) evs.
Proof.
  destruct s as [now0 random0 files0 target0 windows0 log0 vi vo vm].
  unfold finallyBlock, try_catch, bind, emit, Console_writeln, emit, modify,
    File_exists, get, when, File_remove, ret.
  red_goal.
  destruct (mem input files0) eqn:E1; red_goal; rewrite ?E1; red_goal.
  - destruct (mem output (remove_path input files0)) eqn:E2; red_goal;
      rewrite ?E2; red_goal.
    + eexists [_; _; _]. split; [reflexivity | repeat constructor].
    + rewrite (remove_path_absent _ _ E2).
      eexists [_; _]. split; [reflexivity | repeat constructor].
  - rewrite (remove_path_absent _ _ E1).
    destruct (mem output files0) eqn:E2; red_goal; rewrite ?E2; red_goal.
    + eexists [_; _]. split; [reflexivity | repeat constructor].
    + rewrite (remove_path_absent _ _ E2).
      eexists [_]. split; [reflexivity | repeat constructor].
Qed.

Ltac cc_special x H :=
  lazymatch x with
  | finallyBlock ?i ?o ?st =>
      let evs := fresh "rem" in
      let E := fresh "E" in
      let Hr := fresh "Hrem" in
      destruct (cc_finallyBlock_spec i o st) as (evs & E & Hr);
      rewrite E in H; clear E
  end.

Ltac cc_run H :=
  unfold applyCosmeticCorrection, try_finally, try_catch, tryBlock, catchBlock,
    executeGlobal, ImageWindow_open, forceClose in H;
  unfold File_exists, saveAs, Date_now, Console_writeln,
    Console_criticalln, MessageBox_execute, beginProcess, endProcess, assign in H;
  unfold emit in H; unfold bind, ret, throw, get, modify in H;
  red_state H; repeat exec1 cc_special H; finish_run H.

Lemma cc_returns c h s r s' :
  applyCosmeticCorrection c h s = (r, s') -> exists o, r = Ok o.
Proof.
  intros H. destruct s as [now0 random0 files0 target0 windows0 log0 vi vo vm].
  cc_run H; eexists; reflexivity.
Qed.

Lemma cc_bracket c h s r s' :
  applyCosmeticCorrection c h s = (r, s') ->
  (filter is_target_event (log s') = filter is_target_event (log s) /\
   target s' = target s) \/
  (assign_ok h TargetView = true /\
   filter is_target_event (log s') =
     EvEndProcess TargetView :: EvAssign TargetView :: EvBeginProcess TargetView
     :: filter is_target_event (log s)) \/
  (assign_ok h TargetView = false /\
   r = Ok (Failure (HostException "Image.assign")) /\
   filter is_target_event (log s') =
     EvAssign TargetView :: EvBeginProcess TargetView
     :: filter is_target_event (log s) /\
   target s' = target s).
Proof.
  intros H. destruct s as [now0 random0 files0 target0 windows0 log0 vi vo vm].
  cc_run H; red_all.
  all: first
    [ left; split; [filter_norm; reflexivity | reflexivity]
    | right; left; repeat split; try assumption; filter_norm; reflexivity
    | right; right; repeat split; try assumption; filter_norm; reflexivity ].
Qed.

Lemma cc_cleanup c h s r s' :
  applyCosmeticCorrection c h s = (r, s') ->
  let input := tempInputFile_of (systemTempDirectory h) (now s) in
  let output := tempOutputFile_of (systemTempDirectory h) (now s) in
  exists rem before,
    log s' = rem ++ EvConsole Info "Cleaning up temporary files..."
                 :: EvCleanup [Some input; Some output] :: before ++ log s /\
    Forall (fun e => is_removal e = true) rem /\
    filter is_cleanup before = [] /\
    ~ In input (files s') /\ ~ In output (files s').
Proof.
  intros H. destruct s as [now0 random0 files0 target0 windows0 log0 vi vo vm].
  cc_run H; red_all.
  all: match goal with
       | |- context [?r ++ EvConsole Info ?line :: EvCleanup ?rec :: ?L] =>
           let p := prefix_of L log0 in exists r, p
       end.
  all: split; [repeat first [progress cbn [app]]; reflexivity |].
  all: split; [assumption |].
  all: split; [filter_norm; reflexivity |].
  all: split; intros Hin; repeat (apply In_remove_path in Hin; destruct Hin as [Hin ?]);
    congruence.
Qed.

(** What a job leaves behind, whatever path it takes: the files it did not
    make are still there; a failure leaves the target image alone; a success
    has put the decoded output into the target view and closed the window
    the output was opened in; the job fails on a missing process icon only
    when it was told to use one. *)
Lemma cc_effects c h s r s' :
  applyCosmeticCorrection c h s = (r, s') ->
  (forall q, In q (files s) ->
     q <> tempInputFile_of (systemTempDirectory h) (now s) ->
     q <> tempOutputFile_of (systemTempDirectory h) (now s) ->
     In q (files s')) /\
  (forall e, r = Ok (Failure e) -> target s' = target s) /\
  (r = Ok Success ->
   exists img,
     decode h (tempOutputFile_of (systemTempDirectory h) (now s)) = Some img /\
     target s' = img /\
     forall w, In w (windows s') ->
               fst w <> tempOutputFile_of (systemTempDirectory h) (now s)) /\
  (r = Ok (Failure (HostException "TypeError: CC is null")) ->
   useProcessIcon c = true /\ processIconId c <> "" /\
   icon_exists h (processIconId c) = false).
Proof.
  intros H. destruct s as [now0 random0 files0 target0 windows0 log0 vi vo vm].
  cc_run H; red_all.
  all: split;
    [ intros q Hq N1 N2; apply In_remove_path; split; [| congruence];
      apply In_remove_path; split; [| congruence];
      repeat first [ assumption | apply in_or_app; right | right ]
    | split; [| split] ].
  all: try (intros e He; first [reflexivity | discriminate He]).
  all: try (intros Hsuc; discriminate Hsuc).
  all: try (intros _; repeat split; try assumption;
            intros Hid; rewrite Hid in *; discriminate).
  all: intros _; eexists; split; [eassumption |]; split; [reflexivity |].
  all: intros w Hw; apply filter_In in Hw; destruct Hw as [_ Hw];
    intros Hf; rewrite Hf, String.eqb_refl in Hw; discriminate Hw.
Qed.

End CosmeticCorrectionSteps.

(** ** Parameters: what is written is what is read *)

Section RoundTrip.

Lemma lookup_set_same (k : string) (v : Parameters.pvalue)
      (l : list (string * Parameters.pvalue)) :
  Parameters.lookup k (Parameters.set_entry k v l) = Some v.
Proof.
  induction l as [| [k' v'] l IH]; simpl.
  - rewrite String.eqb_refl. reflexivity.
  - destruct (String.eqb k k') eqn:E; simpl.
    + rewrite String.eqb_refl. reflexivity.
    + rewrite E. exact IH.
Qed.

Lemma lookup_set_other (k k' : string) (v : Parameters.pvalue)
      (l : list (string * Parameters.pvalue)) :
  String.eqb k k' = false ->
  Parameters.lookup k (Parameters.set_entry k' v l) = Parameters.lookup k l.
Proof.
  intros Hk. induction l as [| [k'' v''] l IH]; simpl.
  - rewrite Hk. reflexivity.
  - destruct (String.eqb k' k'') eqn:E; simpl.
    + apply String.eqb_eq in E. subst k''. rewrite Hk. reflexivity.
    + destruct (String.eqb k k''); [reflexivity | exact IH].
Qed.

Lemma import_string P k v (S : Type) (store : string -> S -> S) (c : S) :
  Parameters.lookup k (Parameters.entries P) = Some (Parameters.PString v) ->
  Parameters.import_key P k Parameters.getString store (Ok c) = Ok (store v c).
Proof.
  intros H. unfold Parameters.import_key, Parameters.has, Parameters.getString.
  rewrite H. reflexivity.
Qed.

Lemma import_boolean P k v (S : Type) (store : bool -> S -> S) (c : S) :
  Parameters.lookup k (Parameters.entries P) = Some (Parameters.PBool v) ->
  Parameters.import_key P k Parameters.getBoolean store (Ok c) = Ok (store v c).
Proof.
  intros H. unfold Parameters.import_key, Parameters.has, Parameters.getBoolean.
  rewrite H. reflexivity.
Qed.

Lemma import_real P k v (S : Type) (store : JS.number -> S -> S) (c : S) :
  Parameters.lookup k (Parameters.entries P) = Some (Parameters.PReal v) ->
  Parameters.import_key P k Parameters.getReal store (Ok c) = Ok (store v c).
Proof.
  intros H. unfold Parameters.import_key, Parameters.has, Parameters.getReal.
  rewrite H. reflexivity.
Qed.

Lemma import_integer P k v (S : Type) (store : Z -> S -> S) (c : S) :
  Parameters.lookup k (Parameters.entries P) = Some (Parameters.PInt v) ->
  Parameters.import_key P k Parameters.getInteger store (Ok c) = Ok (store v c).
Proof.
  intros H. unfold Parameters.import_key, Parameters.has, Parameters.getInteger.
  rewrite H. reflexivity.
Qed.

(** A key of an exported set holds what was written last under it. *)
Ltac written :=
  cbn [Parameters.set Parameters.entries];
  repeat (rewrite lookup_set_other by reflexivity);
  apply lookup_set_same.

Ltac read_back :=
  repeat first
    [ erewrite import_string by written
    | erewrite import_boolean by written
    | erewrite import_real by written
    | erewrite import_integer by written ].

Lemma deepcr_round_trip (c c0 : DeepCR.settings) (P : Parameters.t) :
  DeepCR.importParameters (DeepCR.exportParameters c P) c0 =
    Ok (DeepCR.mkSettings (DeepCR.model c) (DeepCR.threshold c) (DeepCR.inpaint c0)
          (DeepCR.preset c) (DeepCR.saveMask c) (DeepCR.replaceActive c)
          (DeepCR.wrapperScript c0) (DeepCR.outputDir c0)).
Proof.
  unfold DeepCR.importParameters, DeepCR.exportParameters. cbv zeta.
  read_back. reflexivity.
Qed.

Lemma lacosmic_round_trip (c c0 : LACosmic.settings) (P : Parameters.t) :
  LACosmic.importParameters (LACosmic.exportParameters c P) c0 =
    Ok (LACosmic.mkSettings (LACosmic.sigclip c) (LACosmic.objlim c)
          (LACosmic.readnoise c) (LACosmic.gain c) (LACosmic.niter c)
          (LACosmic.cleantype c) (LACosmic.sigfrac c0) (LACosmic.sepmed c0)
          (LACosmic.fsmode c0) (LACosmic.psfmodel c0) (LACosmic.psffwhm c0)
          (LACosmic.psfsize c0) (LACosmic.psfbeta c0) (LACosmic.satlevel c0)
          (LACosmic.saveMask c) (LACosmic.replaceActive c)
          (LACosmic.wrapperScript c0) (LACosmic.outputDir c0)).
Proof.
  unfold LACosmic.importParameters, LACosmic.exportParameters. cbv zeta.
  read_back. reflexivity.
Qed.

Lemma cc_round_trip (c c0 : CosmeticCorrection.settings) (P : Parameters.t) :
  CosmeticCorrection.importParameters (CosmeticCorrection.exportParameters c P) c0 =
    Ok c.
Proof.
  unfold CosmeticCorrection.importParameters, CosmeticCorrection.exportParameters.
  cbv zeta. read_back. destruct c; reflexivity.
Qed.

End RoundTrip.

(** ** Temporary paths *)

Section TempPaths.

Lemma length_append (a b : string) :
  String.length (a ++ b) = (String.length a + String.length b)%nat.
Proof. induction a as [| x a IH]; simpl; [reflexivity | rewrite IH; reflexivity]. Qed.

Lemma append_inj_r : forall a b c : string, (a ++ c = b ++ c)%string -> a = b.
Proof.
  induction a as [| x a IH]; intros [| y b] c H; simpl in H.
  - reflexivity.
  - exfalso. apply (f_equal String.length) in H. simpl in H.
    rewrite length_append in H. lia.
  - exfalso. apply (f_equal String.length) in H. simpl in H.
    rewrite length_append in H. lia.
  - inversion H; subst. f_equal. eapply IH. eassumption.
Qed.

(** Two DeepCR or L.A.Cosmic allocations of the same millisecond differ as
    soon as their random suffixes do. *)
Lemma secure_names_differ h t r1 r2 :
  random_suffix r1 <> random_suffix r2 ->
  deepcr_tempFile h t r1 <> deepcr_tempFile h t r2 /\
  lacosmic_tempFile h t r1 <> lacosmic_tempFile h t r2.
Proof.
  intros Hr. unfold deepcr_tempFile, lacosmic_tempFile. split; intros H.
  - apply (append_inj_l (systemTempDirectory h)) in H.
    apply (append_inj_l "/bbdcr_") in H.
    apply (append_inj_l (JS.string_of_Z t)) in H.
    apply (append_inj_l "_") in H.
    apply append_inj_r in H. contradiction.
  - apply (append_inj_l (systemTempDirectory h)) in H.
    apply (append_inj_l "/bblac_") in H.
    apply (append_inj_l (JS.string_of_Z t)) in H.
    apply (append_inj_l "_") in H.
    apply append_inj_r in H. contradiction.
Qed.

End TempPaths.

(** ** The JavaScript helpers on a few inputs *)

Example toString_tenth : JS.toString (JS.mkNum 1 1) = "0.1".
Proof. reflexivity. Qed.

Example toString_trailing : JS.toString (JS.mkNum 50 3) = "0.05".
Proof. reflexivity. Qed.

Example toString_int : JS.toString (JS.mkNum 600 2) = "6".
Proof. reflexivity. Qed.

Example endsWith_xisf : JS.endsWith "a/b.xisf" ".xisf" = true.
Proof. reflexivity. Qed.

Example lastIndexOf_dot : JS.lastIndexOf "." "a.b.fit" = 3.
Proof. reflexivity. Qed.

Example substring_js : JS.substring 2 15 "0.abcdefghijklmnopq" = "abcdefghijklm".
Proof. reflexivity. Qed.

(* ------------------------------------------------------------------------- *)
(** * The claims *)
(* ------------------------------------------------------------------------- *)

Import Samples.

(** ** Cleanup on every exit path *)




(** ** No partial application *)

(** In replace mode with a mask requested, the job of [deepcr_bad_mask]
    fails on the mask after the target image has been replaced. *)
Lemma failure_after_replacement :
  ~ failure_keeps_target
      (DeepCR.executeDeepCR (deepcr_settings true true) deepcr_bad_mask start) start.
Proof.
  intros H.
  specialize (H (CannotOpen "Cannot open image file: " deepcr_mask)).
  vm_compute in H. specialize (H eq_refl). discriminate.
Qed.

(** C2 (amended).  A job that fails before the result is applied (export
    failure, launch failure, timeout, nonzero exit code, missing output, or
    a format error on the primary output) leaves the target image as it was:
    no [beginProcess], [assign] or [endProcess] on the target view
    happens. *)
Theorem no_partial_application :
  (forall c h s e,
     let run := DeepCR.executeDeepCR c h s in
     fst run = Ok (Failure e) ->
     before_apply (DeepCR.cleanedPath_of c (deepcr_tempFile h (now s) (random s))) e ->
     target (snd run) = target s /\
     filter is_target_event (log (snd run)) = filter is_target_event (log s)) /\
  (forall c h s e,
     let run := LACosmic.executeCosmicRayRemoval c h s in
     fst run = Ok (Failure e) ->
     before_apply (LACosmic.outputPath_of c (lacosmic_tempFile h (now s) (random s))) e ->
     target (snd run) = target s /\
     filter is_target_event (log (snd run)) = filter is_target_event (log s)).
Proof.
  split.
  - intros c h s e run Hr Hb. subst run.
    destruct (DeepCR.executeDeepCR c h s) as [r s'] eqn:H.
    cbn [fst snd] in *. subst r. eapply deepcr_no_partial; eassumption.
  - intros c h s e run Hr Hb. subst run.
    destruct (LACosmic.executeCosmicRayRemoval c h s) as [r s'] eqn:H.
    cbn [fst snd] in *. subst r. eapply lacosmic_no_partial; eassumption.
Qed.

(** A DeepCR job and an L.A.Cosmic job in replace mode whose result cannot
    be decoded. *)
Lemma no_partial_application_witness :
  (let run := DeepCR.executeDeepCR (deepcr_settings true true) deepcr_bad_result start in
   fst run = Ok (Failure (CannotRead "Cannot read image: " deepcr_cleaned)) /\
   before_apply deepcr_cleaned (CannotRead "Cannot read image: " deepcr_cleaned) /\
   target (snd run) = raw) /\
  (let run := LACosmic.executeCosmicRayRemoval (lacosmic_settings true true)
                lacosmic_bad_result start in
   fst run = Ok (Failure (CannotRead "Cannot read FITS image: " lacosmic_output)) /\
   before_apply lacosmic_output (CannotRead "Cannot read FITS image: " lacosmic_output) /\
   target (snd run) = raw).
Proof.
  assert (Hd : before_apply deepcr_cleaned (CannotRead "Cannot read image: " deepcr_cleaned)).
  { unfold before_apply, concerns. do 5 right. right. right. eexists. reflexivity. }
  assert (Hl : before_apply lacosmic_output
                 (CannotRead "Cannot read FITS image: " lacosmic_output)).
  { unfold before_apply, concerns. do 5 right. right. right. eexists. reflexivity. }
  split; cbv zeta.
  - split; [vm_compute; reflexivity |]. split; [exact Hd |].
    apply (proj1 no_partial_application (deepcr_settings true true) deepcr_bad_result
             start (CannotRead "Cannot read image: " deepcr_cleaned)).
    + vm_compute. reflexivity.
    + exact Hd.
  - split; [vm_compute; reflexivity |]. split; [exact Hl |].
    apply (proj2 no_partial_application (lacosmic_settings true true)
             lacosmic_bad_result start
             (CannotRead "Cannot read FITS image: " lacosmic_output)).
    + vm_compute. reflexivity.
    + exact Hl.
Defined.

(** ** Exit-code gating *)

(** C3.  When the exit code of the child is not zero the job ends in a
    failure and nothing is opened, read or applied to any image; once the
    tool has been started and has ended in time, the failure is the
    process failure that carries the exit code. *)
Theorem exit_code_gating :
  (forall c h s,
     proc_exitCode h <> 0 ->
     let run := DeepCR.executeDeepCR c h s in
     (exists e, fst run = Ok (Failure e)) /\
     filter is_load (log (snd run)) = filter is_load (log s) /\
     filter is_apply (log (snd run)) = filter is_apply (log s) /\
     target (snd run) = target s /\ windows (snd run) = windows s /\
     (deepcr_launches c h s -> ends_in_time h DeepCR.TIMEOUT_MS ->
      fst run = Ok (Failure (ProcessFailed "DeepCR" (proc_exitCode h))) /\
      kind_of (ProcessFailed "DeepCR" (proc_exitCode h)) = ProcessFailure)) /\
  (forall c h s,
     proc_exitCode h <> 0 ->
     let run := LACosmic.executeCosmicRayRemoval c h s in
     (exists e, fst run = Ok (Failure e)) /\
     filter is_load (log (snd run)) = filter is_load (log s) /\
     filter is_apply (log (snd run)) = filter is_apply (log s) /\
     target (snd run) = target s /\ windows (snd run) = windows s /\
     (lacosmic_launches c h s -> ends_in_time h LACosmic.TIMEOUT_MS ->
      fst run = Ok (Failure (ProcessFailed "L.A.Cosmic" (proc_exitCode h))) /\
      kind_of (ProcessFailed "L.A.Cosmic" (proc_exitCode h)) = ProcessFailure)).
Proof.
  split.
  - intros c h s Hx run. subst run.
    destruct (DeepCR.executeDeepCR c h s) as [r s'] eqn:H. cbn [fst snd].
    pose proof (deepcr_exit_code c h s r s' Hx H) as (H1 & H2 & H3 & H4 & H5).
    repeat (split; [assumption |]).
    intros (Hw & Ha & Hs) Ht. split; [| reflexivity].
    eapply deepcr_process_failure; eassumption.
  - intros c h s Hx run. subst run.
    destruct (LACosmic.executeCosmicRayRemoval c h s) as [r s'] eqn:H. cbn [fst snd].
    pose proof (lacosmic_exit_code c h s r s' Hx H) as (H1 & H2 & H3 & H4 & H5).
    repeat (split; [assumption |]).
    intros (Hw & Ha & Hs) Ht. split; [| reflexivity].
    eapply lacosmic_process_failure; eassumption.
Qed.

(** The jobs of [deepcr_exit1] and [lacosmic_exit1]: the tool ends after 8 s
    with exit code 1. *)
Lemma exit_code_gating_witness :
  (proc_exitCode deepcr_exit1 <> 0 /\
   deepcr_launches (deepcr_settings true true) deepcr_exit1 start /\
   ends_in_time deepcr_exit1 DeepCR.TIMEOUT_MS /\
   let run := DeepCR.executeDeepCR (deepcr_settings true true) deepcr_exit1 start in
   fst run = Ok (Failure (ProcessFailed "DeepCR" 1)) /\
   filter is_load (log (snd run)) = [] /\ target (snd run) = raw) /\
  (proc_exitCode lacosmic_exit1 <> 0 /\
   lacosmic_launches (lacosmic_settings true true) lacosmic_exit1 start /\
   ends_in_time lacosmic_exit1 LACosmic.TIMEOUT_MS /\
   let run := LACosmic.executeCosmicRayRemoval (lacosmic_settings true true)
                lacosmic_exit1 start in
   fst run = Ok (Failure (ProcessFailed "L.A.Cosmic" 1)) /\
   filter is_load (log (snd run)) = [] /\ target (snd run) = raw).
Proof.
  assert (Hx : (1 : Z) <> 0) by discriminate.
  assert (Ht : exists d, Some 8000 = Some d /\ d + Z.of_nat 0 <= 600000).
  { exists 8000. split; [reflexivity | vm_compute; discriminate]. }
  split.
  - assert (Hl : deepcr_launches (deepcr_settings true true) deepcr_exit1 start).
    { repeat split; try reflexivity. discriminate. }
    split; [exact Hx |]. split; [exact Hl |]. split; [exact Ht |]. cbv zeta.
    pose proof (proj1 exit_code_gating (deepcr_settings true true) deepcr_exit1 start Hx)
      as (_ & H2 & _ & H4 & _ & H6).
    destruct (H6 Hl Ht) as [H7 _].
    split; [exact H7 |]. split; [exact H2 | exact H4].
  - assert (Hl : lacosmic_launches (lacosmic_settings true true) lacosmic_exit1 start).
    { repeat split; try reflexivity. discriminate. }
    split; [exact Hx |]. split; [exact Hl |]. split; [exact Ht |]. cbv zeta.
    pose proof (proj2 exit_code_gating (lacosmic_settings true true) lacosmic_exit1 start Hx)
      as (_ & H2 & _ & H4 & _ & H6).
    destruct (H6 Hl Ht) as [H7 _].
    split; [exact H7 |]. split; [exact H2 | exact H4].
Defined.

(** ** Timeout enforcement *)



(** ** A missing mask *)

(** C10.  With the mask requested, the tool ended in time with exit code 0,
    the primary result on disk, readable and applied, and no file at the
    path of the mask, the job ends in success: no dialog is shown, nothing
    but the primary result is opened or read, and the only window made is
    the one of the result (none in replace mode). *)
Theorem missing_mask_tolerated :
  (forall c h s name img,
     let tempFile := deepcr_tempFile h (now s) (random s) in
     let disk := files_after_tool h tempFile (files s) in
     DeepCR.saveMask c = true ->
     mem (DeepCR.wrapperScript c) (files s) = true ->
     activeWindow h = Some name ->
     saveAs_ok h tempFile = true ->
     ends_in_time h DeepCR.TIMEOUT_MS ->
     proc_exitCode h = 0 ->
     mem (DeepCR.cleanedPath_of c tempFile) disk = true ->
     loads h (DeepCR.cleanedPath_of c tempFile) img ->
     assign_ok h (if DeepCR.replaceActive c then TargetView
                  else WindowView (name ++ "_DeepCR")%string) = true ->
     mem (DeepCR.maskPath_of c tempFile) disk = false ->
     let run := DeepCR.executeDeepCR c h s in
     fst run = Ok Success /\
     windows (snd run) =
       (if DeepCR.replaceActive c then windows s
        else (name ++ "_DeepCR", img)%string :: windows s) /\
     count is_dialog (log (snd run)) = count is_dialog (log s) /\
     filter is_load (log (snd run)) =
       read_events (format_of (DeepCR.cleanedPath_of c tempFile))
                   (DeepCR.cleanedPath_of c tempFile)
       ++ filter is_load (log s)) /\
  (forall c h s name img,
     let tempFile := lacosmic_tempFile h (now s) (random s) in
     let disk := files_after_tool h tempFile (files s) in
     LACosmic.saveMask c = true ->
     mem (LACosmic.wrapperScript c) (files s) = true ->
     activeWindow h = Some name ->
     saveAs_ok h tempFile = true ->
     ends_in_time h LACosmic.TIMEOUT_MS ->
     proc_exitCode h = 0 ->
     mem (LACosmic.outputPath_of c tempFile) disk = true ->
     can_open h (LACosmic.outputPath_of c tempFile) = true ->
     decode h (LACosmic.outputPath_of c tempFile) = Some img ->
     assign_ok h (if LACosmic.replaceActive c then TargetView
                  else WindowView (name ++ "_LACosmic")%string) = true ->
     mem (LACosmic.maskPath_of c tempFile) disk = false ->
     let run := LACosmic.executeCosmicRayRemoval c h s in
     fst run = Ok Success /\
     windows (snd run) =
       (if LACosmic.replaceActive c then windows s
        else (name ++ "_LACosmic", img)%string :: windows s) /\
     count is_dialog (log (snd run)) = count is_dialog (log s) /\
     filter is_load (log (snd run)) =
       read_events ".fits" (LACosmic.outputPath_of c tempFile)
       ++ filter is_load (log s)).
Proof.
  split.
  - intros c h s name img tempFile disk Hm Hw Ha Hs Ht Hx Hc Hl Has Hmask run.
    subst run.
    destruct (DeepCR.executeDeepCR c h s) as [r s'] eqn:H. cbn [fst snd].
    exact (deepcr_missing_mask c h s r s' name img Hm Hw Ha Hs Ht Hx Hc Hl Has Hmask H).
  - intros c h s name img tempFile disk Hm Hw Ha Hs Ht Hx Hc Hl1 Hl2 Has Hmask run.
    subst run.
    destruct (LACosmic.executeCosmicRayRemoval c h s) as [r s'] eqn:H. cbn [fst snd].
    exact (lacosmic_missing_mask c h s r s' name img Hm Hw Ha Hs Ht Hx Hc Hl1 Hl2
             Has Hmask H).
Qed.

(** The jobs of [deepcr_no_mask] and [lacosmic_no_mask] with the mask
    requested, the first into a new window, the second in replace mode. *)
Lemma missing_mask_tolerated_witness :
  (let run := DeepCR.executeDeepCR (deepcr_settings true false) deepcr_no_mask start in
   mem deepcr_mask (files_after_tool deepcr_no_mask deepcr_input (files start)) = false /\
   fst run = Ok Success /\
   windows (snd run) = [("M31_DeepCR", cleaned)]) /\
  (let run := LACosmic.executeCosmicRayRemoval (lacosmic_settings true true)
                lacosmic_no_mask start in
   mem lacosmic_mask (files_after_tool lacosmic_no_mask lacosmic_input (files start)) = false /\
   fst run = Ok Success /\
   windows (snd run) = []).
Proof.
  assert (Ht : exists d, Some 8000 = Some d /\ d + Z.of_nat 0 <= 600000).
  { exists 8000. split; [reflexivity | vm_compute; discriminate]. }
  split; cbv zeta.
  - split; [reflexivity |].
    destruct (proj1 missing_mask_tolerated (deepcr_settings true false) deepcr_no_mask
                start "M31" cleaned) as (H1 & H2 & _);
      try reflexivity; try exact Ht.
    + repeat split; reflexivity.
    + split; [exact H1 | exact H2].
  - split; [reflexivity |].
    destruct (proj2 missing_mask_tolerated (lacosmic_settings true true) lacosmic_no_mask
                start "M31" cleaned) as (H1 & H2 & _);
      try reflexivity; try exact Ht.
    split; [exact H1 | exact H2].
Defined.

(** ** The bracket around the replacement *)

(** In the job of [deepcr_assign_fails] the host raises an exception in
    [assign]: [beginProcess] was called on the target view, [endProcess] is
    not. *)
Lemma bracket_left_open :
  ~ bracket_released start
      (snd (DeepCR.executeDeepCR (deepcr_settings false true) deepcr_assign_fails start)).
Proof.
  intros (evs & E & H).
  assert (E' : log (snd (DeepCR.executeDeepCR (deepcr_settings false true)
                           deepcr_assign_fails start)) = evs).
  { rewrite E. apply app_nil_r. }
  subst evs. clear E. vm_compute in H. discriminate H.
Qed.

(** C9 (amended).  What a job does to the target view is one of three
    things: nothing; [beginProcess], [assign], [endProcess] in this order,
    when the host completes the assignment; or [beginProcess] and an
    [assign] in which the host raises an exception, after which
    [endProcess] is not called, the image is as before and the job ends in
    that failure.  (The log is newest first.) *)
Theorem replacement_bracket :
  (forall c h s,
     let run := DeepCR.executeDeepCR c h s in
     (filter is_target_event (log (snd run)) = filter is_target_event (log s) /\
      target (snd run) = target s) \/
     (DeepCR.replaceActive c = true /\ assign_ok h TargetView = true /\
      filter is_target_event (log (snd run)) =
        EvEndProcess TargetView :: EvAssign TargetView :: EvBeginProcess TargetView
        :: filter is_target_event (log s)) \/
     (DeepCR.replaceActive c = true /\ assign_ok h TargetView = false /\
      fst run = Ok (Failure (HostException "Image.assign")) /\
      filter is_target_event (log (snd run)) =
        EvAssign TargetView :: EvBeginProcess TargetView
        :: filter is_target_event (log s) /\
      target (snd run) = target s)) /\
  (forall c h s,
     let run := LACosmic.executeCosmicRayRemoval c h s in
     (filter is_target_event (log (snd run)) = filter is_target_event (log s) /\
      target (snd run) = target s) \/
     (LACosmic.replaceActive c = true /\ assign_ok h TargetView = true /\
      filter is_target_event (log (snd run)) =
        EvEndProcess TargetView :: EvAssign TargetView :: EvBeginProcess TargetView
        :: filter is_target_event (log s)) \/
     (LACosmic.replaceActive c = true /\ assign_ok h TargetView = false /\
      fst run = Ok (Failure (HostException "Image.assign")) /\
      filter is_target_event (log (snd run)) =
        EvAssign TargetView :: EvBeginProcess TargetView
        :: filter is_target_event (log s) /\
      target (snd run) = target s)) /\
  (forall c h s,
     let run := CosmeticCorrection.applyCosmeticCorrection c h s in
     (filter is_target_event (log (snd run)) = filter is_target_event (log s) /\
      target (snd run) = target s) \/
     (assign_ok h TargetView = true /\
      filter is_target_event (log (snd run)) =
        EvEndProcess TargetView :: EvAssign TargetView :: EvBeginProcess TargetView
        :: filter is_target_event (log s)) \/
     (assign_ok h TargetView = false /\
      fst run = Ok (Failure (HostException "Image.assign")) /\
      filter is_target_event (log (snd run)) =
        EvAssign TargetView :: EvBeginProcess TargetView
        :: filter is_target_event (log s) /\
      target (snd run) = target s)).
Proof.
  split; [| split].
  - intros c h s run. subst run.
    destruct (DeepCR.executeDeepCR c h s) as [r s'] eqn:H. cbn [fst snd].
    exact (deepcr_bracket c h s r s' H).
  - intros c h s run. subst run.
    destruct (LACosmic.executeCosmicRayRemoval c h s) as [r s'] eqn:H. cbn [fst snd].
    exact (lacosmic_bracket c h s r s' H).
  - intros c h s run. subst run.
    destruct (CosmeticCorrection.applyCosmeticCorrection c h s) as [r s'] eqn:H.
    cbn [fst snd].
    exact (cc_bracket c h s r s' H).
Qed.

(** ** The result loader *)

(** [LACosmic.loadFITSImage] opens a file named [result.png]. *)
Lemma fits_loader_opens_any_suffix :
  ~ rejects_unsupported LACosmic.loadFITSImage.
Proof.
  intros H.
  destruct (H deepcr_hangs "result.png" start eq_refl) as (e & E & _).
  vm_compute in E. discriminate.
Qed.

(** C8 (amended).  [DeepCR.loadImage] chooses between two formats by the
    suffix of the lower-cased path alone ([.xisf], or [.fits] and [.fit]):
    a path of another suffix fails at once with the error of an unsupported
    format and nothing is opened; a path of a supported suffix is opened in
    the format of its suffix before anything else is done.
    [LACosmic.loadFITSImage] knows one format and opens every path it is
    given as [.fits]. *)
Theorem loader_format_by_suffix :
  (forall h path s,
     supported path = false ->
     DeepCR.loadImage h path s = (Throw (UnsupportedFormat path), s) /\
     kind_of (UnsupportedFormat path) = FormatError) /\
  (forall h path s,
     supported path = true ->
     exists later,
       log (snd (DeepCR.loadImage h path s)) =
         later ++ EvOpen (format_of path) path :: log s) /\
  (forall path, format_of path = ".xisf" \/ format_of path = ".fits") /\
  (forall h path s,
     exists later,
       log (snd (LACosmic.loadFITSImage h path s)) =
         later ++ EvOpen ".fits" path :: log s).
Proof.
  split; [| split; [| split]].
  - intros h path s Hs.
    destruct (loadImage_spec h path s)
      as [(_ & E) | [(Hc & _) | [(Hc & _) | (Hc & _)]]]; try congruence.
    split; [exact E | reflexivity].
  - intros h path s Hs.
    destruct (loadImage_spec h path s)
      as [(Hc & _) | [(_ & _ & E) | [(_ & _ & _ & E) | (_ & _ & img & _ & E)]]];
      try congruence; rewrite E; cbn [snd].
    + exists []. destruct s; reflexivity.
    + exists [EvClose path; EvRead path]. destruct s; reflexivity.
    + exists [EvClose path; EvRead path]. destruct s; reflexivity.
  - intros path. unfold format_of.
    destruct (JS.endsWith (JS.toLowerCase path) ".xisf"); [left | right]; reflexivity.
  - intros h path s.
    destruct (loadFITSImage_spec h path s)
      as [(_ & E) | [(_ & _ & E) | (_ & img & _ & E)]]; rewrite E; cbn [snd].
    + exists []. destruct s; reflexivity.
    + exists [EvClose path; EvRead path]. destruct s; reflexivity.
    + exists [EvClose path; EvRead path]. destruct s; reflexivity.
Qed.

(** A path that ends in [.png], and one that ends in [.FIT]. *)
Lemma loader_format_by_suffix_witness :
  supported "out/result.png" = false /\
  DeepCR.loadImage deepcr_hangs "out/result.png" start =
    (Throw (UnsupportedFormat "out/result.png"), start) /\
  supported "out/RESULT.FIT" = true /\
  exists later,
    log (snd (DeepCR.loadImage deepcr_hangs "out/RESULT.FIT" start)) =
      later ++ EvOpen ".fits" "out/RESULT.FIT" :: log start.
Proof.
  split; [reflexivity |].
  split; [apply (proj1 loader_format_by_suffix deepcr_hangs "out/result.png" start);
          reflexivity |].
  split; [reflexivity |].
  apply (proj1 (proj2 loader_format_by_suffix) deepcr_hangs "out/RESULT.FIT" start).
  reflexivity.
Defined.

(** ** Temporary paths of the same millisecond *)

(** C6 (the code departs from the claim).  The paths of a
    CosmeticCorrection job are made of the temp directory and the clock
    alone: two jobs started in the same millisecond record the same input
    and output paths, whatever their random sources hold. *)
Theorem cosmetic_correction_paths_collide :
  forall c1 c2 h1 h2 s1 s2,
    systemTempDirectory h1 = systemTempDirectory h2 ->
    now s1 = now s2 ->
    exists input output rest1 rest2 later1 later2,
      log (snd (CosmeticCorrection.applyCosmeticCorrection c1 h1 s1)) =
        later1 ++ EvCleanup [Some input; Some output] :: rest1 /\
      log (snd (CosmeticCorrection.applyCosmeticCorrection c2 h2 s2)) =
        later2 ++ EvCleanup [Some input; Some output] :: rest2.
Proof.
  intros c1 c2 h1 h2 s1 s2 Hd Hn.
  destruct (CosmeticCorrection.applyCosmeticCorrection c1 h1 s1) as [r1 s1'] eqn:H1.
  destruct (CosmeticCorrection.applyCosmeticCorrection c2 h2 s2) as [r2 s2'] eqn:H2.
  apply cc_cleanup in H1. apply cc_cleanup in H2. cbv zeta in H1, H2.
  destruct H1 as (rem1 & before1 & L1 & _).
  destruct H2 as (rem2 & before2 & L2 & _).
  rewrite <- Hd, <- Hn in L2. cbn [snd].
  eexists _, _, _, _,
    (rem1 ++ [EvConsole Info "Cleaning up temporary files..."]),
    (rem2 ++ [EvConsole Info "Cleaning up temporary files..."]).
  rewrite L1, L2, <- !app_assoc. split; reflexivity.
Qed.

(** Two jobs at 1000 ms whose random sources differ. *)
Lemma cosmetic_correction_paths_collide_witness :
  random start <> random start' /\
  exists input output rest1 rest2 later1 later2,
    log (snd (CosmeticCorrection.applyCosmeticCorrection
                CosmeticCorrection.CosmeticCorrectionData cc_host start)) =
      later1 ++ EvCleanup [Some input; Some output] :: rest1 /\
    log (snd (CosmeticCorrection.applyCosmeticCorrection
                CosmeticCorrection.CosmeticCorrectionData cc_host start')) =
      later2 ++ EvCleanup [Some input; Some output] :: rest2.
Proof.
  split; [discriminate |].
  apply cosmetic_correction_paths_collide; reflexivity.
Defined.


(** ** Validation before launch *)

(** C7 (the code departs from the claim).  A process icon that carries a
    threshold of 5, outside (0, 1], is dropped on a view: [main] imports it
    and runs the job at once; the tool is started with 5 on its command line
    and the job ends in success.  No validation stands between the imported
    settings and the launch. *)
Theorem batch_path_skips_validation :
  threshold_in_domain (JS.mkNum 5 0) = false /\
  let run := DeepCR.main icon_threshold_5 (deepcr_settings false false) []
               deepcr_th5 start in
  fst run = Ok (Some Success) /\
  In (EvSpawn
        "/bin/bash /scripts/run_deepcr.sh /tmp/bbdcr_1000_abcdefxyz.xisf /tmp 5 --preset optimal --format XISF"
        1000)
     (log (snd run)).
Proof.
  split; [reflexivity |]. cbv zeta.
  split; [vm_compute; reflexivity |]. vm_compute. tauto.
Qed.

(** ** Round trip of the parameters *)

(** C5.  For every set of settings, importing what [exportParameters] wrote
    gives back the value of every exported key, whatever the settings held
    before and whatever else the store holds; the fields that are not
    exported keep the value they had. *)
Theorem parameters_round_trip :
  (forall (c c0 : DeepCR.settings) (P : Parameters.t),
     DeepCR.importParameters (DeepCR.exportParameters c P) c0 =
       Ok (DeepCR.mkSettings (DeepCR.model c) (DeepCR.threshold c) (DeepCR.inpaint c0)
             (DeepCR.preset c) (DeepCR.saveMask c) (DeepCR.replaceActive c)
             (DeepCR.wrapperScript c0) (DeepCR.outputDir c0))) /\
  (forall (c c0 : LACosmic.settings) (P : Parameters.t),
     LACosmic.importParameters (LACosmic.exportParameters c P) c0 =
       Ok (LACosmic.mkSettings (LACosmic.sigclip c) (LACosmic.objlim c)
             (LACosmic.readnoise c) (LACosmic.gain c) (LACosmic.niter c)
             (LACosmic.cleantype c) (LACosmic.sigfrac c0) (LACosmic.sepmed c0)
             (LACosmic.fsmode c0) (LACosmic.psfmodel c0) (LACosmic.psffwhm c0)
             (LACosmic.psfsize c0) (LACosmic.psfbeta c0) (LACosmic.satlevel c0)
             (LACosmic.saveMask c) (LACosmic.replaceActive c)
             (LACosmic.wrapperScript c0) (LACosmic.outputDir c0))) /\
  (forall (c c0 : CosmeticCorrection.settings) (P : Parameters.t),
     CosmeticCorrection.importParameters
       (CosmeticCorrection.exportParameters c P) c0 = Ok c).
Proof.
  split; [| split].
  - exact deepcr_round_trip.
  - exact lacosmic_round_trip.
  - exact cc_round_trip.
Qed.
(* ------------------------------------------------------------------------- *)
(** * Further properties of the jobs *)
(* ------------------------------------------------------------------------- *)

(** ** Exceptions stay inside the job *)

(** Whatever the host answers, the three job functions return: every
    exception raised in the [try] block ends in the [catch] block, and the
    cleanup raises none of its own (it removes a file only after
    [File.exists]). *)
Theorem job_never_throws :
  (forall c h s, exists o, fst (DeepCR.executeDeepCR c h s) = Ok o) /\
  (forall c h s, exists o, fst (LACosmic.executeCosmicRayRemoval c h s) = Ok o) /\
  (forall c h s, exists o,
     fst (CosmeticCorrection.applyCosmeticCorrection c h s) = Ok o).
Proof.
  split; [| split]; intros c h s.
  - destruct (DeepCR.executeDeepCR c h s) as [r s'] eqn:H.
    apply deepcr_returns in H. exact H.
  - destruct (LACosmic.executeCosmicRayRemoval c h s) as [r s'] eqn:H.
    apply lacosmic_returns in H. exact H.
  - destruct (CosmeticCorrection.applyCosmeticCorrection c h s) as [r s'] eqn:H.
    apply cc_returns in H. exact H.
Qed.

(** ** Files of others *)

(** A job removes nothing but its own temporary files: a file that was on
    disk before the job and is none of the paths the job makes up (input,
    primary output, mask) is still there when the job has ended, on every
    path through the job. *)
Theorem other_files_survive :
  (forall c h s,
     let tempFile := deepcr_tempFile h (now s) (random s) in
     files_kept [tempFile; DeepCR.cleanedPath_of c tempFile;
                 DeepCR.maskPath_of c tempFile]
                s (snd (DeepCR.executeDeepCR c h s))) /\
  (forall c h s,
     let tempFile := lacosmic_tempFile h (now s) (random s) in
     files_kept [tempFile; LACosmic.outputPath_of c tempFile;
                 LACosmic.maskPath_of c tempFile]
                s (snd (LACosmic.executeCosmicRayRemoval c h s))) /\
  (forall c h s,
     files_kept [CosmeticCorrection.tempInputFile_of (systemTempDirectory h) (now s);
                 CosmeticCorrection.tempOutputFile_of (systemTempDirectory h) (now s)]
                s (snd (CosmeticCorrection.applyCosmeticCorrection c h s))).
Proof.
  split; [| split]; intros c h s; cbv zeta; intros q Hq Hn; cbn [In] in Hn.
  - destruct (DeepCR.executeDeepCR c h s) as [r s'] eqn:H.
    apply deepcr_effects in H. destruct H as (H & _).
    apply H; [exact Hq | | |]; intros ->; apply Hn; auto.
  - destruct (LACosmic.executeCosmicRayRemoval c h s) as [r s'] eqn:H.
    apply lacosmic_effects in H. destruct H as (H & _).
    apply H; [exact Hq | | |]; intros ->; apply Hn; auto.
  - destruct (CosmeticCorrection.applyCosmeticCorrection c h s) as [r s'] eqn:H.
    apply cc_effects in H. destruct H as (H & _).
    apply H; [exact Hq | |]; intros ->; apply Hn; auto.
Qed.

(** The wrapper script of a DeepCR job that fails on its exit code is still
    on disk. *)
Lemma other_files_survive_witness :
  In "/scripts/run_deepcr.sh"
     (files (snd (DeepCR.executeDeepCR (deepcr_settings true true) deepcr_exit1 start))).
Proof.
  apply (proj1 other_files_survive (deepcr_settings true true) deepcr_exit1 start).
  - vm_compute. left. reflexivity.
  - vm_compute. intros [H | [H | [H | H]]]; try discriminate H; exact H.
Defined.

(** ** What a success shows *)

(** When a job ends in success, the image it shows is the one the host
    decoded from the primary output path of this job: in replace mode it is
    the image of the target view, otherwise the target keeps its image and
    a new window named after the active one holds it.  CosmeticCorrection
    always replaces, and the window it opened the output in is closed
    again. *)
Theorem success_shows_decoded_result :
  (forall c h s,
     let run := DeepCR.executeDeepCR c h s in
     let primary := DeepCR.cleanedPath_of c (deepcr_tempFile h (now s) (random s)) in
     fst run = Ok Success ->
     exists name img,
       activeWindow h = Some name /\ decode h primary = Some img /\
       if DeepCR.replaceActive c then target (snd run) = img
       else target (snd run) = target s /\
            In ((name ++ "_DeepCR")%string, img) (windows (snd run))) /\
  (forall c h s,
     let run := LACosmic.executeCosmicRayRemoval c h s in
     let primary := LACosmic.outputPath_of c (lacosmic_tempFile h (now s) (random s)) in
     fst run = Ok Success ->
     exists name img,
       activeWindow h = Some name /\ decode h primary = Some img /\
       if LACosmic.replaceActive c then target (snd run) = img
       else target (snd run) = target s /\
            In ((name ++ "_LACosmic")%string, img) (windows (snd run))) /\
  (forall c h s,
     let run := CosmeticCorrection.applyCosmeticCorrection c h s in
     let primary := CosmeticCorrection.tempOutputFile_of (systemTempDirectory h) (now s) in
     fst run = Ok Success ->
     exists img,
       decode h primary = Some img /\ target (snd run) = img /\
       forall w, In w (windows (snd run)) -> fst w <> primary).
Proof.
  split; [| split]; intros c h s; cbv zeta.
  - destruct (DeepCR.executeDeepCR c h s) as [r s'] eqn:H.
    apply deepcr_effects in H. destruct H as (_ & H & _). exact H.
  - destruct (LACosmic.executeCosmicRayRemoval c h s) as [r s'] eqn:H.
    apply lacosmic_effects in H. destruct H as (_ & H & _). exact H.
  - destruct (CosmeticCorrection.applyCosmeticCorrection c h s) as [r s'] eqn:H.
    apply cc_effects in H. destruct H as (_ & _ & H & _). exact H.
Qed.

(** The DeepCR job of [deepcr_no_mask] in replace mode: the target ends up
    holding the image stored at the primary output path. *)
Lemma success_shows_decoded_result_witness :
  let run := DeepCR.executeDeepCR (deepcr_settings false true) deepcr_no_mask start in
  fst run = Ok Success /\ target (snd run) = cleaned.
Proof.
  cbv zeta.
  assert (Hs : fst (DeepCR.executeDeepCR (deepcr_settings false true) deepcr_no_mask start)
               = Ok Success) by (vm_compute; reflexivity).
  split; [exact Hs |].
  destruct (proj1 success_shows_decoded_result (deepcr_settings false true)
              deepcr_no_mask start Hs) as (name & img & _ & Hd & Ht).
  cbn [DeepCR.replaceActive deepcr_settings] in Ht. rewrite Ht.
  vm_compute in Hd. injection Hd as <-. reflexivity.
Defined.

(** ** The target image after a failure *)

(** CosmeticCorrection applies its result in the last step that can fail:
    whenever its job ends in a failure the target image is as before.  The
    same holds for DeepCR and L.A.Cosmic as long as no mask is requested
    (with a mask, the mask is loaded after the target was replaced). *)
Theorem failure_keeps_target_without_mask :
  (forall c h s e,
     let run := CosmeticCorrection.applyCosmeticCorrection c h s in
     fst run = Ok (Failure e) -> target (snd run) = target s) /\
  (forall c h s e,
     let run := DeepCR.executeDeepCR c h s in
     DeepCR.saveMask c = false ->
     fst run = Ok (Failure e) -> target (snd run) = target s) /\
  (forall c h s e,
     let run := LACosmic.executeCosmicRayRemoval c h s in
     LACosmic.saveMask c = false ->
     fst run = Ok (Failure e) -> target (snd run) = target s).
Proof.
  split; [| split]; intros c h s e; cbv zeta.
  - destruct (CosmeticCorrection.applyCosmeticCorrection c h s) as [r s'] eqn:H.
    apply cc_effects in H. destruct H as (_ & H & _). apply H.
  - destruct (DeepCR.executeDeepCR c h s) as [r s'] eqn:H.
    apply deepcr_effects in H. destruct H as (_ & _ & H & _).
    intros Hm. apply H. exact Hm.
  - destruct (LACosmic.executeCosmicRayRemoval c h s) as [r s'] eqn:H.
    apply lacosmic_effects in H. destruct H as (_ & _ & H & _).
    intros Hm. apply H. exact Hm.
Qed.

(** A CosmeticCorrection job in which the host fails to assign, and a
    DeepCR job without mask whose result cannot be decoded. *)
Lemma failure_keeps_target_without_mask_witness :
  (let run := CosmeticCorrection.applyCosmeticCorrection
                CosmeticCorrection.CosmeticCorrectionData cc_assign_fails start in
   fst run = Ok (Failure (HostException "Image.assign")) /\ target (snd run) = raw) /\
  (let run := DeepCR.executeDeepCR (deepcr_settings false true) deepcr_bad_result start in
   fst run = Ok (Failure (CannotRead "Cannot read image: " deepcr_cleaned)) /\
   target (snd run) = raw).
Proof.
  split; cbv zeta.
  - assert (Hf : fst (CosmeticCorrection.applyCosmeticCorrection
                        CosmeticCorrection.CosmeticCorrectionData cc_assign_fails start)
                 = Ok (Failure (HostException "Image.assign")))
      by (vm_compute; reflexivity).
    split; [exact Hf |].
    exact (proj1 failure_keeps_target_without_mask
             CosmeticCorrection.CosmeticCorrectionData cc_assign_fails start _ Hf).
  - assert (Hf : fst (DeepCR.executeDeepCR (deepcr_settings false true)
                        deepcr_bad_result start)
                 = Ok (Failure (CannotRead "Cannot read image: " deepcr_cleaned)))
      by (vm_compute; reflexivity).
    split; [exact Hf |].
    exact (proj1 (proj2 failure_keeps_target_without_mask) (deepcr_settings false true)
             deepcr_bad_result start _ eq_refl Hf).
Defined.

(** ** New-window mode *)

(** With [replaceActive] off, a DeepCR or L.A.Cosmic job never touches the
    target view, however it ends: no [beginProcess], [assign] or
    [endProcess] on it, and its image is as before. *)
Theorem new_window_mode_keeps_target :
  (forall c h s,
     let run := DeepCR.executeDeepCR c h s in
     DeepCR.replaceActive c = false ->
     target (snd run) = target s /\
     filter is_target_event (log (snd run)) = filter is_target_event (log s)) /\
  (forall c h s,
     let run := LACosmic.executeCosmicRayRemoval c h s in
     LACosmic.replaceActive c = false ->
     target (snd run) = target s /\
     filter is_target_event (log (snd run)) = filter is_target_event (log s)).
Proof.
  split; intros c h s; cbv zeta; intros Hr.
  - destruct (DeepCR.executeDeepCR c h s) as [r s'] eqn:H.
    apply deepcr_bracket in H. cbn [fst snd].
    destruct H as [(H1 & H2) | [(H1 & _) | (H1 & _)]]; [split; assumption | |];
      rewrite Hr in H1; discriminate H1.
  - destruct (LACosmic.executeCosmicRayRemoval c h s) as [r s'] eqn:H.
    apply lacosmic_bracket in H. cbn [fst snd].
    destruct H as [(H1 & H2) | [(H1 & _) | (H1 & _)]]; [split; assumption | |];
      rewrite Hr in H1; discriminate H1.
Qed.

(** The DeepCR job of [deepcr_no_mask] into a new window. *)
Lemma new_window_mode_keeps_target_witness :
  let run := DeepCR.executeDeepCR (deepcr_settings true false) deepcr_no_mask start in
  fst run = Ok Success /\ target (snd run) = raw.
Proof.
  cbv zeta. split; [vm_compute; reflexivity |].
  exact (proj1 (proj1 new_window_mode_keeps_target (deepcr_settings true false)
                  deepcr_no_mask start eq_refl)).
Defined.

(** ** Starting the tool *)

(** A DeepCR or L.A.Cosmic job starts the external tool exactly when the
    wrapper script is on disk, a window is active and the export of the
    image succeeds; then it starts it once, with the command line that
    [buildCommandArray] makes for the exported file.  Otherwise nothing is
    started and the job ends in a launch or export failure. *)
Theorem tool_started_iff_preconditions :
  (forall c h s,
     let run := DeepCR.executeDeepCR c h s in
     let tempFile := deepcr_tempFile h (now s) (random s) in
     (deepcr_launches c h s /\
      filter is_spawn (log (snd run)) =
        EvSpawn (JS.join " " (DeepCR.buildCommandArray c tempFile)) (now s)
        :: filter is_spawn (log s)) \/
     (~ deepcr_launches c h s /\
      filter is_spawn (log (snd run)) = filter is_spawn (log s) /\
      exists e, fst run = Ok (Failure e) /\
                (kind_of e = LaunchError \/ kind_of e = ExportError))) /\
  (forall c h s,
     let run := LACosmic.executeCosmicRayRemoval c h s in
     let tempFile := lacosmic_tempFile h (now s) (random s) in
     (lacosmic_launches c h s /\
      filter is_spawn (log (snd run)) =
        EvSpawn (JS.join " " (LACosmic.buildCommandArray c tempFile)) (now s)
        :: filter is_spawn (log s)) \/
     (~ lacosmic_launches c h s /\
      filter is_spawn (log (snd run)) = filter is_spawn (log s) /\
      exists e, fst run = Ok (Failure e) /\
                (kind_of e = LaunchError \/ kind_of e = ExportError))).
Proof.
  split; intros c h s; cbv zeta.
  - destruct (DeepCR.executeDeepCR c h s) as [r s'] eqn:H.
    apply deepcr_spawn in H. exact H.
  - destruct (LACosmic.executeCosmicRayRemoval c h s) as [r s'] eqn:H.
    apply lacosmic_spawn in H. exact H.
Qed.

(** ** A tool that leaves no result *)

(** When the tool was started, ended in time with exit code 0 and the file
    the job expects is not on disk, the job ends in the failure that names
    this path; nothing is opened, read or applied to any image. *)
Theorem missing_output_reported :
  (forall c h s,
     let run := DeepCR.executeDeepCR c h s in
     let tempFile := deepcr_tempFile h (now s) (random s) in
     let primary := DeepCR.cleanedPath_of c tempFile in
     deepcr_launches c h s ->
     ends_in_time h DeepCR.TIMEOUT_MS ->
     proc_exitCode h = 0 ->
     mem primary (files_after_tool h tempFile (files s)) = false ->
     fst run = Ok (Failure (OutputNotFound "Cleaned image not found at: " primary)) /\
     filter is_load (log (snd run)) = filter is_load (log s) /\
     filter is_apply (log (snd run)) = filter is_apply (log s) /\
     target (snd run) = target s /\ windows (snd run) = windows s) /\
  (forall c h s,
     let run := LACosmic.executeCosmicRayRemoval c h s in
     let tempFile := lacosmic_tempFile h (now s) (random s) in
     let primary := LACosmic.outputPath_of c tempFile in
     lacosmic_launches c h s ->
     ends_in_time h LACosmic.TIMEOUT_MS ->
     proc_exitCode h = 0 ->
     mem primary (files_after_tool h tempFile (files s)) = false ->
     fst run = Ok (Failure (OutputNotFound "Output file not found: " primary)) /\
     filter is_load (log (snd run)) = filter is_load (log s) /\
     filter is_apply (log (snd run)) = filter is_apply (log s) /\
     target (snd run) = target s /\ windows (snd run) = windows s).
Proof.
  split; intros c h s; cbv zeta; intros (Hw & Ha & Hs) Ht Hx Hm.
  - destruct (DeepCR.executeDeepCR c h s) as [r s'] eqn:H.
    eapply deepcr_missing_output in H; eassumption.
  - destruct (LACosmic.executeCosmicRayRemoval c h s) as [r s'] eqn:H.
    eapply lacosmic_missing_output in H; eassumption.
Qed.

(** The jobs of [deepcr_silent] and [lacosmic_silent]: the tool ends after
    8 s with exit code 0 and writes nothing. *)
Lemma missing_output_reported_witness :
  (let run := DeepCR.executeDeepCR (deepcr_settings true true) deepcr_silent start in
   fst run = Ok (Failure (OutputNotFound "Cleaned image not found at: " deepcr_cleaned)) /\
   target (snd run) = raw) /\
  (let run := LACosmic.executeCosmicRayRemoval (lacosmic_settings true true)
                lacosmic_silent start in
   fst run = Ok (Failure (OutputNotFound "Output file not found: " lacosmic_output)) /\
   target (snd run) = raw).
Proof.
  assert (Ht : exists d, Some 8000 = Some d /\ d + Z.of_nat 0 <= 600000).
  { exists 8000. split; [reflexivity | vm_compute; discriminate]. }
  split; cbv zeta.
  - destruct (proj1 missing_output_reported (deepcr_settings true true) deepcr_silent start)
      as (H1 & _ & _ & H4 & _).
    + repeat split; try reflexivity. discriminate.
    + exact Ht.
    + reflexivity.
    + vm_compute. reflexivity.
    + split; [exact H1 | exact H4].
  - destruct (proj2 missing_output_reported (lacosmic_settings true true) lacosmic_silent
                start) as (H1 & _ & _ & H4 & _).
    + repeat split; try reflexivity. discriminate.
    + exact Ht.
    + reflexivity.
    + vm_compute. reflexivity.
    + split; [exact H1 | exact H4].
Defined.

(** ** Waiting for the tool *)

(** A child process that ends within the budget is never killed: the wait
    loop returns normally, writes nothing to the log and leaves the clock
    no earlier than the end of the child and at most one poll past the
    budget. *)
Theorem finished_child_not_killed :
  forall h p timeoutMillis hint s,
    0 <= timeoutMillis ->
    launched p = now s ->
    ends_in_time h timeoutMillis ->
    let run := waitLoop h p (now s) timeoutMillis hint (loop_rounds timeoutMillis) s in
    fst run = Ok tt /\
    log (snd run) = log s /\ files (snd run) = files s /\
    (exists d, proc_duration h = Some d /\ now s + d <= now (snd run)) /\
    now (snd run) <= now s + timeoutMillis + POLL_MS.
Proof.
  intros h p T hint s HT Hl (d & Hd & Hle). cbv zeta.
  destruct (waitLoop h p (now s) T hint (loop_rounds T) s) as [r s'] eqn:H.
  apply waitLoop_run in H; [| exact HT | reflexivity].
  destruct H as (t & Ht & [(-> & -> & Hb & d' & Hd' & He) | (-> & -> & Hb & Hrun)]).
  - cbn [fst snd]. destruct s; cbn in *.
    repeat split; try reflexivity; try lia.
    exists d'. split; [exact Hd' | lia].
  - exfalso. specialize (Hrun d Hd). lia.
Qed.

(** A child that ends 8 s after a launch at 1000 ms. *)
Lemma finished_child_not_killed_witness :
  let run := waitLoop deepcr_exit1 (mkProcess 1000) 1000 600000 "" (loop_rounds 600000)
               start in
  fst run = Ok tt /\ log (snd run) = [] /\ now (snd run) <= 601100.
Proof.
  cbv zeta.
  destruct (finished_child_not_killed deepcr_exit1 (mkProcess 1000) 600000 "" start)
    as (H1 & H2 & _ & _ & H5).
  - vm_compute. discriminate.
  - reflexivity.
  - exists 8000. split; [reflexivity | vm_compute; discriminate].
  - split; [exact H1 |]. split; [exact H2 | exact H5].
Defined.

(** A DeepCR or L.A.Cosmic job waits for at most the budget and one round
    of the loop: the clock never goes back, and at the end of the job it
    is at most [TIMEOUT_MS + POLL_MS] and one [processEvents()] past the
    start, whatever the child does. *)
Theorem job_time_bounded :
  (forall c h s,
     let run := DeepCR.executeDeepCR c h s in
     now s <= now (snd run) <=
       now s + DeepCR.TIMEOUT_MS + POLL_MS + Z.of_nat (events_cost h)) /\
  (forall c h s,
     let run := LACosmic.executeCosmicRayRemoval c h s in
     now s <= now (snd run) <=
       now s + LACosmic.TIMEOUT_MS + POLL_MS + Z.of_nat (events_cost h)).
Proof.
  split; intros c h s; cbv zeta.
  - destruct (DeepCR.executeDeepCR c h s) as [r s'] eqn:H.
    apply deepcr_effects in H. destruct H as (_ & _ & _ & _ & H). exact H.
  - destruct (LACosmic.executeCosmicRayRemoval c h s) as [r s'] eqn:H.
    apply lacosmic_effects in H. destruct H as (_ & _ & _ & H). exact H.
Qed.

(** ** Formats of the files a DeepCR job loads *)

(** [loadImage] accepts a path whose suffix is [.xisf], [.fits] or [.fit]
    in any mix of upper and lower case, whatever comes before the suffix.
    The two paths a DeepCR job loads end in [.xisf] by construction, so the
    job never ends in the error of an unsupported format. *)
Theorem deepcr_paths_always_supported :
  (forall stem suffix,
     In (JS.toLowerCase suffix) [".xisf"; ".fits"; ".fit"] ->
     supported (stem ++ suffix) = true) /\
  (forall c tempFile,
     supported (DeepCR.cleanedPath_of c tempFile) = true /\
     supported (DeepCR.maskPath_of c tempFile) = true) /\
  (forall c h s path,
     fst (DeepCR.executeDeepCR c h s) <> Ok (Failure (UnsupportedFormat path))).
Proof.
  split; [| split].
  - intros stem suffix Hin. apply supported_append.
    unfold supported. cbn [In] in Hin.
    destruct Hin as [E | [E | [E | []]]]; rewrite <- E; reflexivity.
  - intros c tempFile. split; [apply cleanedPath_supported | apply maskPath_supported].
  - intros c h s path.
    destruct (DeepCR.executeDeepCR c h s) as [r s'] eqn:H.
    apply deepcr_effects in H. destruct H as (_ & _ & _ & H & _). apply H.
Qed.

(** A result named in upper case. *)
Lemma deepcr_paths_always_supported_witness :
  supported "/tmp/RESULT.FITS" = true.
Proof.
  apply (proj1 deepcr_paths_always_supported "/tmp/RESULT" ".FITS").
  vm_compute. right. left. reflexivity.
Defined.
(* ------------------------------------------------------------------------- *)
(** * The dialogs *)
(* ------------------------------------------------------------------------- *)

Section Dialogs.

Lemma only_dialogs_refl (s : state) : only_dialogs s s.
Proof.
  exists []. split; [| constructor]. destruct s; reflexivity.
Qed.

Lemma only_dialogs_box (i : icon) (text : string) (s s1 : state) :
  only_dialogs (set_log (EvMessageBox i text :: log s) s) s1 -> only_dialogs s s1.
Proof.
  intros (boxes & -> & Hb). exists (boxes ++ [EvMessageBox i text]). split.
  - destruct s; cbn. rewrite <- app_assoc. reflexivity.
  - apply Forall_app. split; [assumption | repeat constructor].
Qed.

Lemma MessageBox_run (i : icon) (text : string) (s : state) :
  MessageBox_execute i text s = (Ok tt, set_log (EvMessageBox i text :: log s) s).
Proof. reflexivity. Qed.

(** The handlers of the DeepCR dialog keep the threshold in its domain and
    leave the two paths alone. *)
Lemma presetCombo_keeps (index : nat) (c : DeepCR.settings) :
  threshold_in_domain (DeepCR.threshold c) = true ->
  threshold_in_domain (DeepCR.threshold (DeepCR.presetCombo_onItemSelected index c)) = true /\
  DeepCR.wrapperScript (DeepCR.presetCombo_onItemSelected index c) = DeepCR.wrapperScript c /\
  DeepCR.outputDir (DeepCR.presetCombo_onItemSelected index c) = DeepCR.outputDir c.
Proof.
  intros H. unfold DeepCR.presetCombo_onItemSelected.
  destruct index as [| [| [| [| [| [| index]]]]]]; cbn; auto.
Qed.

Lemma thresholdEdit_keeps (parsed : option JS.number) (c : DeepCR.settings)
      (d : DeepCR.dialog) :
  threshold_in_domain (DeepCR.threshold c) = true ->
  let c' := fst (DeepCR.thresholdEdit_onTextUpdated parsed c d) in
  threshold_in_domain (DeepCR.threshold c') = true /\
  DeepCR.wrapperScript c' = DeepCR.wrapperScript c /\
  DeepCR.outputDir c' = DeepCR.outputDir c.
Proof.
  intros H. unfold DeepCR.thresholdEdit_onTextUpdated.
  destruct parsed as [value |]; cbn; auto.
  destruct (JS.num_leb value (JS.ofZ 0) || JS.num_gtb value (JS.ofZ 1)) eqn:E; cbn; auto.
  unfold threshold_in_domain. rewrite E. auto.
Qed.

Lemma deepcr_dialog_inv : forall actions c d h s,
  threshold_in_domain (DeepCR.threshold c) = true ->
  deepcr_runs_checked c h s (DeepCR.dialog_execute actions c d h s).
Proof.
  unfold deepcr_runs_checked.
  induction actions as [| a rest IH]; intros c d h s Hc.
  - left. split; [reflexivity | apply only_dialogs_refl].
  - destruct a as [i | i | parsed | b | b | |]; cbn [DeepCR.dialog_execute].
    + destruct (presetCombo_keeps i c Hc) as (H1 & H2 & H3).
      destruct (IH (DeepCR.presetCombo_onItemSelected i c) d h s H1)
        as [H | (c' & s1 & o & Ha & Hb & Hw & Ho & He)]; [left; exact H |].
      right. exists c', s1, o. rewrite <- H2, <- H3. auto 10.
    + destruct (IH (DeepCR.modelCombo_onItemSelected i c) d h s Hc)
        as [H | (c' & s1 & o & Ha & Hb & Hw & Ho & He)]; [left; exact H |].
      right. exists c', s1, o. auto 10.
    + destruct (thresholdEdit_keeps parsed c d Hc) as (H1 & H2 & H3).
      destruct (DeepCR.thresholdEdit_onTextUpdated parsed c d) as [c1 d1].
      cbn [fst] in H1, H2, H3.
      destruct (IH c1 d1 h s H1)
        as [H | (c' & s1 & o & Ha & Hb & Hw & Ho & He)]; [left; exact H |].
      right. exists c', s1, o. rewrite <- H2, <- H3. auto 10.
    + destruct (IH (DeepCR.set_saveMask b c) d h s Hc)
        as [H | (c' & s1 & o & Ha & Hb & Hw & Ho & He)]; [left; exact H |].
      right. exists c', s1, o. auto 10.
    + destruct (IH (DeepCR.set_replaceActive b c) d h s Hc)
        as [H | (c' & s1 & o & Ha & Hb & Hw & Ho & He)]; [left; exact H |].
      right. exists c', s1, o. auto 10.
    + destruct (DeepCR.validationState_threshold d); cbn [negb].
      * right. unfold bind.
        destruct (DeepCR.executeDeepCR c h s) as [r s'] eqn:E.
        destruct (deepcr_returns _ _ _ _ _ E) as (o & ->).
        exists c, s, o. cbn [fst snd ret].
        repeat split; auto using only_dialogs_refl.
      * unfold bind at 1. rewrite MessageBox_run.
        destruct (IH c d h
                    (set_log (EvMessageBox StdIcon_Warning DeepCR.invalid_parameter_text
                              :: log s) s) Hc)
          as [(H1 & H2) | (c' & s1 & o & Ha & Hb & Hw & Ho & He)].
        -- left. split; [exact H1 | eapply only_dialogs_box; exact H2].
        -- right. exists c', s1, o.
           split; [eapply only_dialogs_box; exact Ha | auto 10].
    + left. split; [reflexivity | apply only_dialogs_refl].
Qed.

End Dialogs.

(** ** The DeepCR dialog *)

(** Started with a threshold inside (0, 1], the dialog never runs a job
    with a threshold outside: whatever the user does (presets, model,
    typing, check boxes, Execute, Cancel), the dialog either ends without
    a job, having shown dialogs only, or it runs exactly one job, whose
    threshold lies in the domain and whose wrapper script and output
    directory are the ones the dialog started with.  This holds for [main]
    started without a process icon, with the default settings. *)
Theorem deepcr_dialog_threshold_in_domain :
  (forall actions c d h s,
     threshold_in_domain (DeepCR.threshold c) = true ->
     deepcr_runs_checked c h s (DeepCR.dialog_execute actions c d h s)) /\
  (forall P scriptDir actions h s,
     Parameters.isGlobalTarget P = false ->
     Parameters.isViewTarget P = false ->
     deepcr_runs_checked (DeepCR.BBDeepCR scriptDir h) h s
       (DeepCR.main P (DeepCR.BBDeepCR scriptDir h) actions h s)).
Proof.
  split.
  - intros actions c d h s Hc. apply deepcr_dialog_inv. exact Hc.
  - intros P scriptDir actions h s Hg Hv.
    unfold DeepCR.main. rewrite Hg, Hv. cbn [orb]. unfold bind at 1. cbn [ret].
    destruct (activeWindow h) as [name |].
    + apply deepcr_dialog_inv. reflexivity.
    + left. unfold bind. rewrite MessageBox_run. cbn [fst snd ret]. split; [reflexivity |].
      eapply only_dialogs_box. apply only_dialogs_refl.
Qed.

(** The user types 5 and clicks Execute: the click is refused with the
    warning and no job runs. *)
Lemma deepcr_dialog_threshold_in_domain_witness :
  let run := DeepCR.dialog_execute [DeepCR.TypeThreshold (Some (JS.mkNum 5 0));
                                    DeepCR.ClickExecute]
               (deepcr_settings false false) (DeepCR.mkDialog true) deepcr_th5 start in
  fst run = Ok None /\
  log (snd run) = [EvMessageBox StdIcon_Warning DeepCR.invalid_parameter_text] /\
  deepcr_runs_checked (deepcr_settings false false) deepcr_th5 start run.
Proof.
  cbv zeta. split; [reflexivity |]. split; [reflexivity |].
  apply (proj1 deepcr_dialog_threshold_in_domain
           [DeepCR.TypeThreshold (Some (JS.mkNum 5 0)); DeepCR.ClickExecute]
           (deepcr_settings false false) (DeepCR.mkDialog true) deepcr_th5 start).
  reflexivity.
Defined.

Section LACosmicDialog.

(** A text handler stores a value only when it lies in the range of its
    field. *)
Lemma onTextUpdated_cases (parsed : option JS.number) (lo hi : JS.number)
      (store : JS.number -> LACosmic.settings -> LACosmic.settings)
      (flag : bool -> LACosmic.dialog -> LACosmic.dialog)
      (c : LACosmic.settings) (d : LACosmic.dialog) :
  (exists d', LACosmic.onTextUpdated parsed lo hi store flag c d = (c, d')) \/
  (exists value d',
     within lo hi value = true /\
     LACosmic.onTextUpdated parsed lo hi store flag c d = (store value c, d')).
Proof.
  unfold LACosmic.onTextUpdated. destruct parsed as [value |].
  - destruct (LACosmic.out_of_range (Some value) lo hi) eqn:E.
    + left. eexists. reflexivity.
    + right. exists value. eexists. split; [| reflexivity].
      unfold within. cbn in E. rewrite E. reflexivity.
  - left. eexists. reflexivity.
Qed.

Lemma lacosmic_runs_checked_from (c c1 : LACosmic.settings) (h : host) (s : state)
      (run : result (option outcome) * state) :
  LACosmic.wrapperScript c1 = LACosmic.wrapperScript c ->
  LACosmic.outputDir c1 = LACosmic.outputDir c ->
  lacosmic_runs_checked c1 h s run -> lacosmic_runs_checked c h s run.
Proof.
  intros Hw Ho [H | (c' & s1 & o & Ha & Hb & Hw' & Ho' & He)]; [left; exact H |].
  right. exists c', s1, o. rewrite <- Hw, <- Ho. auto 10.
Qed.

Lemma lacosmic_dialog_inv : forall actions c d h s,
  lacosmic_in_range c = true ->
  lacosmic_runs_checked c h s (LACosmic.dialog_execute actions c d h s).
Proof.
  induction actions as [| a rest IH]; intros c d h s Hc.
  - left. split; [reflexivity | apply only_dialogs_refl].
  - pose proof Hc as Hc'. unfold lacosmic_in_range in Hc'.
    apply andb_true_iff in Hc'. destruct Hc' as [Hc' H4].
    apply andb_true_iff in Hc'. destruct Hc' as [Hc' H3].
    apply andb_true_iff in Hc'. destruct Hc' as [H1 H2].
    destruct a as [v | v | v | v | v | b | b | |]; cbn [LACosmic.dialog_execute].
    + destruct (onTextUpdated_cases v (JS.mkNum 1 1) (JS.ofZ 10) LACosmic.set_sigclip
                  LACosmic.flag_sigclip c d) as [(d' & ->) | (x & d' & Hx & ->)].
      * apply IH. exact Hc.
      * eapply lacosmic_runs_checked_from; [| | apply IH]; try reflexivity.
        unfold lacosmic_in_range. cbn. rewrite Hx, H2, H3, H4. reflexivity.
    + destruct (onTextUpdated_cases v (JS.mkNum 1 1) (JS.ofZ 10) LACosmic.set_objlim
                  LACosmic.flag_objlim c d) as [(d' & ->) | (x & d' & Hx & ->)].
      * apply IH. exact Hc.
      * eapply lacosmic_runs_checked_from; [| | apply IH]; try reflexivity.
        unfold lacosmic_in_range. cbn. rewrite Hx, H1, H3, H4. reflexivity.
    + destruct (onTextUpdated_cases v (JS.mkNum 1 1) (JS.ofZ 100) LACosmic.set_readnoise
                  LACosmic.flag_readnoise c d) as [(d' & ->) | (x & d' & Hx & ->)].
      * apply IH. exact Hc.
      * eapply lacosmic_runs_checked_from; [| | apply IH]; try reflexivity.
        unfold lacosmic_in_range. cbn. rewrite Hx, H1, H2, H4. reflexivity.
    + destruct (onTextUpdated_cases v (JS.mkNum 1 1) (JS.ofZ 10) LACosmic.set_gain
                  LACosmic.flag_gain c d) as [(d' & ->) | (x & d' & Hx & ->)].
      * apply IH. exact Hc.
      * eapply lacosmic_runs_checked_from; [| | apply IH]; try reflexivity.
        unfold lacosmic_in_range. cbn. rewrite Hx, H1, H2, H3. reflexivity.
    + eapply lacosmic_runs_checked_from; [| | apply IH]; try reflexivity. exact Hc.
    + eapply lacosmic_runs_checked_from; [| | apply IH]; try reflexivity. exact Hc.
    + eapply lacosmic_runs_checked_from; [| | apply IH]; try reflexivity. exact Hc.
    + destruct (LACosmic.all_valid d); cbn [negb].
      * right. unfold bind.
        destruct (LACosmic.executeCosmicRayRemoval c h s) as [r s'] eqn:E.
        destruct (lacosmic_returns _ _ _ _ _ E) as (o & ->).
        exists c, s, o. cbn [fst snd ret].
        repeat split; auto using only_dialogs_refl.
      * unfold bind at 1. rewrite MessageBox_run.
        destruct (IH c d h
                    (set_log (EvMessageBox StdIcon_Warning
                                "Invalid parameter values detected" :: log s) s) Hc)
          as [(Ha & Hb) | (c' & s1 & o & Ha & Hb)].
        -- left. split; [exact Ha | eapply only_dialogs_box; exact Hb].
        -- right. exists c', s1, o.
           split; [eapply only_dialogs_box; exact Ha | exact Hb].
    + left. split; [reflexivity | apply only_dialogs_refl].
Qed.

End LACosmicDialog.

(** ** The L.A.Cosmic dialog *)

(** Started with the four checked parameters inside their ranges (sigma
    clipping, object limit and gain in 0.1 to 10, read noise in 0.1 to
    100), the dialog never runs a job with one of them outside: it ends
    without a job, having shown dialogs only, or runs one job on settings
    that are in range, with the wrapper script and the output directory it
    started with.  The default settings are in range, so this holds for
    [main] started without a process icon. *)
Theorem lacosmic_dialog_values_in_range :
  (forall actions c d h s,
     lacosmic_in_range c = true ->
     lacosmic_runs_checked c h s (LACosmic.dialog_execute actions c d h s)) /\
  (forall P scriptDir actions h s,
     Parameters.isGlobalTarget P = false ->
     Parameters.isViewTarget P = false ->
     lacosmic_runs_checked (LACosmic.BBLACosmic scriptDir h) h s
       (LACosmic.main P (LACosmic.BBLACosmic scriptDir h) actions h s)).
Proof.
  split.
  - intros actions c d h s Hc. apply lacosmic_dialog_inv. exact Hc.
  - intros P scriptDir actions h s Hg Hv.
    unfold LACosmic.main. rewrite Hg, Hv. cbn [orb]. unfold bind at 1. cbn [ret].
    destruct (activeWindow h) as [name |].
    + apply lacosmic_dialog_inv. reflexivity.
    + left. unfold bind. rewrite MessageBox_run. cbn [fst snd ret]. split; [reflexivity |].
      eapply only_dialogs_box. apply only_dialogs_refl.
Qed.

(** The user types a read noise of 250 and clicks Clean: the click is
    refused with the warning and no job runs. *)
Lemma lacosmic_dialog_values_in_range_witness :
  let run := LACosmic.dialog_execute [LACosmic.TypeReadnoise (Some (JS.mkNum 250 0));
                                      LACosmic.ClickClean]
               (lacosmic_settings false false) (LACosmic.mkDialog true true true true)
               lacosmic_no_mask start in
  fst run = Ok None /\
  log (snd run) = [EvMessageBox StdIcon_Warning "Invalid parameter values detected"] /\
  lacosmic_runs_checked (lacosmic_settings false false) lacosmic_no_mask start run.
Proof.
  cbv zeta. split; [reflexivity |]. split; [reflexivity |].
  apply (proj1 lacosmic_dialog_values_in_range
           [LACosmic.TypeReadnoise (Some (JS.mkNum 250 0)); LACosmic.ClickClean]
           (lacosmic_settings false false) (LACosmic.mkDialog true true true true)
           lacosmic_no_mask start).
  reflexivity.
Defined.

Section CosmeticCorrectionDialog.
Import CosmeticCorrection.

Lemma ok_Button_onClick_spec (c : settings) (h : host) (is_cc : string -> bool)
      (s : state) :
  exists b s1,
    ok_Button_onClick c h is_cc s = (Ok b, s1) /\
    only_dialogs s s1 /\
    (b = true -> activeWindow h <> None /\ icon_checked c h is_cc).
Proof.
  unfold ok_Button_onClick, icon_checked.
  destruct (activeWindow h) as [name |] eqn:Ea.
  - destruct (useProcessIcon c) eqn:Eu.
    + destruct (String.eqb (processIconId c) "") eqn:Ei.
      * unfold bind. rewrite MessageBox_run. eexists _, _. split; [reflexivity |].
        split; [eapply only_dialogs_box; apply only_dialogs_refl | discriminate].
      * destruct (icon_exists h (processIconId c)) eqn:Ex; cbn [negb].
        -- destruct (is_cc (processIconId c)) eqn:Ec; cbn [negb].
           ++ eexists _, _. split; [reflexivity |].
              split; [apply only_dialogs_refl |]. intros _.
              split; [discriminate |]. intros _.
              split; [| split; reflexivity].
              intros Hid. rewrite Hid in Ei. discriminate Ei.
           ++ unfold bind. rewrite MessageBox_run. eexists _, _. split; [reflexivity |].
              split; [eapply only_dialogs_box; apply only_dialogs_refl | discriminate].
        -- unfold bind. rewrite MessageBox_run. eexists _, _. split; [reflexivity |].
           split; [eapply only_dialogs_box; apply only_dialogs_refl | discriminate].
    + eexists _, _. split; [reflexivity |].
      split; [apply only_dialogs_refl |]. intros _.
      split; [discriminate |]. intros H. discriminate H.
  - unfold bind. rewrite MessageBox_run. eexists _, _. split; [reflexivity |].
    split; [eapply only_dialogs_box; apply only_dialogs_refl | discriminate].
Qed.

Lemma only_dialogs_trans (s s1 s2 : state) :
  only_dialogs s s1 -> only_dialogs s1 s2 -> only_dialogs s s2.
Proof.
  intros (b1 & -> & H1) (b2 & -> & H2). exists (b2 ++ b1). split.
  - destruct s; cbn. rewrite <- app_assoc. reflexivity.
  - apply Forall_app. split; assumption.
Qed.

(** The label depends on the two sigmas alone. *)
Lemma label_of_sigmas (c c' : settings) :
  hotSigma c' = hotSigma c -> coldSigma c' = coldSigma c ->
  CosmeticCorrectionDialog c' = CosmeticCorrectionDialog c.
Proof.
  intros Hh Hc. unfold CosmeticCorrectionDialog, updateValidationStatus, warnings.
  rewrite Hh, Hc. reflexivity.
Qed.

Lemma cc_dialog_inv : forall actions c d h is_cc s,
  exists c' d' b s1,
    dialog_execute actions c d h is_cc s = (Ok (c', d', b), s1) /\
    only_dialogs s s1 /\
    (b = true -> activeWindow h <> None /\ icon_checked c' h is_cc) /\
    (d = CosmeticCorrectionDialog c -> d' = CosmeticCorrectionDialog c').
Proof.
  induction actions as [| a rest IH]; intros c d h is_cc s.
  - exists c, d, false, s. split; [reflexivity |].
    split; [apply only_dialogs_refl |]. split; [discriminate | auto].
  - destruct a as [b | value | b | value | value | value | b | |];
      cbn [dialog_execute].
    + destruct (IH (set_useProcessIcon b c) d h is_cc s)
        as (c' & d' & b' & s1 & E & H1 & H2 & H3).
      exists c', d', b', s1. split; [exact E |]. split; [exact H1 |]. split; [exact H2 |].
      intros ->. apply H3. symmetry. apply label_of_sigmas; reflexivity.
    + destruct (IH (set_processIconId (JS.trim value) c) d h is_cc s)
        as (c' & d' & b' & s1 & E & H1 & H2 & H3).
      exists c', d', b', s1. split; [exact E |]. split; [exact H1 |]. split; [exact H2 |].
      intros ->. apply H3. symmetry. apply label_of_sigmas; reflexivity.
    + destruct (IH (set_useAutoDetect b c) d h is_cc s)
        as (c' & d' & b' & s1 & E & H1 & H2 & H3).
      exists c', d', b', s1. split; [exact E |]. split; [exact H1 |]. split; [exact H2 |].
      intros ->. apply H3. symmetry. apply label_of_sigmas; reflexivity.
    + destruct (IH (set_hotSigma value c)
                  (updateValidationStatus (set_hotSigma value c) d) h is_cc s)
        as (c' & d' & b' & s1 & E & H1 & H2 & H3).
      exists c', d', b', s1. split; [exact E |]. split; [exact H1 |]. split; [exact H2 |].
      intros _. apply H3. reflexivity.
    + destruct (IH (set_coldSigma value c)
                  (updateValidationStatus (set_coldSigma value c) d) h is_cc s)
        as (c' & d' & b' & s1 & E & H1 & H2 & H3).
      exists c', d', b', s1. split; [exact E |]. split; [exact H1 |]. split; [exact H2 |].
      intros _. apply H3. reflexivity.
    + destruct (IH (set_amount value c) d h is_cc s)
        as (c' & d' & b' & s1 & E & H1 & H2 & H3).
      exists c', d', b', s1. split; [exact E |]. split; [exact H1 |]. split; [exact H2 |].
      intros ->. apply H3. symmetry. apply label_of_sigmas; reflexivity.
    + destruct (IH (set_cfa b c) d h is_cc s)
        as (c' & d' & b' & s1 & E & H1 & H2 & H3).
      exists c', d', b', s1. split; [exact E |]. split; [exact H1 |]. split; [exact H2 |].
      intros ->. apply H3. symmetry. apply label_of_sigmas; reflexivity.
    + destruct (ok_Button_onClick_spec c h is_cc s) as (b & s1 & E & H1 & H2).
      unfold bind at 1. rewrite E. destruct b.
      * exists c, d, true, s1. split; [reflexivity |]. split; [exact H1 |].
        split; [exact H2 | auto].
      * destruct (IH c d h is_cc s1) as (c' & d' & b' & s2 & E' & H1' & H2' & H3').
        exists c', d', b', s2. split; [exact E' |].
        split; [eapply only_dialogs_trans; eassumption |]. split; assumption.
    + exists c, d, false, s. split; [reflexivity |].
      split; [apply only_dialogs_refl |]. split; [discriminate | auto].
Qed.

End CosmeticCorrectionDialog.

(** ** The CosmeticCorrection dialog *)

(** The dialog raises no exception and does nothing but show dialogs.  It
    is accepted only with an active window and, when a process icon is to
    be used, with an id that is not empty and names an existing icon that
    holds a CosmeticCorrection instance.  [main] runs the job out of the
    accepted dialog only (a start from a process icon shows the dialog as
    well), so a job started by [main] never ends in the exception of a
    missing icon. *)
Theorem cc_dialog_checks_icon :
  (forall actions c d h is_cc s,
     let run := CosmeticCorrection.dialog_execute actions c d h is_cc s in
     exists c' d' accepted,
       fst run = Ok (c', d', accepted) /\
       only_dialogs s (snd run) /\
       (accepted = true -> activeWindow h <> None /\ icon_checked c' h is_cc)) /\
  (forall P c actions h is_cc s,
     fst (CosmeticCorrection.main P c actions h is_cc s) <>
       Ok (Some (Failure (HostException "TypeError: CC is null")))).
Proof.
  split.
  - intros actions c d h is_cc s. cbv zeta.
    destruct (cc_dialog_inv actions c d h is_cc s)
      as (c' & d' & b & s1 & E & H1 & H2 & _).
    rewrite E. exists c', d', b. cbn [fst snd]. auto.
  - intros P c actions h is_cc s. unfold CosmeticCorrection.main, bind at 1.
    unfold Parameters.lift.
    destruct (CosmeticCorrection.importParameters P c) as [c1 | e]; [| discriminate].
    destruct (activeWindow h) as [name |] eqn:Ea.
    + unfold bind at 1.
      destruct (cc_dialog_inv actions c1 (CosmeticCorrection.CosmeticCorrectionDialog c1)
                  h is_cc s) as (c' & d' & b & s1 & E & H1 & H2 & _).
      rewrite E. destruct b; [| discriminate].
      unfold bind.
      destruct (CosmeticCorrection.applyCosmeticCorrection c' h s1) as [r s2] eqn:Ej.
      pose proof (cc_returns _ _ _ _ _ Ej) as (o & ->). cbn [fst ret].
      intros Hf. injection Hf as Hf. subst o.
      apply cc_effects in Ej. destruct Ej as (_ & _ & _ & Hi).
      destruct (Hi eq_refl) as (Hu & Hn & Hx).
      destruct (H2 eq_refl) as (_ & Hc). destruct (Hc Hu) as (_ & Hx' & _).
      rewrite Hx in Hx'. discriminate Hx'.
    + unfold bind. rewrite MessageBox_run. cbn [fst]. discriminate.
Qed.

(** The user asks for a process icon, clicks OK with the id still empty,
    types the id with blanks around it and clicks OK again. *)
Lemma cc_dialog_checks_icon_witness :
  let actions := [CosmeticCorrection.CheckUseIcon true; CosmeticCorrection.ClickOK;
                  CosmeticCorrection.TypeProcessIcon "  CC_Icon_01 ";
                  CosmeticCorrection.ClickOK] in
  let c := CosmeticCorrection.CosmeticCorrectionData in
  let run := CosmeticCorrection.dialog_execute actions c
               (CosmeticCorrection.CosmeticCorrectionDialog c) cc_icon_host
               (fun _ => true) start in
  (exists c' d',
     fst run = Ok (c', d', true) /\
     CosmeticCorrection.processIconId c' = "CC_Icon_01") /\
  log (snd run) = [EvMessageBox StdIcon_Error "Enter the process icon ID!"] /\
  exists c' d' accepted,
    fst run = Ok (c', d', accepted) /\
    only_dialogs start (snd run) /\
    (accepted = true ->
     activeWindow cc_icon_host <> None /\ icon_checked c' cc_icon_host (fun _ => true)).
Proof.
  cbv zeta. split; [eexists _, _; split; reflexivity |]. split; [reflexivity |].
  apply (proj1 cc_dialog_checks_icon).
Defined.

(** The status label of the dialog shows the text of the typical range
    exactly when both sigmas lie within 1 and 3, and it always goes with
    the sigmas the settings hold: whatever the user does in the dialog,
    the label at the end is the one [updateValidationStatus] computes from
    the settings at the end. *)
Theorem cc_status_label_follows_sigmas :
  (forall c d,
     CosmeticCorrection.validationStatus_Label
       (CosmeticCorrection.updateValidationStatus c d) =
       CosmeticCorrection.typical_range_text
     <-> typical_sigmas c = true) /\
  (forall actions c h is_cc s c' d' accepted,
     fst (CosmeticCorrection.dialog_execute actions c
            (CosmeticCorrection.CosmeticCorrectionDialog c) h is_cc s) =
       Ok (c', d', accepted) ->
     d' = CosmeticCorrection.updateValidationStatus c' d').
Proof.
  split.
  - intros c d.
    unfold CosmeticCorrection.updateValidationStatus, CosmeticCorrection.warnings,
      typical_sigmas, within.
    destruct (JS.num_ltb (CosmeticCorrection.hotSigma c) (JS.ofZ 1));
      destruct (JS.num_gtb (CosmeticCorrection.hotSigma c) (JS.ofZ 3));
      destruct (JS.num_ltb (CosmeticCorrection.coldSigma c) (JS.ofZ 1));
      destruct (JS.num_gtb (CosmeticCorrection.coldSigma c) (JS.ofZ 3));
      cbn; split; intros H; try reflexivity; discriminate H.
  - intros actions c h is_cc s c' d' accepted H.
    destruct (cc_dialog_inv actions c (CosmeticCorrection.CosmeticCorrectionDialog c)
                h is_cc s) as (c1 & d1 & b & s1 & E & _ & _ & Hl).
    rewrite E in H. cbn [fst] in H. injection H as -> -> ->.
    rewrite (Hl eq_refl). reflexivity.
Qed.

(** The user sets the hot sigma to 0.5: the label warns. *)
Lemma cc_status_label_follows_sigmas_witness :
  let c := CosmeticCorrection.CosmeticCorrectionData in
  let run := CosmeticCorrection.dialog_execute
               [CosmeticCorrection.SetHotSigma (JS.mkNum 5 1)] c
               (CosmeticCorrection.CosmeticCorrectionDialog c) cc_icon_host
               (fun _ => true) start in
  exists c' d',
    fst run = Ok (c', d', false) /\
    CosmeticCorrection.validationStatus_Label d' =
      "<font color='#FF6666'>Hot Sigma very low (<1.0)</font>" /\
    d' = CosmeticCorrection.updateValidationStatus c' d'.
Proof.
  cbv zeta. eexists _, _. split; [reflexivity |]. split; [reflexivity |].
  eapply (proj2 cc_status_label_follows_sigmas
            [CosmeticCorrection.SetHotSigma (JS.mkNum 5 1)]
            CosmeticCorrection.CosmeticCorrectionData cc_icon_host (fun _ => true) start).
  reflexivity.
Defined.
(* ------------------------------------------------------------------------- *)
(** * Parameters read from a process icon *)
(* ------------------------------------------------------------------------- *)

Section ImportSteps.

(** One step of an import that went through: the key is absent and the
    settings stay, or its value was read and stored. *)
Lemma import_key_step {A S : Type} (P : Parameters.t) (k : string)
      (getter : Parameters.t -> string -> result A) (store : A -> S -> S)
      (r : result S) (c' : S) :
  Parameters.import_key P k getter store r = Ok c' ->
  exists c0, r = Ok c0 /\
    ((Parameters.has P k = false /\ c' = c0) \/
     (exists v, Parameters.has P k = true /\ getter P k = Ok v /\ c' = store v c0)).
Proof.
  unfold Parameters.import_key. destruct r as [c0 | e]; [| discriminate].
  intros H. exists c0. split; [reflexivity |].
  destruct (Parameters.has P k).
  - right. destruct (getter P k) as [v | e]; [| discriminate].
    exists v. injection H as <-. auto.
  - left. injection H as <-. auto.
Qed.

End ImportSteps.

Ltac import_chain H :=
  repeat (apply import_key_step in H;
          let c := fresh "c" in let Hk := fresh "Hk" in
          destruct H as (c & H & Hk));
  injection H as H.

Ltac import_cases :=
  repeat match goal with
         | Hk : (_ /\ _) \/ (exists _, _) |- _ =>
             destruct Hk as [(? & ?) | (? & ? & ? & ?)]
         end.

Ltac import_again :=
  repeat match goal with
         | Hh : Parameters.has ?P ?k = _ |- context [Parameters.has ?P ?k] =>
             rewrite Hh
         | Hg : ?g ?P ?k = Ok _ |- context [?g ?P ?k] => rewrite Hg
         end.

(** Importing changes only the fields whose keys the store holds: a key
    that is absent leaves its field as it was, and the fields that have no
    key (the wrapper script and the output directory among them) are never
    changed, whatever the store holds. *)
Theorem import_changes_only_present_keys :
  (forall P c c',
     DeepCR.importParameters P c = Ok c' ->
     DeepCR.wrapperScript c' = DeepCR.wrapperScript c /\
     DeepCR.outputDir c' = DeepCR.outputDir c /\
     DeepCR.inpaint c' = DeepCR.inpaint c /\
     (Parameters.has P "model" = false -> DeepCR.model c' = DeepCR.model c) /\
     (Parameters.has P "threshold" = false ->
      DeepCR.threshold c' = DeepCR.threshold c) /\
     (Parameters.has P "preset" = false -> DeepCR.preset c' = DeepCR.preset c) /\
     (Parameters.has P "saveMask" = false -> DeepCR.saveMask c' = DeepCR.saveMask c) /\
     (Parameters.has P "replaceActive" = false ->
      DeepCR.replaceActive c' = DeepCR.replaceActive c)) /\
  (forall P c c',
     LACosmic.importParameters P c = Ok c' ->
     LACosmic.wrapperScript c' = LACosmic.wrapperScript c /\
     LACosmic.outputDir c' = LACosmic.outputDir c /\
     LACosmic.sigfrac c' = LACosmic.sigfrac c /\
     LACosmic.sepmed c' = LACosmic.sepmed c /\
     LACosmic.fsmode c' = LACosmic.fsmode c /\
     LACosmic.psfmodel c' = LACosmic.psfmodel c /\
     LACosmic.psffwhm c' = LACosmic.psffwhm c /\
     LACosmic.psfsize c' = LACosmic.psfsize c /\
     LACosmic.psfbeta c' = LACosmic.psfbeta c /\
     LACosmic.satlevel c' = LACosmic.satlevel c /\
     (Parameters.has P "sigclip" = false -> LACosmic.sigclip c' = LACosmic.sigclip c) /\
     (Parameters.has P "objlim" = false -> LACosmic.objlim c' = LACosmic.objlim c) /\
     (Parameters.has P "readnoise" = false ->
      LACosmic.readnoise c' = LACosmic.readnoise c) /\
     (Parameters.has P "gain" = false -> LACosmic.gain c' = LACosmic.gain c) /\
     (Parameters.has P "niter" = false -> LACosmic.niter c' = LACosmic.niter c) /\
     (Parameters.has P "cleantype" = false ->
      LACosmic.cleantype c' = LACosmic.cleantype c) /\
     (Parameters.has P "saveMask" = false ->
      LACosmic.saveMask c' = LACosmic.saveMask c) /\
     (Parameters.has P "replaceActive" = false ->
      LACosmic.replaceActive c' = LACosmic.replaceActive c)).
Proof.
  split; intros P c c' H.
  - unfold DeepCR.importParameters in H. cbv zeta in H. import_chain H.
    import_cases; subst; cbn;
      repeat (split; [first [reflexivity | intros; congruence] |]);
      first [reflexivity | intros; congruence].
  - unfold LACosmic.importParameters in H. cbv zeta in H. import_chain H.
    import_cases; subst; cbn;
      repeat (split; [first [reflexivity | intros; congruence] |]);
      first [reflexivity | intros; congruence].
Qed.

(** Importing the same store a second time changes nothing: the settings
    an import gives are a fixed point of that import. *)
Theorem import_idempotent :
  (forall P c c',
     DeepCR.importParameters P c = Ok c' -> DeepCR.importParameters P c' = Ok c') /\
  (forall P c c',
     LACosmic.importParameters P c = Ok c' -> LACosmic.importParameters P c' = Ok c') /\
  (forall P c c',
     CosmeticCorrection.importParameters P c = Ok c' ->
     CosmeticCorrection.importParameters P c' = Ok c').
Proof.
  split; [| split]; intros P c c' H; destruct c.
  - unfold DeepCR.importParameters in *. cbv zeta in *. import_chain H.
    unfold Parameters.import_key.
    import_cases; subst; import_again; vm_compute; reflexivity.
  - unfold LACosmic.importParameters in *. cbv zeta in *. import_chain H.
    unfold Parameters.import_key.
    import_cases; subst; import_again; vm_compute; reflexivity.
  - unfold CosmeticCorrection.importParameters in *. cbv zeta in *. import_chain H.
    unfold Parameters.import_key.
    import_cases; subst; import_again; vm_compute; reflexivity.
Qed.

(** A store that holds a threshold and nothing else. *)
Lemma import_idempotent_witness :
  exists c',
    DeepCR.importParameters icon_threshold_5 (deepcr_settings false false) = Ok c' /\
    DeepCR.threshold c' = JS.mkNum 5 0 /\
    DeepCR.importParameters icon_threshold_5 c' = Ok c'.
Proof.
  eexists. split; [reflexivity |]. split; [reflexivity |].
  apply (proj1 import_idempotent icon_threshold_5 (deepcr_settings false false)).
  reflexivity.
Defined.

(* ------------------------------------------------------------------------- *)
(** * A start from a process icon *)
(* ------------------------------------------------------------------------- *)

(** Started from a process icon on a view, [main] of DeepCR and of
    L.A.Cosmic shows no dialog: the settings are the imported ones, the job
    runs at once and exactly once, and what the user would do in a dialog
    plays no part.  When the import raises an exception (a key of the wrong
    type), [main] ends in that exception before anything else is done. *)
Theorem start_on_a_view_runs_at_once :
  (forall P c actions h s c',
     let run := DeepCR.main P c actions h s in
     Parameters.isViewTarget P = true ->
     DeepCR.importParameters P c = Ok c' ->
     exists o,
       fst run = Ok (Some o) /\
       DeepCR.executeDeepCR c' h
         (set_log (EvConsole Info "<b>Executing from saved process icon...</b>"
                   :: log s) s) = (Ok o, snd run)) /\
  (forall P c actions h s c',
     let run := LACosmic.main P c actions h s in
     Parameters.isViewTarget P = true ->
     LACosmic.importParameters P c = Ok c' ->
     exists o,
       fst run = Ok (Some o) /\
       LACosmic.executeCosmicRayRemoval c' h s = (Ok o, snd run)) /\
  (forall P c actions h s e,
     (Parameters.isGlobalTarget P || Parameters.isViewTarget P) = true ->
     DeepCR.importParameters P c = Throw e ->
     DeepCR.main P c actions h s = (Throw e, s)) /\
  (forall P c actions h s e,
     (Parameters.isGlobalTarget P || Parameters.isViewTarget P) = true ->
     LACosmic.importParameters P c = Throw e ->
     LACosmic.main P c actions h s = (Throw e, s)).
Proof.
  split; [| split; [| split]].
  - intros P c actions h s c' run Hv Hi. subst run.
    unfold DeepCR.main. rewrite Hv, orb_true_r, Hi.
    unfold Parameters.lift, bind at 1. unfold bind at 1. unfold Console_writeln, emit, modify.
    unfold bind.
    destruct (DeepCR.executeDeepCR c' h _) as [r s'] eqn:E.
    destruct (deepcr_returns _ _ _ _ _ E) as (o & ->).
    exists o. split; reflexivity.
  - intros P c actions h s c' run Hv Hi. subst run.
    unfold LACosmic.main. rewrite Hv, orb_true_r, Hi.
    unfold Parameters.lift, bind at 1. unfold bind.
    destruct (LACosmic.executeCosmicRayRemoval c' h s) as [r s'] eqn:E.
    destruct (lacosmic_returns _ _ _ _ _ E) as (o & ->).
    exists o. split; reflexivity.
  - intros P c actions h s e Hf Hi. unfold DeepCR.main. rewrite Hf, Hi. reflexivity.
  - intros P c actions h s e Hf Hi. unfold LACosmic.main. rewrite Hf, Hi. reflexivity.
Qed.

(** The icon with a threshold of 5 dropped on a view, with a user who
    would have clicked Cancel. *)
Lemma start_on_a_view_runs_at_once_witness :
  exists o,
    fst (DeepCR.main icon_threshold_5 (deepcr_settings false false)
           [DeepCR.ClickCancel] deepcr_th5 start) = Ok (Some o).
Proof.
  destruct (proj1 start_on_a_view_runs_at_once icon_threshold_5
              (deepcr_settings false false) [DeepCR.ClickCancel] deepcr_th5 start
              (DeepCR.set_threshold (JS.mkNum 5 0) (deepcr_settings false false))
              eq_refl eq_refl) as (o & H & _).
  exists o. exact H.
Defined.
(* ------------------------------------------------------------------------- *)
(** * Temporary files *)
(* ------------------------------------------------------------------------- *)

(** [generateSecureTempFilename] makes up a name and nothing else: it
    draws twice from the random source and leaves the files, the clock and
    the log as they are (no file is made under the name).  Two names made
    in the same millisecond differ as soon as the random draws do. *)
Theorem temp_name_is_only_a_name :
  (forall h s,
     let run := DeepCR.generateSecureTempFilename h s in
     fst run = Ok (deepcr_tempFile h (now s) (random s)) /\
     snd run = set_random (tl (tl (random s))) s) /\
  (forall h s,
     let run := LACosmic.generateSecureTempFilename h s in
     fst run = Ok (lacosmic_tempFile h (now s) (random s)) /\
     snd run = set_random (tl (tl (random s))) s) /\
  (forall h s1 s2,
     now s1 = now s2 ->
     random_suffix (random s1) <> random_suffix (random s2) ->
     fst (DeepCR.generateSecureTempFilename h s1) <>
       fst (DeepCR.generateSecureTempFilename h s2) /\
     fst (LACosmic.generateSecureTempFilename h s1) <>
       fst (LACosmic.generateSecureTempFilename h s2)).
Proof.
  split; [| split].
  - intros h s. cbv zeta. rewrite generateSecureTempFilename_eq. split; reflexivity.
  - intros h s. cbv zeta. rewrite lacosmic_tempFilename_eq. split; reflexivity.
  - intros h s1 s2 Hn Hr.
    rewrite !generateSecureTempFilename_eq, !lacosmic_tempFilename_eq. cbn [fst].
    rewrite Hn.
    destruct (secure_names_differ h (now s2) _ _ Hr) as [H1 H2].
    split; intros H; injection H as H; contradiction.
Qed.

(** Two allocations at 1000 ms with different random draws. *)
Lemma temp_name_is_only_a_name_witness :
  fst (DeepCR.generateSecureTempFilename deepcr_hangs start) =
    Ok "/tmp/bbdcr_1000_abcdefxyz.xisf" /\
  fst (DeepCR.generateSecureTempFilename deepcr_hangs start) <>
    fst (DeepCR.generateSecureTempFilename deepcr_hangs start').
Proof.
  split; [reflexivity |].
  apply (proj2 (proj2 temp_name_is_only_a_name) deepcr_hangs start start').
  - reflexivity.
  - vm_compute. discriminate.
Defined.

(** [cleanupTempFiles] of the L.A.Cosmic script returns normally on every
    list of paths, whatever is on disk: a [null] or empty entry is passed
    over, every other path of the list is gone afterwards, and a file that
    is not in the list stays.  It touches neither the images nor the
    clock, and what it logs are removals only. *)
Theorem cleanupTempFiles_total :
  forall paths s,
    let run := LACosmic.cleanupTempFiles paths s in
    fst run = Ok tt /\
    (forall p, In (Some p) paths -> p <> "" -> ~ In p (files (snd run))) /\
    (forall q, In q (files s) -> ~ In (Some q) paths -> In q (files (snd run))) /\
    (forall q, In q (files (snd run)) -> In q (files s)) /\
    target (snd run) = target s /\ windows (snd run) = windows s /\
    now (snd run) = now s /\
    exists rem,
      log (snd run) = rem ++ EvCleanup paths :: log s /\
      Forall (fun e => is_removal e = true) rem.
Proof.
  intros paths s. cbv zeta.
  destruct (cleanupTempFiles_spec paths s) as (rem & E & Hrem). rewrite E.
  destruct s as [now0 random0 files0 target0 windows0 log0 vi vo vm]. cbn.
  split; [reflexivity |].
  split; [intros p Hin Hp; apply removed_all_gone; assumption |].
  split; [intros q Hq Hn; apply removed_all_keeps; assumption |].
  split; [intros q Hq; eapply removed_all_subset; exact Hq |].
  repeat (split; [reflexivity |]).
  exists rem. split; [reflexivity | exact Hrem].
Qed.

(** A list with a [null], an empty path, a file that exists and one that
    does not. *)
Lemma cleanupTempFiles_total_witness :
  let s := mkState 0 [] ["/tmp/a.fits"; "/tmp/b.fits"] raw [] [] None None None in
  let run := LACosmic.cleanupTempFiles
               [None; Some ""; Some "/tmp/a.fits"; Some "/tmp/none.fits"] s in
  fst run = Ok tt /\ files (snd run) = ["/tmp/b.fits"] /\
  ~ In "/tmp/a.fits" (files (snd run)).
Proof.
  cbv zeta. split; [reflexivity |]. split; [reflexivity |].
  apply (proj1 (proj2 (cleanupTempFiles_total
           [None; Some ""; Some "/tmp/a.fits"; Some "/tmp/none.fits"]
           (mkState 0 [] ["/tmp/a.fits"; "/tmp/b.fits"] raw [] [] None None None)))).
  - cbn. auto.
  - discriminate.
Defined.

(* ------------------------------------------------------------------------- *)
(** * The wrapper scripts *)
(* ------------------------------------------------------------------------- *)

Section Wrappers.
Import Wrapper.

Lemma deepcr_python_cases (dir : string) (e : env) :
  deepcr_python dir e = "" \/
  PYTHON_EXECUTABLE e = Some (deepcr_python dir e) \/
  (executable e (deepcr_python dir e) = true /\
   In (deepcr_python dir e)
      ((dir ++ "/deepcr_venv/bin/python3")%string :: system_pythons)) \/
  (deepcr_python dir e = "python3" /\ python3_on_PATH e = true).
Proof.
  unfold deepcr_python, override, system_pythons.
  destruct (PYTHON_EXECUTABLE e) as [v |].
  - destruct (String.eqb v "") eqn:Ev; cbn [negb]; [| right; left; reflexivity].
    destruct (executable e (dir ++ "/deepcr_venv/bin/python3")) eqn:E1;
      [right; right; left; cbn [In]; auto 9 |].
    destruct (executable e "/opt/homebrew/bin/python3") eqn:E2;
      [right; right; left; cbn [In]; auto 9 |].
    destruct (executable e "/usr/local/bin/python3") eqn:E3;
      [right; right; left; cbn [In]; auto 9 |].
    destruct (executable e "/usr/bin/python3") eqn:E4;
      [right; right; left; cbn [In]; auto 9 |].
    destruct (python3_on_PATH e); auto.
  - cbn [String.eqb negb].
    destruct (executable e (dir ++ "/deepcr_venv/bin/python3")) eqn:E1;
      [right; right; left; cbn [In]; auto 9 |].
    destruct (executable e "/opt/homebrew/bin/python3") eqn:E2;
      [right; right; left; cbn [In]; auto 9 |].
    destruct (executable e "/usr/local/bin/python3") eqn:E3;
      [right; right; left; cbn [In]; auto 9 |].
    destruct (executable e "/usr/bin/python3") eqn:E4;
      [right; right; left; cbn [In]; auto 9 |].
    destruct (python3_on_PATH e); auto.
Qed.

Lemma lacosmic_python_cases (e : env) (p : string) :
  lacosmic_python e = Some p ->
  p <> "" /\
  (PYTHON_EXECUTABLE e = Some p \/
   (executable e p = true /\ In p system_pythons) \/
   (p = "python3" /\ python3_on_PATH e = true)).
Proof.
  unfold lacosmic_python, override, system_pythons.
  destruct (PYTHON_EXECUTABLE e) as [v |].
  - destruct (String.eqb v "") eqn:Ev; cbn [negb].
    + destruct (executable e "/opt/homebrew/bin/python3") eqn:E2;
        [intros H; injection H as <-; split; [discriminate | cbn [In]; auto 9] |].
      destruct (executable e "/usr/local/bin/python3") eqn:E3;
        [intros H; injection H as <-; split; [discriminate | cbn [In]; auto 9] |].
      destruct (executable e "/usr/bin/python3") eqn:E4;
        [intros H; injection H as <-; split; [discriminate | cbn [In]; auto 9] |].
      destruct (python3_on_PATH e); [| discriminate].
      intros H; injection H as <-. split; [discriminate | auto].
    + intros H; injection H as <-. split; [| auto].
      intros ->. discriminate Ev.
  - cbn [String.eqb negb].
    destruct (executable e "/opt/homebrew/bin/python3") eqn:E2;
      [intros H; injection H as <-; split; [discriminate | cbn [In]; auto 9] |].
    destruct (executable e "/usr/local/bin/python3") eqn:E3;
      [intros H; injection H as <-; split; [discriminate | cbn [In]; auto 9] |].
    destruct (executable e "/usr/bin/python3") eqn:E4;
      [intros H; injection H as <-; split; [discriminate | cbn [In]; auto 9] |].
    destruct (python3_on_PATH e); [| discriminate].
    intros H; injection H as <-. split; [discriminate | auto].
Qed.

End Wrappers.

(** Each wrapper script ends in one of two ways.  It replaces itself by an
    interpreter running the command-line tool that lies beside the script,
    with the arguments it was given, unchanged; the interpreter is then the
    value of [PYTHON_EXECUTABLE], or one of the fixed places that passed
    the test for an executable, or [python3] found on the path.  Or it
    exits with code 1, and then no interpreter was found or the tool is
    not beside the script. *)
Theorem wrapper_runs_what_it_found :
  (forall dir e args,
     match Wrapper.run_deepcr dir e args with
     | Wrapper.Exec program script args' =>
         script = (dir ++ "/deepcr_cli.py")%string /\
         Wrapper.is_file e script = true /\ args' = args /\ program <> "" /\
         (Wrapper.PYTHON_EXECUTABLE e = Some program \/
          (Wrapper.executable e program = true /\
           In program ((dir ++ "/deepcr_venv/bin/python3")%string :: system_pythons)) \/
          (program = "python3" /\ Wrapper.python3_on_PATH e = true))
     | Wrapper.Exit code _ =>
         code = 1 /\
         (Wrapper.deepcr_python dir e = "" \/
          Wrapper.is_file e (dir ++ "/deepcr_cli.py")%string = false)
     end) /\
  (forall dir e args,
     match Wrapper.run_lacosmic dir e args with
     | Wrapper.Exec program script args' =>
         script = (dir ++ "/lacosmic_cli.py")%string /\
         Wrapper.is_file e script = true /\ args' = args /\ program <> "" /\
         (Wrapper.PYTHON_EXECUTABLE e = Some program \/
          (Wrapper.executable e program = true /\ In program system_pythons) \/
          (program = "python3" /\ Wrapper.python3_on_PATH e = true))
     | Wrapper.Exit code _ =>
         code = 1 /\
         (Wrapper.lacosmic_python e = None \/
          Wrapper.is_file e (dir ++ "/lacosmic_cli.py")%string = false)
     end).
Proof.
  split; intros dir e args.
  - unfold Wrapper.run_deepcr.
    destruct (String.eqb (Wrapper.deepcr_python dir e) "") eqn:Ep.
    + split; [reflexivity |]. left. apply String.eqb_eq. exact Ep.
    + destruct (Wrapper.is_file e (dir ++ "/deepcr_cli.py")) eqn:Ef; cbn [negb].
      * split; [reflexivity |]. split; [exact Ef |]. split; [reflexivity |].
        split; [intros H; rewrite H in Ep; discriminate Ep |].
        destruct (deepcr_python_cases dir e) as [H | H]; [| exact H].
        rewrite H in Ep. discriminate Ep.
      * split; [reflexivity |]. right. reflexivity.
  - unfold Wrapper.run_lacosmic.
    destruct (Wrapper.lacosmic_python e) as [p |] eqn:Ep.
    + destruct (Wrapper.is_file e (dir ++ "/lacosmic_cli.py")) eqn:Ef; cbn [negb].
      * split; [reflexivity |]. split; [exact Ef |]. split; [reflexivity |].
        apply lacosmic_python_cases. exact Ep.
      * split; [reflexivity |]. right. reflexivity.
    + split; [reflexivity |]. left. reflexivity.
Qed.

(** The interpreters are tried in a fixed order.  A value of
    [PYTHON_EXECUTABLE] that is not empty is taken as it is, by both
    scripts, without a test that it can be run.  Without it, run_deepcr.sh
    takes the interpreter of its virtual environment when that can be run;
    when it cannot, the two scripts choose the same interpreter, or both
    find none. *)
Theorem wrapper_interpreter_order :
  (forall dir e p,
     Wrapper.PYTHON_EXECUTABLE e = Some p -> p <> "" ->
     Wrapper.deepcr_python dir e = p /\ Wrapper.lacosmic_python e = Some p) /\
  (forall dir e,
     Wrapper.override e = "" ->
     Wrapper.executable e (dir ++ "/deepcr_venv/bin/python3")%string = true ->
     Wrapper.deepcr_python dir e = (dir ++ "/deepcr_venv/bin/python3")%string) /\
  (forall dir e,
     Wrapper.executable e (dir ++ "/deepcr_venv/bin/python3")%string = false ->
     Wrapper.lacosmic_python e =
       if String.eqb (Wrapper.deepcr_python dir e) "" then None
       else Some (Wrapper.deepcr_python dir e)).
Proof.
  split; [| split].
  - intros dir e p Ho Hp. unfold Wrapper.deepcr_python, Wrapper.lacosmic_python,
      Wrapper.override. rewrite Ho.
    destruct (String.eqb p "") eqn:E; [apply String.eqb_eq in E; contradiction |].
    split; reflexivity.
  - intros dir e Ho Hv. unfold Wrapper.deepcr_python. rewrite Ho, Hv. reflexivity.
  - intros dir e Hv. unfold Wrapper.deepcr_python, Wrapper.lacosmic_python. rewrite Hv.
    destruct (String.eqb (Wrapper.override e) "") eqn:Eo; cbn [negb].
    + destruct (Wrapper.executable e "/opt/homebrew/bin/python3"); [reflexivity |].
      destruct (Wrapper.executable e "/usr/local/bin/python3"); [reflexivity |].
      destruct (Wrapper.executable e "/usr/bin/python3"); [reflexivity |].
      destruct (Wrapper.python3_on_PATH e); reflexivity.
    + rewrite Eo. reflexivity.
Qed.

(** [PYTHON_EXECUTABLE] names a file that cannot be run; run_deepcr.sh
    starts it all the same. *)
Lemma wrapper_interpreter_order_witness :
  Wrapper.executable broken_override "/nowhere/python" = false /\
  Wrapper.run_deepcr "/scripts" broken_override ["in.xisf"; "/tmp"; "0.1"] =
    Wrapper.Exec "/nowhere/python" "/scripts/deepcr_cli.py" ["in.xisf"; "/tmp"; "0.1"] /\
  Wrapper.deepcr_python "/scripts" broken_override = "/nowhere/python".
Proof.
  split; [reflexivity |]. split; [reflexivity |].
  apply (proj1 (proj1 wrapper_interpreter_order "/scripts" broken_override
                  "/nowhere/python" eq_refl ltac:(discriminate))).
Defined.

(* ------------------------------------------------------------------------- *)
(** * The names of the files a job expects *)
(* ------------------------------------------------------------------------- *)

Section OutputNames.

Lemma has_char_append (x : ascii) (a b : string) :
  has_char x (a ++ b) <-> has_char x a \/ has_char x b.
Proof.
  unfold has_char. induction a as [| y a IH]; simpl.
  - tauto.
  - rewrite IH. tauto.
Qed.

Lemma substring_prefix (a b : string) :
  String.substring 0 (String.length a) (a ++ b) = a.
Proof. induction a as [| x a IH]; simpl; [destruct b | rewrite IH]; reflexivity. Qed.

(** The decimal text of an integer is made of digits and a sign. *)
Lemma string_of_uint_chars (d : Decimal.uint) (x : ascii) :
  has_char x (DecimalString.NilEmpty.string_of_uint d) ->
  In x (list_ascii_of_string "0123456789").
Proof.
  unfold has_char. induction d; simpl; intros H;
    try contradiction;
    (destruct H as [<- | H]; [simpl; auto 12 | apply IHd; exact H]).
Qed.

Lemma string_of_Z_chars (z : Z) (x : ascii) :
  has_char x (JS.string_of_Z z) -> In x (list_ascii_of_string "-0123456789").
Proof.
  unfold JS.string_of_Z, DecimalString.NilZero.string_of_int.
  assert (Hu : forall d, has_char x (DecimalString.NilZero.string_of_uint d) ->
                         In x (list_ascii_of_string "0123456789")).
  { intros d. unfold DecimalString.NilZero.string_of_uint.
    destruct d; try apply string_of_uint_chars.
    unfold has_char. simpl. intros [<- | []]. auto. }
  destruct (Z.to_int z) as [d | d]; intros H.
  - right. apply (Hu d). exact H.
  - unfold has_char in H. simpl in H. destruct H as [<- | H]; [left; reflexivity |].
    right. apply (Hu d). exact H.
Qed.

Lemma string_of_Z_plain (z : Z) :
  ~ has_char "/" (JS.string_of_Z z) /\ ~ has_char "." (JS.string_of_Z z).
Proof.
  split; intros H; apply string_of_Z_chars in H; simpl in H;
    repeat (destruct H as [H | H]; [discriminate H |]); exact H.
Qed.

(** Searching a text for a one-character pattern. *)
Lemma lastIndexOf_from_none (x : ascii) (s : string) (i : nat) :
  ~ has_char x s -> JS.lastIndexOf_from (String x "") s i = None.
Proof.
  unfold has_char. revert i. induction s as [| y s IH]; intros i H; simpl.
  - reflexivity.
  - rewrite IH by (intros Hin; apply H; right; exact Hin).
    destruct (ascii_dec x y) as [-> | _]; [| reflexivity].
    exfalso. apply H. left. reflexivity.
Qed.

Lemma lastIndexOf_from_last (x : ascii) (a rest : string) :
  ~ has_char x rest ->
  forall i, JS.lastIndexOf_from (String x "") (a ++ String x rest) i =
            Some (i + String.length a)%nat.
Proof.
  intros H. induction a as [| y a IH]; intros i; simpl.
  - rewrite lastIndexOf_from_none by exact H.
    destruct (ascii_dec x x) as [_ | N]; [| contradiction].
    destruct rest; simpl; f_equal; lia.
  - rewrite IH. f_equal. lia.
Qed.

Lemma lastIndexOf_last (x : ascii) (a rest : string) :
  ~ has_char x rest ->
  JS.lastIndexOf (String x "") (a ++ String x rest) = Z.of_nat (String.length a).
Proof.
  intros H. unfold JS.lastIndexOf. rewrite lastIndexOf_from_last by exact H.
  reflexivity.
Qed.

(** [File.extractName] of a path made of a directory, a name without
    slash and a suffix without dot or slash is the name. *)
Lemma File_extractName_stem (dir base ext : string) :
  ~ has_char "/" base -> ~ has_char "/" ext -> ~ has_char "." ext ->
  File_extractName (dir ++ "/" ++ base ++ "." ++ ext) = base.
Proof.
  intros H1 H2 H3. unfold File_extractName.
  change (dir ++ "/" ++ base ++ "." ++ ext)%string
    with (dir ++ String "/" (base ++ String "." ext))%string.
  rewrite lastIndexOf_last.
  2: { intros H. apply has_char_append in H. destruct H as [H | H]; [tauto |].
       unfold has_char in H. simpl in H. destruct H as [H | H]; [discriminate H | tauto]. }
  assert (Hn : JS.substring (Z.of_nat (String.length dir) + 1)
                 (Z.of_nat (String.length (dir ++ String "/" (base ++ String "." ext))))
                 (dir ++ String "/" (base ++ String "." ext))
               = (base ++ String "." ext)%string).
  { unfold JS.substring. rewrite append_length. simpl String.length.
    rewrite !Z.max_r by lia.
    replace (Z.to_nat (Z.of_nat (String.length dir) + 1))
      with (S (String.length dir)) by lia.
    rewrite Nat2Z.id.
    rewrite Nat.min_l, Nat.max_r by lia.
    replace (String.length dir + S (String.length (base ++ String "." ext))
             - S (String.length dir))%nat
      with (String.length (base ++ String "." ext)) by lia.
    change (dir ++ String "/" (base ++ String "." ext))%string
      with (dir ++ ("/" ++ (base ++ String "." ext)))%string.
    rewrite <- append_assoc.
    replace (S (String.length dir)) with (String.length (dir ++ "/")%string)
      by (rewrite append_length; simpl; lia).
    rewrite substring_skip. apply substring_all. }
  rewrite Hn. rewrite lastIndexOf_last by exact H3.
  destruct (Z.of_nat (String.length base) <? 0) eqn:E;
    [apply Z.ltb_lt in E; lia |].
  unfold JS.substring. rewrite Z.max_l by lia. rewrite Z.max_r by lia.
  rewrite Nat2Z.id. simpl Z.to_nat. rewrite Nat.min_l, Nat.max_r by lia.
  rewrite Nat.sub_0_r. apply substring_prefix.
Qed.

Lemma endsWith_dot (s suffix : string) :
  ~ has_char "." s -> JS.endsWith s (String "." suffix) = false.
Proof.
  intros H. destruct (JS.endsWith s (String "." suffix)) eqn:E; [| reflexivity].
  exfalso. apply endsWith_iff in E. destruct E as (a & ->).
  apply H. apply has_char_append. right. left. reflexivity.
Qed.

End OutputNames.

Section GeneratedNames.

Lemma deepcr_stem_plain (t : Z) (r : list string) :
  ~ has_char "/" (random_suffix r) -> ~ has_char "." (random_suffix r) ->
  ~ has_char "/" ("bbdcr_" ++ JS.string_of_Z t ++ "_" ++ random_suffix r) /\
  ~ has_char "." ("bbdcr_" ++ JS.string_of_Z t ++ "_" ++ random_suffix r).
Proof.
  intros H1 H2. destruct (string_of_Z_plain t) as [H3 H4].
  split; intros H;
    apply has_char_append in H; destruct H as [H | H];
    try (unfold has_char in H; simpl in H;
         repeat (destruct H as [H | H]; [discriminate H |]); exact H);
    apply has_char_append in H; destruct H as [H | H]; try tauto;
    apply has_char_append in H; destruct H as [H | H]; try tauto;
    unfold has_char in H; simpl in H;
    repeat (destruct H as [H | H]; [discriminate H |]); exact H.
Qed.

Lemma lacosmic_stem_plain (t : Z) (r : list string) :
  ~ has_char "/" (random_suffix r) -> ~ has_char "." (random_suffix r) ->
  ~ has_char "/" ("bblac_" ++ JS.string_of_Z t ++ "_" ++ random_suffix r) /\
  ~ has_char "." ("bblac_" ++ JS.string_of_Z t ++ "_" ++ random_suffix r).
Proof.
  intros H1 H2. destruct (string_of_Z_plain t) as [H3 H4].
  split; intros H;
    apply has_char_append in H; destruct H as [H | H];
    try (unfold has_char in H; simpl in H;
         repeat (destruct H as [H | H]; [discriminate H |]); exact H);
    apply has_char_append in H; destruct H as [H | H]; try tauto;
    apply has_char_append in H; destruct H as [H | H]; try tauto;
    unfold has_char in H; simpl in H;
    repeat (destruct H as [H | H]; [discriminate H |]); exact H.
Qed.

Lemma deepcr_tempFile_shape (h : host) (t : Z) (r : list string) :
  deepcr_tempFile h t r =
    (systemTempDirectory h ++ "/" ++
     ("bbdcr_" ++ JS.string_of_Z t ++ "_" ++ random_suffix r) ++ "." ++ "xisf")%string.
Proof.
  unfold deepcr_tempFile. f_equal. simpl. do 6 f_equal.
  rewrite !append_assoc. reflexivity.
Qed.

Lemma lacosmic_tempFile_shape (h : host) (t : Z) (r : list string) :
  lacosmic_tempFile h t r =
    (systemTempDirectory h ++ "/" ++
     ("bblac_" ++ JS.string_of_Z t ++ "_" ++ random_suffix r) ++ "." ++ "fits")%string.
Proof.
  unfold lacosmic_tempFile. f_equal. simpl. do 6 f_equal.
  rewrite !append_assoc. reflexivity.
Qed.

End GeneratedNames.

(** A job looks for the result of the tool under the name of its own
    temporary file: for a name made by [generateSecureTempFilename] (the
    random part holds no dot and no slash), whatever the temp directory is
    called, the stem the job computes is the name without directory and
    suffix, so the primary output and the mask are expected directly in
    the output directory, under that stem followed by the ending of the
    tool. *)
Theorem output_names_follow_temp_name :
  (forall c h t r,
     ~ has_char "/" (random_suffix r) -> ~ has_char "." (random_suffix r) ->
     let stem := ("bbdcr_" ++ JS.string_of_Z t ++ "_" ++ random_suffix r)%string in
     DeepCR.tempBaseName_of (deepcr_tempFile h t r) = stem /\
     DeepCR.cleanedPath_of c (deepcr_tempFile h t r) =
       (DeepCR.outputDir c ++ "/" ++ stem ++ "_deepcr_th" ++
        JS.toString (DeepCR.threshold c) ++ "_cleaned.xisf")%string /\
     DeepCR.maskPath_of c (deepcr_tempFile h t r) =
       (DeepCR.outputDir c ++ "/" ++ stem ++ "_deepcr_th" ++
        JS.toString (DeepCR.threshold c) ++ "_mask.xisf")%string) /\
  (forall c h t r,
     ~ has_char "/" (random_suffix r) -> ~ has_char "." (random_suffix r) ->
     let stem := ("bblac_" ++ JS.string_of_Z t ++ "_" ++ random_suffix r)%string in
     LACosmic.tempBaseName_of (lacosmic_tempFile h t r) = stem /\
     LACosmic.outputPath_of c (lacosmic_tempFile h t r) =
       (LACosmic.outputDir c ++ "/" ++ stem ++ "_crr.fits")%string /\
     LACosmic.maskPath_of c (lacosmic_tempFile h t r) =
       (LACosmic.outputDir c ++ "/" ++ stem ++ "_crm.fits")%string).
Proof.
  split; intros c h t r H1 H2 stem.
  - destruct (deepcr_stem_plain t r H1 H2) as [Hs Hd]. fold stem in Hs, Hd.
    assert (E : DeepCR.tempBaseName_of (deepcr_tempFile h t r) = stem).
    { unfold DeepCR.tempBaseName_of. rewrite deepcr_tempFile_shape. fold stem.
      rewrite File_extractName_stem; try exact Hs;
        try (unfold has_char; simpl; intros H;
             repeat (destruct H as [H | H]; [discriminate H |]); exact H).
      rewrite !endsWith_dot by exact Hd. reflexivity. }
    unfold DeepCR.cleanedPath_of, DeepCR.maskPath_of. rewrite E. auto.
  - destruct (lacosmic_stem_plain t r H1 H2) as [Hs Hd]. fold stem in Hs, Hd.
    assert (E : LACosmic.tempBaseName_of (lacosmic_tempFile h t r) = stem).
    { unfold LACosmic.tempBaseName_of. rewrite lacosmic_tempFile_shape. fold stem.
      rewrite File_extractName_stem; try exact Hs;
        try (unfold has_char; simpl; intros H;
             repeat (destruct H as [H | H]; [discriminate H |]); exact H).
      rewrite !endsWith_dot by exact Hd. reflexivity. }
    unfold LACosmic.outputPath_of, LACosmic.maskPath_of. rewrite E. auto.
Qed.

(** The job of the samples: temp directory [/tmp], clock at 1000 ms, random
    part [abcdefxyz]. *)
Lemma output_names_follow_temp_name_witness :
  DeepCR.cleanedPath_of (deepcr_settings false false)
    (deepcr_tempFile deepcr_no_mask 1000 (random start)) =
    "/tmp/bbdcr_1000_abcdefxyz_deepcr_th0.1_cleaned.xisf".
Proof.
  refine (eq_trans
    (proj1 (proj2 (proj1 output_names_follow_temp_name (deepcr_settings false false)
                     deepcr_no_mask 1000 (random start) _ _))) _).
  - vm_compute. intros H. repeat (destruct H as [H | H]; [discriminate H |]). exact H.
  - vm_compute. intros H. repeat (destruct H as [H | H]; [discriminate H |]). exact H.
  - reflexivity.
Defined.
